(** * Schema and data-quality validation engine: a verification development

    A shallow embedding of [tools.py] (schema extraction, type-compatibility
    checking, constraint validation) and of the per-sheet pipeline of
    [validation_module.py], followed by the properties proved about them.

    Modelling conventions.
    - A Python scalar held in a DataFrame cell or in a JSON document is a
      [cell]; [Null] stands for both [None] and [NaN] (pandas' [isnull]).
    - A float is a rational [q] together with its Python rendering [repr]:
      comparisons of finite floats are comparisons of rationals; the
      shortest-round-trip printing and the rounding of decimal literals to
      binary64 are not recomputed.
    - Dictionaries are association lists in insertion order.
    - Python exceptions are values of [exn]; code that can raise lives in
      the error monad [result].
    - Column labels are strings; characters are ASCII.
    - The two checkers and the summary are modelled on the values above;
      [inspect(engine)] is taken to succeed, and log records are kept for
      the two checkers only. *)

From Stdlib Require Import List Bool Arith ZArith QArith Qround Lia.
From Stdlib Require Import Ascii String DecimalString.
Import ListNotations.

Local Open Scope string_scope.
Local Open Scope list_scope.
Local Open Scope Z_scope.

Set Warnings "-register-all".

(** ** Python values *)

Module Py.

Inductive cell : Type :=
| Null
| CBool (b : bool)
| CInt (z : Z)
| CFloat (q : Q) (repr : string)
| CStr (s : string)
| CTime (iso : string).

Inductive pyval : Type :=
| PV (c : cell)
| PList (l : list pyval)
| PDict (d : list (string * pyval)).

Definition dict : Type := list (string * pyval).

Definition PNone : pyval := PV Null.
Definition PStr (s : string) : pyval := PV (CStr s).
Definition PInt (z : Z) : pyval := PV (CInt z).
Definition PNat (n : nat) : pyval := PV (CInt (Z.of_nat n)).
Definition PBool (b : bool) : pyval := PV (CBool b).
Definition empty_dict : pyval := PDict [].

Inductive exn : Type :=
| KeyError (key : string)
| ValueError (msg : string)
| TypeError (msg : string)
| AttributeError (msg : string)
| IOError (msg : string).

Inductive result (A : Type) : Type :=
| Ok (a : A)
| Raise (e : exn).

Arguments Ok {A} a.
Arguments Raise {A} e.

Definition bind {A B : Type} (r : result A) (k : A -> result B) : result B :=
  match r with
  | Ok a => k a
  | Raise e => Raise e
  end.

Definition string_of_Z (z : Z) : string := NilZero.string_of_int (Z.to_int z).
Definition string_of_nat (n : nat) : string := string_of_Z (Z.of_nat n).

(** [str(e)] for an exception: a [KeyError] renders its key in quotes. *)
Definition str_exn (e : exn) : string :=
  match e with
  | KeyError k => "'" ++ k ++ "'"
  | ValueError m | TypeError m | AttributeError m | IOError m => m
  end.

(** [str(v)] for a scalar. *)
Definition py_str (c : cell) : string :=
  match c with
  | Null => "nan"
  | CBool true => "True"
  | CBool false => "False"
  | CInt z => string_of_Z z
  | CFloat _ r => r
  | CStr s => s
  | CTime iso => iso
  end.

(** *** Dictionaries *)

Fixpoint dict_get (k : string) (d : dict) : option pyval :=
  match d with
  | [] => None
  | (k', v) :: d' => if String.eqb k k' then Some v else dict_get k d'
  end.

Definition dict_mem (k : string) (d : dict) : bool :=
  match dict_get k d with Some _ => true | None => false end.

(** [d[k]] *)
Definition dict_item (k : string) (d : dict) : result pyval :=
  match dict_get k d with
  | Some v => Ok v
  | None => Raise (KeyError k)
  end.

(** [d.get(k, default)] *)
Definition dict_get_default (k : string) (default : pyval) (d : dict) : pyval :=
  match dict_get k d with Some v => v | None => default end.

(** [d[k] = v]: an existing key keeps its position. *)
Fixpoint dict_set (k : string) (v : pyval) (d : dict) : dict :=
  match d with
  | [] => [(k, v)]
  | (k', v') :: d' =>
      if String.eqb k k' then (k', v) :: d' else (k', v') :: dict_set k v d'
  end.

(** [d.pop(k)] for a key that is present: the dictionary without it. *)
Fixpoint dict_remove (k : string) (d : dict) : dict :=
  match d with
  | [] => []
  | (k', v') :: d' =>
      if String.eqb k k' then d' else (k', v') :: dict_remove k d'
  end.

(** [d.update(other)] *)
Definition dict_update (d other : dict) : dict :=
  fold_left (fun acc kv => dict_set (fst kv) (snd kv) acc) other d.

(** Python truthiness, as used by [not x] and [if x]. *)
Definition truthy (v : pyval) : bool :=
  match v with
  | PV Null => false
  | PV (CBool b) => b
  | PV (CInt z) => negb (z =? 0)
  | PV (CFloat q _) => negb (Qeq_bool q 0)
  | PV (CStr s) => negb (String.eqb s EmptyString)
  | PV (CTime _) => true
  | PList l => negb (Nat.eqb (List.length l) 0)
  | PDict d => negb (Nat.eqb (List.length d) 0)
  end.

End Py.

(** ** String operations used by the sources *)

Module Str.

Definition is_upper (c : ascii) : bool :=
  let n := nat_of_ascii c in (Nat.leb 65 n && Nat.leb n 90)%bool.

Definition is_lower (c : ascii) : bool :=
  let n := nat_of_ascii c in (Nat.leb 97 n && Nat.leb n 122)%bool.

Definition is_digit (c : ascii) : bool :=
  let n := nat_of_ascii c in (Nat.leb 48 n && Nat.leb n 57)%bool.

(** [\s] of Python's [re] and the blanks of [str.strip], within ASCII:
    space, tab to carriage return, and the four separators 28 to 31. *)
Definition is_space (c : ascii) : bool :=
  let n := nat_of_ascii c in
  (Nat.eqb n 32 || (Nat.leb 9 n && Nat.leb n 13) || (Nat.leb 28 n && Nat.leb n 31))%bool.

Definition upper_char (c : ascii) : ascii :=
  if is_lower c then ascii_of_nat (nat_of_ascii c - 32) else c.

Definition lower_char (c : ascii) : ascii :=
  if is_upper c then ascii_of_nat (nat_of_ascii c + 32) else c.

(** [s.upper()] *)
Fixpoint upper (s : string) : string :=
  match s with
  | EmptyString => EmptyString
  | String c s' => String (upper_char c) (upper s')
  end.

(** [s.startswith(p)], returning the remainder. *)
Fixpoint strip_prefix (p s : string) : option string :=
  match p, s with
  | EmptyString, _ => Some s
  | String a p', String b s' =>
      if Ascii.eqb a b then strip_prefix p' s' else None
  | String _ _, EmptyString => None
  end.

Definition startswith (p s : string) : bool :=
  match strip_prefix p s with Some _ => true | None => false end.

(** The same, ignoring ASCII case ([re.IGNORECASE] on a literal). *)
Fixpoint strip_prefix_nocase (p s : string) : option string :=
  match p, s with
  | EmptyString, _ => Some s
  | String a p', String b s' =>
      if Ascii.eqb (lower_char a) (lower_char b)
      then strip_prefix_nocase p' s' else None
  | String _ _, EmptyString => None
  end.

(** [sub in s] *)
Fixpoint contains (sub s : string) : bool :=
  (startswith sub s ||
   match s with
   | EmptyString => false
   | String _ s' => contains sub s'
   end)%bool.

(** [s.endswith(suffix)] *)
Fixpoint endswith (suffix s : string) : bool :=
  (String.eqb suffix s ||
   match s with
   | EmptyString => false
   | String _ s' => endswith suffix s'
   end)%bool.

(** [s.split(sep)[0]] for a one-character separator. *)
Fixpoint before_char (sep : ascii) (s : string) : string :=
  match s with
  | EmptyString => EmptyString
  | String c s' => if Ascii.eqb c sep then EmptyString else String c (before_char sep s')
  end.

Fixpoint lstrip (s : string) : string :=
  match s with
  | EmptyString => EmptyString
  | String c s' => if is_space c then lstrip s' else s
  end.

Fixpoint rstrip (s : string) : string :=
  match s with
  | EmptyString => EmptyString
  | String c s' =>
      match rstrip s' with
      | EmptyString => if is_space c then EmptyString else String c EmptyString
      | r => String c r
      end
  end.

(** [s.strip()] *)
Definition strip (s : string) : string := rstrip (lstrip s).

(** [os.path.basename] on a POSIX path: what follows the last slash. *)
Fixpoint basename_from (acc s : string) : string :=
  match s with
  | EmptyString => acc
  | String c s' =>
      if Ascii.eqb c "/"%char then basename_from s' s' else basename_from acc s'
  end.

Definition basename (path : string) : string := basename_from path path.

(** Longest prefix of decimal digits, and the rest. *)
Fixpoint span_digits (s : string) : list ascii * string :=
  match s with
  | EmptyString => ([], EmptyString)
  | String c s' =>
      if is_digit c
      then let '(ds, r) := span_digits s' in (c :: ds, r)
      else ([], s)
  end.

Definition digit_value (c : ascii) : Z := Z.of_nat (nat_of_ascii c - 48).

Definition digits_value (ds : list ascii) : Z :=
  fold_left (fun acc c => 10 * acc + digit_value c) ds 0.

(** The rational denoted by [int_digits.frac_digits]. *)
Definition decimal_value (neg : bool) (int_ds frac_ds : list ascii) : Q :=
  let scale := Z.pow 10 (Z.of_nat (List.length frac_ds)) in
  let m := digits_value (int_ds ++ frac_ds) in
  Qmake (if neg then - m else m) (Z.to_pos scale).

(** The number grammar shared by [float(s)] and [pd.to_numeric(s)] in this
    model: an optional sign, digits with an optional fractional part (one
    of the two may be empty), surrounding blanks ignored.  Exponents,
    [inf], [nan] and digit separators are outside the model and count as
    non-numeric. *)
Definition parse_unsigned (s : string) : option (list ascii * list ascii) :=
  let '(ds, r) := span_digits s in
  match r with
  | EmptyString => match ds with [] => None | _ => Some (ds, []) end
  | String c r' =>
      if Ascii.eqb c "."%char then
        match span_digits r' with
        | (fs, EmptyString) =>
            match ds, fs with
            | [], [] => None
            | _, _ => Some (ds, fs)
            end
        | _ => None
        end
      else None
  end.

Definition parse_number (s : string) : option Q :=
  match strip s with
  | EmptyString => None
  | String c r as t =>
      if Ascii.eqb c "-"%char then
        option_map (fun p => decimal_value true (fst p) (snd p)) (parse_unsigned r)
      else if Ascii.eqb c "+"%char then
        option_map (fun p => decimal_value false (fst p) (snd p)) (parse_unsigned r)
      else
        option_map (fun p => decimal_value false (fst p) (snd p)) (parse_unsigned t)
  end.

End Str.

(** ** The fragment of pandas the sources rely on *)

Module Pandas.
Import Py.

(** A DataFrame: a header of (label, dtype name) pairs, labels possibly
    repeated, and rows carrying their index label.  [str(dtype)] and
    [dtype == 'object'] are the only observations the sources make of a
    dtype, so a dtype is its name. *)
Record DataFrame : Type := mkDataFrame {
  columns : list (string * string);
  rows : list (Z * list cell)
}.

(** A Series: what [df[label]] returns for a label that occurs once. *)
Record Series : Type := mkSeries {
  s_dtype : string;
  s_index : list Z;
  s_values : list cell
}.

Inductive selection : Type :=
| SelSeries (s : Series)
| SelFrame (width : nat)
| SelMissing.

Definition labels (df : DataFrame) : list string := map fst (columns df).
Definition index (df : DataFrame) : list Z := map fst (rows df).

(** [label in df.columns] *)
Definition has_column (name : string) (df : DataFrame) : bool :=
  existsb (String.eqb name) (labels df).

Fixpoint positions_from (name : string) (ls : list string) (i : nat) : list nat :=
  match ls with
  | [] => []
  | l :: ls' =>
      if String.eqb name l then i :: positions_from name ls' (S i)
      else positions_from name ls' (S i)
  end.

Definition positions (name : string) (df : DataFrame) : list nat :=
  positions_from name (labels df) 0.

Definition column_at (df : DataFrame) (j : nat) : Series :=
  mkSeries (nth j (map snd (columns df)) EmptyString)
           (index df)
           (map (fun r => nth j (snd r) Null) (rows df)).

(** [df[name]]: a Series for a label that occurs once, a DataFrame for a
    repeated label. *)
Definition getitem (df : DataFrame) (name : string) : selection :=
  match positions name df with
  | [] => SelMissing
  | [j] => SelSeries (column_at df j)
  | js => SelFrame (List.length js)
  end.

Definition is_null (c : cell) : bool :=
  match c with Null => true | _ => false end.

(** [df.dropna(how='all')]: a row goes when every cell of it is null. *)
Definition dropna_all (df : DataFrame) : DataFrame :=
  mkDataFrame (columns df)
              (filter (fun r => negb (forallb is_null (snd r))) (rows df)).

(** [df.empty] *)
Definition df_empty (df : DataFrame) : bool :=
  (Nat.eqb (List.length (rows df)) 0 || Nat.eqb (List.length (columns df)) 0)%bool.

(** [df.rename(columns=mapping)] *)
Definition rename_label (mapping : list (string * string)) (l : string) : string :=
  match find (fun kv => String.eqb l (fst kv)) mapping with
  | Some kv => snd kv
  | None => l
  end.

Definition rename (mapping : list (string * string)) (df : DataFrame) : DataFrame :=
  mkDataFrame (map (fun c => (rename_label mapping (fst c), snd c)) (columns df))
              (rows df).

(** Numeric scalars: Python's [1 == 1.0 == True]. *)
Definition scalar_number (c : cell) : option Q :=
  match c with
  | CBool b => Some (inject_Z (if b then 1 else 0))
  | CInt z => Some (inject_Z z)
  | CFloat q _ => Some q
  | _ => None
  end.

(** Equality of hashable scalars, as the hash tables behind [unique] and
    [duplicated] see it. *)
Definition cell_eqb (a b : cell) : bool :=
  match a, b with
  | Null, Null => true
  | CStr s, CStr t => String.eqb s t
  | CTime s, CTime t => String.eqb s t
  | _, _ =>
      match scalar_number a, scalar_number b with
      | Some p, Some q => Qeq_bool p q
      | _, _ => false
      end
  end.

(** [series.dropna()] on the values. *)
Definition dropna (vs : list cell) : list cell :=
  filter (fun c => negb (is_null c)) vs.

(** [series.unique()]: distinct values in order of first occurrence. *)
Fixpoint unique_acc (seen vs : list cell) : list cell :=
  match vs with
  | [] => []
  | v :: vs' =>
      if existsb (cell_eqb v) seen then unique_acc seen vs'
      else v :: unique_acc (v :: seen) vs'
  end.

Definition unique (vs : list cell) : list cell := unique_acc [] vs.

Definition count_eq (v : cell) (vs : list cell) : nat :=
  List.length (filter (cell_eqb v) vs).

(** [duplicated(keep=False)]: every row whose key occurs more than once. *)
Definition duplicated_all (keys : list cell) : list bool :=
  map (fun k => Nat.leb 2 (count_eq k keys)) keys.

(** [pd.to_numeric(x, errors='coerce')] on one value; [None] is NaN. *)
Definition to_numeric (c : cell) : option Q :=
  match c with
  | CStr s => Str.parse_number s
  | _ => scalar_number c
  end.

(** Keep the entries of [xs] whose mask bit is set. *)
Fixpoint select {A : Type} (mask : list bool) (xs : list A) : list A :=
  match mask, xs with
  | true :: m, x :: xs' => x :: select m xs'
  | false :: m, _ :: xs' => select m xs'
  | _, _ => []
  end.

Definition count_true (mask : list bool) : nat :=
  List.length (filter (fun b => b) mask).

(** [df.loc[index_labels, col].tolist()] for a column given by its values:
    for each requested label, the rows carrying it. *)
Definition loc_values (idx : list Z) (vals : list cell) (wanted : list Z) : list cell :=
  flat_map (fun l => map snd (filter (fun iv => Z.eqb (fst iv) l) (combine idx vals)))
           wanted.

End Pandas.

(** ** [tools.py] *)

Module Tools.
Import Py Pandas.

Inductive level : Type := INFO | WARNING | ERROR | CRITICAL.

Definition log_entry : Type := (level * string)%type.

(** One column of the target table, as [get_db_schema] builds it. *)
Record ColumnDetails : Type := mkColumn {
  col_type : string;
  nullable : bool;
  primary_key : bool
}.

Definition TableSchema : Type := list (string * ColumnDetails).

(** One element of [inspector.get_check_constraints(table)]. *)
Record CheckConstraint : Type := mkCheck {
  cc_name : option string;
  cc_sqltext : string
}.

Definition opt_str (o : option string) : pyval :=
  match o with Some s => PStr s | None => PNone end.

(** *** extract_schema_from_df *)

(** [str(s) if isinstance(s, (pd.Timestamp, datetime)) else s] *)
Definition sample_json (c : cell) : pyval :=
  match c with
  | CTime iso => PStr iso
  | _ => PV c
  end.

Definition null_count (vs : list cell) : nat :=
  List.length (filter is_null vs).

(** The loop over [df.columns]: [df[col].dropna()] only makes sense on a
    Series; for a repeated label [df[col]] is a DataFrame and [.unique()]
    raises. *)
Fixpoint column_details_loop (df : DataFrame) (cols : list string) (acc : dict)
  : result dict :=
  match cols with
  | [] => Ok acc
  | col :: rest =>
      match getitem df col with
      | SelSeries s =>
          let sample_values :=
            firstn 5 (map sample_json (unique (dropna (s_values s)))) in
          column_details_loop df rest
            (dict_set col
               (PDict [("inferred_type", PStr (s_dtype s));
                       ("sample_values", PList sample_values);
                       ("null_count", PNat (null_count (s_values s)))])
               acc)
      | SelFrame _ =>
          Raise (AttributeError "'DataFrame' object has no attribute 'unique'")
      | SelMissing => Raise (KeyError col)
      end
  end.

(** Returns the schema together with the caller's DataFrame as the call
    leaves it: [df.dropna(how='all', inplace=True)] works on the caller's
    object. *)
Definition extract_schema_from_df (df : DataFrame) (file_name : string)
    (sheet_name : option string) : pyval * DataFrame :=
  let df1 := dropna_all df in
  if df_empty df1 then
    (PDict [("file_name", PStr file_name); ("sheet_name", opt_str sheet_name);
            ("total_rows", PInt 0); ("columns", PDict [])], df1)
  else
    match column_details_loop df1 (labels df1) [] with
    | Ok column_details =>
        (PDict [("file_name", PStr file_name);
                ("sheet_name", opt_str sheet_name);
                ("total_rows", PNat (List.length (rows df1)));
                ("total_columns", PNat (List.length (columns df1)));
                ("columns", PDict column_details)], df1)
    | Raise e =>
        (PDict [("file_name", PStr file_name); ("sheet_name", opt_str sheet_name);
                ("total_rows", PInt 0); ("columns", PDict []);
                ("error", PStr (str_exn e))], df1)
    end.

(** *** compare_schemas *)

Definition str_list (l : list string) : pyval := PList (map PStr l).

Definition mem_str (x : string) (l : list string) : bool :=
  existsb (String.eqb x) l.

(** Set differences are listed in the order of the dictionary they come
    from (Python leaves the order of a set unspecified). *)
Definition compare_schemas (file_schema : dict) (db_schema : TableSchema) : pyval :=
  let db_keys := map fst db_schema in
  if (dict_mem "error" file_schema || negb (dict_mem "columns" file_schema))%bool then
    PDict [("missing_in_file", str_list db_keys); ("extra_in_file", PList [])]
  else
    match dict_get_default "columns" empty_dict file_schema with
    | PDict cols =>
        let file_columns := map fst cols in
        PDict [("columns_missing_from_file",
                str_list (filter (fun c => negb (mem_str c file_columns)) db_keys));
               ("columns_extra_in_file",
                str_list (filter (fun c => negb (mem_str c db_keys)) file_columns))]
    | _ =>
        PDict [("columns_missing_from_file", str_list db_keys);
               ("columns_extra_in_file", PList [])]
    end.

(** *** validate_data_types *)

Definition pandas_to_sql_map : list (string * list string) :=
  [("int64", ["INTEGER"; "INT"]);
   ("float64", ["REAL"; "FLOAT"; "NUMERIC"; "DOUBLE"]);
   ("object", ["TEXT"; "VARCHAR"; "CHAR"; "DATE"; "DATETIME"; "TIMESTAMP"; "STRING"]);
   ("datetime64[ns]", ["DATE"; "DATETIME"; "TIMESTAMP"]);
   ("bool", ["BOOLEAN"; "BOOL"])].

Fixpoint smap_get (k : string) (m : list (string * string)) : option string :=
  match m with
  | [] => None
  | (k', v) :: m' => if String.eqb k k' then Some v else smap_get k m'
  end.

Fixpoint smap_set (k v : string) (m : list (string * string)) : list (string * string) :=
  match m with
  | [] => [(k, v)]
  | (k', v') :: m' =>
      if String.eqb k k' then (k', v) :: m' else (k', v') :: smap_set k v m'
  end.

Definition smap_mem (k : string) (m : list (string * string)) : bool :=
  match smap_get k m with Some _ => true | None => false end.

(** The inversion loop, kept as written: a later non-object entry
    overwrites an earlier one. *)
Definition sql_to_pandas_map : list (string * string) :=
  fold_left
    (fun m entry =>
       let pd_type := fst entry in
       fold_left
         (fun m sql_type =>
            if (negb (smap_mem sql_type m) || negb (String.eqb pd_type "object"))%bool
            then smap_set (Str.upper sql_type) pd_type m
            else m)
         (snd entry) m)
    pandas_to_sql_map [].

Definition is_integral (q : Q) : bool := Qeq_bool q (inject_Z (Qfloor q)).

(** Body of the expected-integer loop for one value:
    [pd.to_numeric(val, errors='raise')] then
    [float(val) != int(float(val))]; a [ValueError]/[TypeError] also
    surfaces the value. *)
Definition fails_integer (val : cell) : bool :=
  match to_numeric val with
  | Some q => negb (is_integral q)
  | None => true
  end.

Definition fails_numeric (val : cell) : bool :=
  match to_numeric val with
  | Some _ => false
  | None => true
  end.

(** [for val in ...: if bad(val): samples.append(str(val));
     if len(samples) >= 5: break] *)
Fixpoint collect_samples (bad : cell -> bool) (vals : list cell) (acc : list string)
  : list string :=
  match vals with
  | [] => acc
  | val :: rest =>
      let acc' := if bad val then acc ++ [py_str val] else acc in
      if Nat.leb 5 (List.length acc') then acc' else collect_samples bad rest acc'
  end.

Definition date_types : list string := ["DATE"; "DATETIME"; "TIMESTAMP"].

Definition base_type (declared : string) : string :=
  Str.upper (Str.before_char "("%char declared).

Definition type_check_column (df : DataFrame) (db_col_name : string)
    (db_col_details : ColumnDetails) : list pyval * list log_entry :=
  if negb (has_column db_col_name df) then ([], [])
  else
    match getitem df db_col_name with
    | SelMissing => ([], [])
    | SelFrame _ =>
        ([], [(WARNING,
               ("Duplicate column name found for '" ++ db_col_name ++
                "' after mapping. This sheet is likely mismatched with the target DB table. Skipping type validation for this column.")%string)])
    | SelSeries column_data =>
        let file_dtype := s_dtype column_data in
        let db_type_base := base_type (col_type db_col_details) in
        match smap_get db_type_base sql_to_pandas_map with
        | None =>
            ([], [(WARNING,
                   ("DB type '" ++ db_type_base ++ "' for column '" ++ db_col_name ++
                    "' not in SQL-to-Pandas map. Skipping strict type check.")%string)])
        | Some expected_pd_type_category =>
            let is_db_date_type := mem_str db_type_base date_types in
            let mismatch :=
              (negb (String.eqb file_dtype expected_pd_type_category) &&
               negb (is_db_date_type && String.eqb file_dtype "object"))%bool in
            if mismatch then
              let distinct := unique (dropna (s_values column_data)) in
              let is_object := String.eqb file_dtype "object" in
              let sample_invalid_values :=
                if (String.eqb expected_pd_type_category "int64" && is_object)%bool
                then collect_samples fails_integer distinct []
                else if (String.eqb expected_pd_type_category "float64" && is_object)%bool
                then collect_samples fails_numeric distinct []
                else if is_object then map py_str (firstn 5 distinct)
                else [] in
              ([PDict [("column", PStr db_col_name);
                       ("expected_db_type", PStr db_type_base);
                       ("found_file_type", PStr file_dtype);
                       ("sample_invalid_values",
                        str_list (firstn 5 sample_invalid_values))]], [])
            else ([], [])
        end
    end.

Definition validate_data_types_log (df : DataFrame) (db_schema : TableSchema)
  : list pyval * list log_entry :=
  let per_column :=
    map (fun e => type_check_column df (fst e) (snd e)) db_schema in
  let type_violations := List.concat (map fst per_column) in
  (type_violations,
   List.concat (map snd per_column) ++
   [(INFO, ("Data type validation complete. Found " ++
            string_of_nat (List.length type_violations) ++ " mismatches.")%string)]).

Definition validate_data_types (df : DataFrame) (db_schema : TableSchema) : list pyval :=
  fst (validate_data_types_log df db_schema).

(** *** run_data_quality_checks *)

Definition is_empty_str (c : cell) : bool :=
  match c with
  | CStr s => String.eqb s EmptyString
  | _ => false
  end.

Definition is_object (s : Series) : bool := String.eqb (s_dtype s) "object".

(** [any(t in db_type for t in ('CHAR', 'TEXT', 'STRING'))] on the
    upper-cased declared type. *)
Definition is_db_string_type (declared : string) : bool :=
  existsb (fun t => Str.contains t (Str.upper declared)) ["CHAR"; "TEXT"; "STRING"].

Definition empty_string_count (column_data : Series) : nat :=
  if is_object column_data
  then List.length (filter is_empty_str (s_values column_data))
  else 0%nat.

(** The total of the not-null check. *)
Definition not_null_count (column_data : Series) (declared : string) : nat :=
  let null_count := null_count (s_values column_data) in
  let empty_string_count := empty_string_count column_data in
  if (negb (is_db_string_type declared) && Nat.ltb 0 empty_string_count)%bool
  then (null_count + empty_string_count)%nat
  else null_count.

(** The mask [isnull() | ((dtype == 'object') & (column == empty string))]. *)
Definition null_or_empty_mask (column_data : Series) : list bool :=
  map (fun c => (is_null c || (is_object column_data && is_empty_str c))%bool)
      (s_values column_data).

Definition int_list (l : list Z) : pyval := PList (map PInt l).

Definition not_null_check (db_col_name : string) (db_col_details : ColumnDetails)
    (column_data : Series) : list pyval :=
  if negb (nullable db_col_details) then
    let null_count := not_null_count column_data (col_type db_col_details) in
    if Nat.ltb 0 null_count then
      let affected_rows_sample_indices :=
        firstn 5 (select (null_or_empty_mask column_data) (s_index column_data)) in
      [PDict [("column", PStr db_col_name);
              ("check", PStr "not_null_violation");
              ("count", PNat null_count);
              ("affected_rows_sample_indices", int_list affected_rows_sample_indices);
              ("severity", PStr "high");
              ("details",
               PStr ("Column is non-nullable but contains " ++ string_of_nat null_count ++
                     " nulls (or empty strings treated as nulls for non-string columns)."))]]
    else []
  else [].

(** The key values left after [dropna(subset=[col])] and, for an object
    column, after dropping empty strings. *)
Definition pk_keys (column_data : Series) : list cell :=
  let non_null := dropna (s_values column_data) in
  if is_object column_data
  then filter (fun c => negb (is_empty_str c)) non_null
  else non_null.

(** The key column of [duplicates_df]. *)
Definition pk_duplicates (column_data : Series) : list cell :=
  let keys := pk_keys column_data in
  select (duplicated_all keys) keys.

Definition primary_key_check (db_col_name : string) (db_col_details : ColumnDetails)
    (column_data : Series) : list pyval :=
  if primary_key db_col_details then
    let duplicates := pk_duplicates column_data in
    let distinct_duplicate_values := unique duplicates in
    let duplicate_record_count := List.length duplicates in
    let distinct_keys_duplicated := List.length distinct_duplicate_values in
    if Nat.ltb 0 distinct_keys_duplicated then
      let sample_duplicates := map py_str (firstn 5 distinct_duplicate_values) in
      [PDict [("column", PStr db_col_name);
              ("check", PStr "primary_key_violation");
              ("distinct_keys_duplicated", PNat distinct_keys_duplicated);
              ("total_duplicate_records", PNat duplicate_record_count);
              ("sample_duplicate_values", str_list sample_duplicates);
              ("severity", PStr "high");
              ("details",
               PStr ("Primary key column contains duplicates for " ++
                     string_of_nat distinct_keys_duplicated ++
                     " unique key(s), affecting " ++
                     string_of_nat duplicate_record_count ++ " records total."))]]
    else []
  else [].

(** The constraint matcher.  The source's pattern is, in order: an optional
    double quote or backtick, the escaped column name, an optional double
    quote or backtick, blanks, one of the operators [>= <= > < != =],
    blanks, and a number [-?\d+(\.\d+)?]; it is applied with [re.match]
    and [re.IGNORECASE], so the match is anchored at the start only and
    what follows the number is ignored. *)
Definition is_quote (c : ascii) : bool :=
  (Nat.eqb (nat_of_ascii c) 34 || Nat.eqb (nat_of_ascii c) 96)%bool.

Definition operators : list string := [">="; "<="; ">"; "<"; "!="; "="].

(** The number group and [float] of the text it captures. *)
Definition match_number (s : string) : option Q :=
  let '(neg, s1) :=
    match s with
    | String c r => if Ascii.eqb c "-"%char then (true, r) else (false, s)
    | EmptyString => (false, s)
    end in
  match Str.span_digits s1 with
  | ([], _) => None
  | (ds, rest) =>
      let fs :=
        match rest with
        | String c r => if Ascii.eqb c "."%char then fst (Str.span_digits r) else []
        | EmptyString => []
        end in
      Some (Str.decimal_value neg ds fs)
  end.

Fixpoint first_match {A B : Type} (f : A -> option B) (l : list A) : option B :=
  match l with
  | [] => None
  | a :: l' => match f a with Some b => Some b | None => first_match f l' end
  end.

(** What follows the column name: the closing quote, the operator and the
    number. *)
Definition match_after_column (s : string) : option (string * Q) :=
  let s1 :=
    match s with
    | String c r => if is_quote c then r else s
    | EmptyString => s
    end in
  let s2 := Str.lstrip s1 in
  first_match
    (fun op =>
       match Str.strip_prefix op s2 with
       | Some r => option_map (pair op) (match_number (Str.lstrip r))
       | None => None
       end)
    operators.

Definition match_column (col s : string) : option (string * Q) :=
  match Str.strip_prefix_nocase col s with
  | Some r => match_after_column r
  | None => None
  end.

Definition match_check_constraint (col sqltext : string) : option (string * Q) :=
  match sqltext with
  | String c r =>
      if is_quote c then
        match match_column col r with
        | Some m => Some m
        | None => match_column col sqltext
        end
      else match_column col sqltext
  | EmptyString => match_column col sqltext
  end.

Definition Qlt_bool (a b : Q) : bool := negb (Qle_bool b a).

(** The complement predicate chosen by the operator. *)
Definition violates (operator : string) (value x : Q) : bool :=
  if String.eqb operator ">" then Qle_bool x value
  else if String.eqb operator ">=" then Qlt_bool x value
  else if String.eqb operator "<" then Qle_bool value x
  else if String.eqb operator "<=" then Qlt_bool value x
  else if String.eqb operator "!=" then Qeq_bool x value
  else if String.eqb operator "=" then negb (Qeq_bool x value)
  else false.

(** [violated_rows & numeric_col.notna()] *)
Definition violated_rows (operator : string) (value : Q) (numeric_col : list (option Q))
  : list bool :=
  map (fun x => match x with Some q => violates operator value q | None => false end)
      numeric_col.

Definition is_nan (x : option Q) : bool :=
  match x with None => true | Some _ => false end.

(** [numeric_col.isna().any() and not column_data.isna().all()] *)
Definition non_numeric_present (column_data : Series) : bool :=
  (existsb is_nan (map to_numeric (s_values column_data)) &&
   negb (forallb is_null (s_values column_data)))%bool.

Definition skip_note (db_col_name sqltext : string) : log_entry :=
  (INFO,
   ("Skipping CHECK constraint for column '" ++ db_col_name ++
    "' as it was complex, non-numeric, or did not match simple patterns: '" ++
    sqltext ++ "'")%string).

Definition check_one_constraint (db_col_name : string) (column_data : Series)
    (constraint : CheckConstraint) : list pyval * list log_entry :=
  let numeric_col := map to_numeric (s_values column_data) in
  let sqltext := Str.strip (cc_sqltext constraint) in
  match match_check_constraint db_col_name sqltext with
  | Some (operator, value) =>
      if negb (non_numeric_present column_data) then
        let violated := violated_rows operator value numeric_col in
        let violation_count := count_true violated in
        if Nat.ltb 0 violation_count then
          let affected_indices := firstn 5 (select violated (s_index column_data)) in
          let sample_violating_values :=
            firstn 5 (loc_values (s_index column_data) (s_values column_data)
                                 affected_indices) in
          ([PDict [("column", PStr db_col_name);
                   ("check", PStr "check_constraint_violation");
                   ("constraint_name", opt_str (cc_name constraint));
                   ("sqltext", PStr sqltext);
                   ("count", PNat violation_count);
                   ("affected_rows_sample_indices", int_list affected_indices);
                   ("sample_violating_values",
                    str_list (map py_str sample_violating_values));
                   ("severity", PStr "medium");
                   ("details",
                    PStr (string_of_nat violation_count ++
                          " values violate CHECK constraint '" ++ sqltext ++ "'."))]],
           [])
        else ([], [])
      else ([], [skip_note db_col_name sqltext])
  | None => ([], [skip_note db_col_name sqltext])
  end.

Definition check_constraints_check (db_col_name : string) (column_data : Series)
    (check_constraints : list CheckConstraint) : list pyval * list log_entry :=
  let col_check_constraints :=
    filter (fun c => Str.contains db_col_name (cc_sqltext c)) check_constraints in
  let per_constraint :=
    map (check_one_constraint db_col_name column_data) col_check_constraints in
  (List.concat (map fst per_constraint), List.concat (map snd per_constraint)).

Definition quality_check_column (df : DataFrame)
    (check_constraints : list CheckConstraint) (db_col_name : string)
    (db_col_details : ColumnDetails) : list pyval * list log_entry :=
  if negb (has_column db_col_name df) then ([], [])
  else
    match getitem df db_col_name with
    | SelMissing => ([], [])
    | SelFrame _ =>
        ([], [(WARNING,
               ("Duplicate column name found for '" ++ db_col_name ++
                "' (in data_quality). This sheet is likely mismatched. Skipping all data quality checks for this column.")%string)])
    | SelSeries column_data =>
        let checks := check_constraints_check db_col_name column_data check_constraints in
        (not_null_check db_col_name db_col_details column_data ++
         primary_key_check db_col_name db_col_details column_data ++
         fst checks,
         snd checks)
    end.

(** [fetched] is the outcome of [inspector.get_check_constraints(table)];
    a failure there leaves the list of constraints empty. *)
Definition run_data_quality_checks_log (df : DataFrame) (db_schema : TableSchema)
    (fetched : result (list CheckConstraint)) (table_name : string)
  : list pyval * list log_entry :=
  let '(check_constraints, fetch_log) :=
    match fetched with
    | Ok cs =>
        (cs, (INFO, ("Fetched " ++ string_of_nat (List.length cs) ++
                     " CHECK constraints for table '" ++ table_name ++ "'.")%string))
    | Raise e =>
        ([], (WARNING, ("Could not fetch CHECK constraints for table '" ++ table_name ++
                        "': " ++ str_exn e ++
                        ". Skipping CHECK constraint validation.")%string))
    end in
  let per_column :=
    map (fun e => quality_check_column df check_constraints (fst e) (snd e)) db_schema in
  let dq_violations := List.concat (map fst per_column) in
  (dq_violations,
   fetch_log :: List.concat (map snd per_column) ++
   [(INFO, ("Data quality checks complete. Found " ++
            string_of_nat (List.length dq_violations) ++ " violations.")%string)]).

Definition run_data_quality_checks (df : DataFrame) (db_schema : TableSchema)
    (fetched : result (list CheckConstraint)) (table_name : string) : list pyval :=
  fst (run_data_quality_checks_log df db_schema fetched table_name).

End Tools.

(** ** [validation_module.py]: the per-sheet pipeline *)

Module Validation.
Import Py Pandas Tools.

(** What [pd.read_excel] / [pd.read_csv] hand back: one DataFrame, or, for
    [sheet_name=None] on a workbook, a dictionary of DataFrames. *)
Inductive loaded : Type :=
| LFrame (df : DataFrame)
| LSheets (sheets : list (string * DataFrame)).

(** The collaborators outside the engine, as one run sees them. *)
Record World : Type := mkWorld {
  get_databricks_engine : bool;
  read_csv : string -> result DataFrame;
  read_excel : string -> option string -> result loaded;
  get_db_schema : string -> result (option TableSchema);
  get_check_constraints : string -> result (list CheckConstraint);
  get_schema_analysis_prompt : TableSchema -> dict -> pyval -> string -> string -> string;
  get_dynamic_rules_prompt : dict -> string;
  get_analysis_prompt : pyval -> pyval -> list pyval -> string;
  get_llm_streaming_response : string -> option string;
  json_loads : string -> option pyval;
  load_historical_schemas : string -> list pyval;
  utc_now : string
}.

(** The variables of [_run_validation_for_sheet_internal] that outlive an
    exception, and the effects of a run. *)
Record PState : Type := mkPState {
  schema_analysis_json : pyval;
  frame : loaded;
  snapshot : option (string * pyval)
}.

(** State and exceptions. *)
Definition M (A : Type) : Type := PState -> result A * PState.

Definition ret {A : Type} (a : A) : M A := fun st => (Ok a, st).

Definition raise {A : Type} (e : exn) : M A := fun st => (Raise e, st).

Definition mbind {A B : Type} (m : M A) (k : A -> M B) : M B :=
  fun st =>
    match m st with
    | (Ok a, st') => k a st'
    | (Raise e, st') => (Raise e, st')
    end.

Definition lift {A : Type} (r : result A) : M A := fun st => (r, st).

Definition get_state : M PState := fun st => (Ok st, st).

Definition set_schema_analysis (j : pyval) : M unit :=
  fun st => (Ok tt, mkPState j (frame st) (snapshot st)).

Definition set_frame (x : loaded) : M unit :=
  fun st => (Ok tt, mkPState (schema_analysis_json st) x (snapshot st)).

Definition set_snapshot (s : string * pyval) : M unit :=
  fun st => (Ok tt, mkPState (schema_analysis_json st) (frame st) (Some s)).

Declare Scope pipeline_scope.
Delimit Scope pipeline_scope with pipeline.

Notation "x <- m ;; k" := (mbind m (fun x => k))
  (at level 100, m at next level, right associativity) : pipeline_scope.
Notation "m ;;; k" := (mbind m (fun _ => k))
  (at level 100, right associativity) : pipeline_scope.

Local Open Scope pipeline_scope.

(** [v[k]] and [v.get(k, default)] on an arbitrary value. *)
Definition item (k : string) (v : pyval) : result pyval :=
  match v with
  | PDict d => dict_item k d
  | PList _ => Raise (TypeError "list indices must be integers or slices, not str")
  | PV _ => Raise (TypeError "object is not subscriptable")
  end.

Definition get_or (k : string) (default : pyval) (v : pyval) : result pyval :=
  match v with
  | PDict d => Ok (dict_get_default k default d)
  | _ => Raise (AttributeError "object has no attribute 'get'")
  end.

Fixpoint map_result {A B : Type} (f : A -> result B) (l : list A) : result (list B) :=
  match l with
  | [] => Ok []
  | a :: l' =>
      bind (f a) (fun b => bind (map_result f l') (fun bs => Ok (b :: bs)))
  end.

(** *** _create_violation_summary *)

Definition summarize_type_violation (v : pyval) : result pyval :=
  bind (item "column" v) (fun column =>
  bind (item "expected_db_type" v) (fun expected =>
  bind (item "found_file_type" v) (fun found =>
  Ok (PDict [("column", column); ("expected", expected); ("found", found)])))).

Definition summarize_dq_violation (v : pyval) : result pyval :=
  bind (item "column" v) (fun column =>
  bind (item "check" v) (fun check =>
  bind (item "count" v) (fun count =>
  bind (get_or "severity" (PStr "medium") v) (fun severity =>
  Ok (PDict [("column", column); ("check", check); ("count", count);
             ("severity", severity)]))))).

Definition _create_violation_summary (types dq : list pyval) : result pyval :=
  bind (map_result summarize_type_violation types) (fun type_mismatch_summary =>
  bind (map_result summarize_dq_violation dq) (fun data_quality_issue_summary =>
  Ok (PDict [("type_mismatch_summary", PList type_mismatch_summary);
             ("data_quality_issue_summary", PList data_quality_issue_summary)]))).

(** *** _run_validation_for_sheet_internal *)

(** [tools.extract_schema_from_df] on whatever was loaded: a dictionary of
    sheets has no [dropna], which the extractor's own handler reports. *)
Definition extract_schema_loaded (x : loaded) (file_name : string)
    (sheet_name : option string) : pyval * loaded :=
  match x with
  | LFrame df =>
      let '(schema, df') := extract_schema_from_df df file_name sheet_name in
      (schema, LFrame df')
  | LSheets _ =>
      (PDict [("file_name", PStr file_name); ("sheet_name", opt_str sheet_name);
              ("total_rows", PInt 0); ("columns", PDict []);
              ("error", PStr "'dict' object has no attribute 'dropna'")], x)
  end.

(** The naming map as [DataFrame.rename] takes it: a dictionary.  Labels
    are strings in this model, so a target that is not a string is
    rejected here. *)
Fixpoint naming_entries (d : dict) : result (list (string * string)) :=
  match d with
  | [] => Ok []
  | (k, PV (CStr t)) :: d' => bind (naming_entries d') (fun m => Ok ((k, t) :: m))
  | (_, _) :: _ => Raise (TypeError "column label is not a string")
  end.

Definition naming_map (v : pyval) : result (list (string * string)) :=
  match v with
  | PDict d => naming_entries d
  | _ => Raise (TypeError "must pass an index to rename")
  end.

(** [df.rename(columns=naming_mismatches)] *)
Definition rename_loaded (v : pyval) (x : loaded) : result DataFrame :=
  match x with
  | LFrame df => bind (naming_map v) (fun m => Ok (rename m df))
  | LSheets _ => Raise (AttributeError "'dict' object has no attribute 'rename'")
  end.

(** [dict.update(other)] for a parsed JSON document: a mapping, or a
    sequence of two-element sequences with string keys. *)
Definition update_pair (acc : result dict) (p : pyval) : result dict :=
  bind acc (fun d =>
    match p with
    | PList [PV (CStr k); v] => Ok (dict_set k v d)
    | PV (CStr (String a (String b EmptyString))) =>
        Ok (dict_set (String a EmptyString) (PStr (String b EmptyString)) d)
    | _ => Raise (TypeError "cannot convert dictionary update sequence element")
    end).

Definition py_update (d : dict) (other : pyval) : result dict :=
  match other with
  | PDict o => Ok (dict_update d o)
  | PList l => fold_left update_pair l (Ok d)
  | PV (CStr s) =>
      match s with
      | EmptyString => Ok d
      | _ => Raise (ValueError "dictionary update sequence element #0 has length 1; 2 is required")
      end
  | PV _ => Raise (TypeError "object is not iterable")
  end.

Definition sheet_display (sheet_name : option string) : string :=
  match sheet_name with Some s => s | None => "CSV Data" end.

(** The dynamic-rules step has a handler of its own. *)
Definition infer_dynamic_rules (w : World) (file_schema : dict) : pyval :=
  match get_llm_streaming_response w (get_dynamic_rules_prompt w file_schema) with
  | Some dynamic_rules_str =>
      if truthy (PStr dynamic_rules_str) then
        match json_loads w dynamic_rules_str with
        | Some j => j
        | None => PList [PDict [("error", PStr "Failed to generate dynamic rules")]]
        end
      else PList []
  | None => PList []
  end.

Definition base_report (w : World) (file_path : string) (sheet_name : option string)
    (file_schema : dict) (type_violations dq_violations : list pyval)
    (dynamic_rules : pyval) : dict :=
  let file_metadata :=
    [("file_name", PStr (Str.basename file_path));
     ("sheet_name", opt_str sheet_name);
     ("total_rows", dict_get_default "total_rows" PNone file_schema)] in
  [("file_name", dict_get_default "file_name" PNone file_metadata);
   ("sheet_name", dict_get_default "sheet_name" PNone file_metadata);
   ("total_rows_checked", dict_get_default "total_rows" PNone file_metadata);
   ("validated_at", PStr (utc_now w));
   ("data_type_mismatch", PList type_violations);
   ("data_quality_issues", PList dq_violations);
   ("dynamic_validation_rules", dynamic_rules);
   ("validation_summary", PDict []);
   ("data_quality_score", PDict []);
   ("triage_plan", PList []);
   ("append_upsert_suggestion", PDict []);
   ("schema_drift", PDict []);
   ("root_cause_analysis", PDict []);
   ("overall_analysis", PDict [])].

Definition as_dict (v : pyval) : dict :=
  match v with PDict d => d | _ => [] end.

(** What the deterministic steps have computed when the narrative
    service is called. *)
Record Computed : Type := mkComputed {
  c_file_schema : dict;
  c_analysis : pyval;
  c_type_violations : list pyval;
  c_dq_violations : list pyval;
  c_violations_summary : pyval;
  c_report : dict
}.

(** The [try] block up to and including Step 6. *)
Definition deterministic_steps (w : World) (file_path : string)
    (sheet_name : option string) (target_table_name : string) : M Computed :=
  let sheet_display_name := sheet_display sheet_name in
  (* Step 1: extract schema; the loaded frame is modified in place *)
  st <- get_state ;;
  let '(file_schema_v, df) := extract_schema_loaded (frame st) file_path sheet_name in
  let file_schema := as_dict file_schema_v in
  set_frame df ;;;
  if (dict_mem "error" file_schema ||
      negb (truthy (dict_get_default "columns" PNone file_schema)))%bool
  then raise (ValueError ("Schema extraction failed for sheet '" ++
                          sheet_display_name ++ "'"))
  else
  (* Step 2: schema analysis by the reconciliation service *)
  db_schema_opt <- lift (get_db_schema w target_table_name) ;;
  match db_schema_opt with
  | None => raise (ValueError ("Database table '" ++ target_table_name ++
                               "' does not exist."))
  | Some db_schema =>
  let raw_comparison := compare_schemas file_schema db_schema in
  let schema_prompt :=
    get_schema_analysis_prompt w db_schema file_schema raw_comparison
                               target_table_name (Str.basename file_path) in
  match get_llm_streaming_response w schema_prompt with
  | None => raise (ValueError "Failed to get schema analysis from LLM.")
  | Some schema_response_str =>
  match json_loads w schema_response_str with
  | None => raise (ValueError "LLM did not return valid JSON for schema analysis.")
  | Some analysis =>
  set_schema_analysis analysis ;;;
  (* Step 3: deep validation on the renamed frame *)
  naming_mismatches <- lift (get_or "naming_mismatches" (PDict []) analysis) ;;
  mapped_df <- lift (rename_loaded naming_mismatches df) ;;
  let type_violations := validate_data_types mapped_df db_schema in
  let dq_violations :=
    run_data_quality_checks mapped_df db_schema
      (get_check_constraints w target_table_name) target_table_name in
  (* Step 4: dynamic rules *)
  let dynamic_rules := infer_dynamic_rules w file_schema in
  (* Step 5: violation summary *)
  violations_summary <- lift (_create_violation_summary type_violations dq_violations) ;;
  (* Step 6: base report *)
  ret (mkComputed file_schema analysis type_violations dq_violations
         violations_summary
         (base_report w file_path sheet_name file_schema
                      type_violations dq_violations dynamic_rules))
  end
  end
  end.

Definition parse_failure_summary : pyval :=
  PDict [("status", PStr "Error"); ("details", PStr "LLM analysis parsing failed.")].

(** Step 7 and the history snapshot. *)
Definition narrative_step (w : World) (target_table_name : string) (c : Computed)
  : M dict :=
  let historical_schemas := load_historical_schemas w target_table_name in
  let analysis_prompt :=
    get_analysis_prompt w (c_analysis c) (c_violations_summary c) historical_schemas in
  match get_llm_streaming_response w analysis_prompt with
  | None => raise (ValueError "Failed to get final analysis from LLM.")
  | Some analysis_response_str =>
      report <-
        match json_loads w analysis_response_str with
        | Some llm_analysis_json => lift (py_update (c_report c) llm_analysis_json)
        | None => ret (dict_set "validation_summary" parse_failure_summary (c_report c))
        end ;;
      (if truthy (PStr target_table_name)
       then set_snapshot
              (target_table_name,
               PDict [("columns",
                       dict_get_default "columns" (PDict []) (c_file_schema c))])
       else ret tt) ;;;
      ret report
  end.

(** The body of the [try] block. *)
Definition validation_body (w : World) (file_path : string)
    (sheet_name : option string) (target_table_name : string) : M dict :=
  c <- deterministic_steps w file_path sheet_name target_table_name ;;
  narrative_step w target_table_name c.

(** The report built by the [except Exception] handler. *)
Definition error_report (w : World) (file_path : string) (sheet_name : option string)
    (e : exn) : dict :=
  [("file_name", PStr file_path);
   ("sheet_name", opt_str sheet_name);
   ("validated_at", PStr (utc_now w));
   ("validation_summary",
    PDict [("status", PStr "Error"); ("details", PStr (str_exn e))]);
   ("error", PStr (str_exn e))].

Definition initial_state (df : loaded) : PState := mkPState (PDict []) df None.

(** [target_table_name] is [None] only when a caller leaves it out; the
    guard for that sits before the [try] and raises to the caller. *)
Definition _run_validation_for_sheet_internal (w : World) (df : loaded)
    (file_path : string) (sheet_name : option string)
    (target_table_name : option string) : result (dict * pyval * PState) :=
  match target_table_name with
  | None =>
      Raise (ValueError
        "Internal Error: _run_validation_for_sheet_internal called without a target_table_name.")
  | Some table =>
      match validation_body w file_path sheet_name table (initial_state df) with
      | (Ok sheet_report, st) => Ok (sheet_report, schema_analysis_json st, st)
      | (Raise e, st) =>
          Ok (error_report w file_path sheet_name e, schema_analysis_json st, st)
      end
  end.

(** *** run_validation_for_single_sheet *)

Definition read_sheet (w : World) (file_path : string) (read_sheet_name : option string)
  : result loaded :=
  if (Str.endswith ".xls" file_path || Str.endswith ".xlsx" file_path)%bool then
    read_excel w file_path read_sheet_name
  else if Str.endswith ".csv" file_path then
    bind (read_csv w file_path) (fun df => Ok (LFrame df))
  else
    Raise (ValueError ("Unsupported file type: " ++ file_path ++
                       ". Only .csv, .xls, and .xlsx are supported.")).

(** Moves [file_name] and [sheet_name] to the front and adds the
    reconciliation output. *)
Definition assemble_final_report (sheet_report : dict) (analysis : pyval) : dict :=
  let '(final1, report1) :=
    match dict_get "file_name" sheet_report with
    | Some v => ([("file_name", v)], dict_remove "file_name" sheet_report)
    | None => ([], sheet_report)
    end in
  let '(final2, report2) :=
    match dict_get "sheet_name" report1 with
    | Some v => (dict_set "sheet_name" v final1, dict_remove "sheet_name" report1)
    | None => (final1, report1)
    end in
  dict_update (dict_set "schema_mismatch" analysis final2) report2.

Definition run_validation_for_single_sheet (w : World) (file_path sheet_name : string)
    (table_name : option string) : result dict :=
  if negb (get_databricks_engine w) then
    Ok [("error", PStr "Failed to create Databricks engine. Check .env credentials.")]
  else
    let read_sheet_name :=
      if String.eqb sheet_name "csv_data" then None else Some sheet_name in
    let attempt :=
      bind (read_sheet w file_path read_sheet_name) (fun current_df =>
      bind (_run_validation_for_sheet_internal w current_df file_path
              read_sheet_name table_name) (fun out =>
      let '(sheet_report, analysis, _) := out in
      Ok (assemble_final_report sheet_report analysis))) in
    match attempt with
    | Ok final_report => Ok final_report
    | Raise e => Ok [("error", PStr ("A critical error occurred: " ++ str_exn e))]
    end.

End Validation.

(** ** Vocabulary of the specification *)

Module Spec.
Import Py Pandas Tools Validation.

Definition is_ok {A : Type} (r : result A) : bool :=
  match r with Ok _ => true | Raise _ => false end.

Definition is_some {A : Type} (o : option A) : bool :=
  match o with Some _ => true | None => false end.

(** The five type tags of the engine are the keys of its compatibility
    table. *)
Definition canonical_dtypes : list string := map fst pandas_to_sql_map.

(** The column descriptions of a schema document. *)
Definition schema_columns (schema : pyval) : dict :=
  as_dict (dict_get_default "columns" (PDict []) (as_dict schema)).

Definition has_error (schema : pyval) : bool := dict_mem "error" (as_dict schema).

(** What the extractor records for a column: the dtype name of the one
    column carrying that label. *)
Definition describes (df : DataFrame) (col : string) (details : pyval) : Prop :=
  exists s, getitem df col = SelSeries s /\
            item "inferred_type" details = Ok (PStr (s_dtype s)).

(** A row is fully empty when each of its cells is null. *)
Definition fully_empty (r : Z * list cell) : bool := forallb is_null (snd r).

(** [drops_empty_rows before after]: [after] is [before] without its fully
    empty rows, the other rows untouched and in their order. *)
Inductive drops_empty_rows : list (Z * list cell) -> list (Z * list cell) -> Prop :=
| der_nil : drops_empty_rows [] []
| der_drop r rs rs' :
    fully_empty r = true -> drops_empty_rows rs rs' -> drops_empty_rows (r :: rs) rs'
| der_keep r rs rs' :
    fully_empty r = false -> drops_empty_rows rs rs' ->
    drops_empty_rows (r :: rs) (r :: rs').

(** pandas keeps Python strings in [object] columns only. *)
Definition strings_in_object_columns (s : Series) : Prop :=
  forall c t, In c (s_values s) -> c = CStr t -> s_dtype s = "object".

Definition count_where (p : cell -> bool) (vs : list cell) : nat :=
  List.length (filter p vs).

(** The keys a primary-key check looks at: neither null nor empty. *)
Definition usable_keys (vs : list cell) : list cell :=
  filter (fun c => negb (is_null c || is_empty_str c)) vs.

(** A key value is duplicated when it occurs at least twice. *)
Definition occurs_twice (keys : list cell) (k : cell) : bool :=
  Nat.leb 2 (count_eq k keys).

Definition distinct_cells (l : list cell) : Prop :=
  ForallOrdPairs (fun a b => cell_eqb a b = false) l.

(** Every value that is present can be read as a number. *)
Definition all_present_numeric (vs : list cell) : bool :=
  forallb (fun c => (is_null c || is_some (to_numeric c))%bool) vs.

Definition count_rows_empty (df : DataFrame) : nat :=
  List.length (filter fully_empty (rows df)).

Definition duplicate_type_warning (name : string) : log_entry :=
  (WARNING,
   ("Duplicate column name found for '" ++ name ++
    "' after mapping. This sheet is likely mismatched with the target DB table. Skipping type validation for this column.")%string).

Definition duplicate_quality_warning (name : string) : log_entry :=
  (WARNING,
   ("Duplicate column name found for '" ++ name ++
    "' (in data_quality). This sheet is likely mismatched. Skipping all data quality checks for this column.")%string).

(** The sheet name handed to the reader: the placeholder of a CSV file
    stands for no sheet. *)
Definition read_name (sheet_name : string) : option string :=
  if String.eqb sheet_name "csv_data" then None else Some sheet_name.

Definition transport_failure : exn :=
  ValueError "Failed to get final analysis from LLM.".

(** The declared types the compatibility table gives for textual data:
    the textual family of declared types in its widest reading.  A
    declared type belongs to it by its base type. *)
Definition textual_family : list string :=
  ["TEXT"; "VARCHAR"; "CHAR"; "DATE"; "DATETIME"; "TIMESTAMP"; "STRING"].

Definition in_textual_family (declared : string) : bool :=
  mem_str (base_type declared) textual_family.

(** The string types among them, and the other types of the table. *)
Definition string_types : list string := ["TEXT"; "VARCHAR"; "CHAR"; "STRING"].

Definition other_table_types : list string :=
  ["INTEGER"; "INT"; "REAL"; "FLOAT"; "NUMERIC"; "DOUBLE";
   "DATE"; "DATETIME"; "TIMESTAMP"; "BOOLEAN"; "BOOL"].

(** The text [t] occurs in the upper-cased declared type. *)
Definition mentions (t declared : string) : Prop :=
  exists before after, Str.upper declared = (before ++ t ++ after)%string.

(** A declared type is text-based when its upper-cased name mentions CHAR,
    TEXT or STRING. *)
Definition text_based (declared : string) : Prop :=
  mentions "CHAR" declared \/ mentions "TEXT" declared \/ mentions "STRING" declared.

(** The index labels of the rows whose value satisfies [p], in row order. *)
Definition labels_where (p : cell -> bool) (s : Series) : list Z :=
  map fst (filter (fun iv => p (snd iv)) (combine (s_index s) (s_values s))).

Definition missing_or_empty (c : cell) : bool := (is_null c || is_empty_str c)%bool.

(** The report fields every outcome is expected to carry. *)
Definition has_report_fields (r : dict) : bool :=
  (dict_mem "file_name" r && dict_mem "sheet_name" r && dict_mem "validated_at" r)%bool.

End Spec.

(** ** Concrete inputs used by the examples *)

Module Examples.
Import Py Pandas Tools Validation.

Definition orders_df : DataFrame :=
  mkDataFrame [("qty", "int64"); ("name", "object")]
              [(0, [CInt 3; CStr "a"]); (1, [CInt 4; Null])].

Definition qty_details : pyval :=
  PDict [("inferred_type", PStr "int64");
         ("sample_values", PList [PInt 3; PInt 4]);
         ("null_count", PNat 0)].

(** A column of unsigned 64-bit integers, as [read_csv] infers it for
    values above the signed range. *)
Definition big_df : DataFrame :=
  mkDataFrame [("big", "uint64")] [(0, [CInt 18446744073709551615])].

(** The data [1, 2, x] read as text, against a column declared INTEGER. *)
Definition qty_text_df : DataFrame :=
  mkDataFrame [("qty", "object")]
              [(0, [CStr "1"]); (1, [CStr "2"]); (2, [CStr "x"])].

Definition qty_integer_schema : TableSchema :=
  [("qty", mkColumn "INTEGER" true false)].

(** Two file columns that the naming map sends to the same target. *)
Definition two_quantities_df : DataFrame :=
  mkDataFrame [("qty", "object"); ("quantity", "int64")]
              [(0, [CStr "x"; CInt 1]); (1, [Null; CInt 1])].

Definition colliding_map : list (string * string) :=
  [("qty", "Quantity"); ("quantity", "Quantity")].

Definition quantity_schema : TableSchema :=
  [("Quantity", mkColumn "INTEGER" false true)].

(** The values 1, null, 3, empty string, 5 in a column declared INTEGER
    and not nullable. *)
Definition readings_series : Series :=
  mkSeries "object" [0; 1; 2; 3; 4]
           [CInt 1; Null; CInt 3; CStr EmptyString; CInt 5].

Definition readings_df : DataFrame :=
  mkDataFrame [("reading", "object")]
              [(0, [CInt 1]); (1, [Null]); (2, [CInt 3]);
               (3, [CStr EmptyString]); (4, [CInt 5])].

Definition reading_column : ColumnDetails := mkColumn "INTEGER" false false.

(** The key values 1, 1, 2, 3, 3, 3. *)
Definition ids_series : Series :=
  mkSeries "int64" [0; 1; 2; 3; 4; 5]
           [CInt 1; CInt 1; CInt 2; CInt 3; CInt 3; CInt 3].

Definition ids_df : DataFrame :=
  mkDataFrame [("id", "int64")]
              [(0, [CInt 1]); (1, [CInt 1]); (2, [CInt 2]);
               (3, [CInt 3]); (4, [CInt 3]); (5, [CInt 3])].

Definition id_column : ColumnDetails := mkColumn "INTEGER" true true.

(** The CHECK constraint [price > 0] and three price columns: one with a
    text that is not a number, one with numbers only, one with numbers and
    a missing entry. *)
Definition price_positive : CheckConstraint :=
  mkCheck (Some "price_positive") "price > 0".

Definition price_column : ColumnDetails := mkColumn "INTEGER" true false.

Definition prices_with_text_df : DataFrame :=
  mkDataFrame [("price", "object")]
              [(0, [CInt 10]); (1, [CInt (-5)]); (2, [CInt 0]); (3, [CInt 20]);
               (4, [CStr "abc"])].

Definition prices_df : DataFrame :=
  mkDataFrame [("price", "int64")]
              [(0, [CInt 10]); (1, [CInt (-5)]); (2, [CInt 0]); (3, [CInt 20])].

Definition prices_with_null_df : DataFrame :=
  mkDataFrame [("price", "float64")]
              [(0, [CFloat 10 "10.0"]); (1, [Null]); (2, [CFloat (-5) "-5.0"])].

Definition prices_with_null : Series :=
  mkSeries "float64" [0; 1; 2] [CFloat 10 "10.0"; Null; CFloat (-5) "-5.0"].

(** A world in which every collaborator answers: the prompts are fixed
    texts, the services echo or return [narrative], and the parser knows
    the three well-formed answers. *)
Definition example_json (s : string) : option pyval :=
  if String.eqb s "schema-analysis" then Some (PDict [("naming_mismatches", PDict [])])
  else if String.eqb s "dynamic-rules" then Some (PList [])
  else if String.eqb s "final-analysis"
       then Some (PDict [("validation_summary", PDict [("status", PStr "Success")])])
  else None.

Definition example_world (df : DataFrame) (schema : TableSchema)
    (narrative : option string) : World :=
  mkWorld true
          (fun _ => Ok df)
          (fun _ _ => Ok (LFrame df))
          (fun _ => Ok (Some schema))
          (fun _ => Ok [])
          (fun _ _ _ _ _ => "schema-analysis")
          (fun _ => "dynamic-rules")
          (fun _ _ _ => "final-analysis")
          (fun prompt => if String.eqb prompt "final-analysis" then narrative
                         else Some prompt)
          example_json
          (fun _ => [])
          "2025-01-01T00:00:00+00:00".

Definition id_schema : TableSchema := [("id", id_column)].

Definition ids_world : World := example_world ids_df id_schema (Some "final-analysis").

(** The same world without database credentials. *)
Definition offline_world : World :=
  mkWorld false
          (read_csv ids_world) (read_excel ids_world) (get_db_schema ids_world)
          (get_check_constraints ids_world) (get_schema_analysis_prompt ids_world)
          (get_dynamic_rules_prompt ids_world) (get_analysis_prompt ids_world)
          (get_llm_streaming_response ids_world) (json_loads ids_world)
          (load_historical_schemas ids_world) (utc_now ids_world).

(** The orders file against a table that declares [qty] as TEXT, with the
    narrative service answering [narrative]. *)
(** A column declared DATE whose values were read as text. *)
Definition dates_df : DataFrame :=
  mkDataFrame [("shipped", "object")]
              [(0, [CStr "2024-01-31"]); (1, [CStr "2024-02-01"])].

Definition shipped_series : Series :=
  mkSeries "object" [0; 1] [CStr "2024-01-31"; CStr "2024-02-01"].

Definition shipped_column : ColumnDetails := mkColumn "DATE" true false.

Definition orders_text_schema : TableSchema := [("qty", mkColumn "TEXT" true false)].

Definition orders_world (narrative : option string) : World :=
  example_world orders_df orders_text_schema narrative.

Definition orders_type_violation : pyval :=
  PDict [("column", PStr "qty"); ("expected_db_type", PStr "TEXT");
         ("found_file_type", PStr "int64");
         ("sample_invalid_values", PList [])].

(** What the deterministic steps compute for the orders file; the
    narrative service plays no part in them. *)
Definition orders_computed : Computed :=
  Eval vm_compute in
    match fst (deterministic_steps (orders_world None) "orders.csv" None "orders"
                 (initial_state (LFrame orders_df))) with
    | Ok c => c
    | Raise _ => mkComputed [] PNone [] [] PNone []
    end.

Definition orders_state : PState :=
  Eval vm_compute in
    snd (deterministic_steps (orders_world None) "orders.csv" None "orders"
           (initial_state (LFrame orders_df))).

(** A column of texts, one of them empty, for a table column that holds
    arrays of strings. *)
Definition tags_df : DataFrame :=
  mkDataFrame [("tags", "object")] [(0, [CStr "a"]); (1, [CStr EmptyString])].

Definition tags_column : ColumnDetails := mkColumn "ARRAY<STRING>" false false.

End Examples.

(** ** [validation_module.py]: the service call with retries *)

Module Llm.
Import Py.

(** What one call of [client.chat.completions.create] and the reading of
    its stream amount to: the chunks' contents, a rate-limit error, or any
    other exception (raised by the call or while streaming; what had been
    read is lost either way).  A chunk without choices or content is
    [None]. *)
Inductive api_outcome : Type :=
| Streamed (chunks : list (option string))
| RateLimited
| Failed (e : exn).

(** [if chunk.choices and chunk.choices[0].delta.content:
       full_response += chunk.choices[0].delta.content] *)
Definition add_chunk (full_response : string) (chunk : option string) : string :=
  match chunk with
  | Some content =>
      if truthy (PStr content) then (full_response ++ content)%string
      else full_response
  | None => full_response
  end.

Definition read_stream (chunks : list (option string)) : string :=
  fold_left add_chunk chunks EmptyString.

(** The outcome of a call of the function: what it returns, how many
    requests it made and for how many seconds it slept. *)
Record Call : Type := mkCall {
  response : option string;
  requests : nat;
  slept : nat
}.

(** [for attempt in range(max_retries)], from [attempt] on, with
    [remaining] rounds to go.  [count_tokens] handles its own exceptions
    and changes nothing. *)
Fixpoint retry_loop (client : nat -> api_outcome) (remaining attempt slept : nat)
  : Call :=
  match remaining with
  | O => mkCall None attempt slept
  | S remaining' =>
      match client attempt with
      | Streamed chunks => mkCall (Some (read_stream chunks)) (S attempt) slept
      | RateLimited => retry_loop client remaining' (S attempt) (slept + 60)
      | Failed _ => mkCall None (S attempt) slept
      end
  end.

(** [client n] is the outcome of the request number [n] (from 0). *)
Definition get_llm_streaming_response (client : nat -> api_outcome)
    (max_retries : nat) : Call :=
  retry_loop client max_retries 0 0.

End Llm.

(** ** [validation_module.py]: the schema history *)

Module History.
Import Py.

(** [str.isalnum] looks at code points, so table names and paths are kept
    here as Python has them: sequences of code points. *)
Definition text : Type := list N.

(** The code points of an ASCII literal. *)
Definition codes (s : string) : text := map N_of_ascii (list_ascii_of_string s).

Definition SCHEMA_HISTORY_DIR : text := codes "schema_history".
Definition NUM_HISTORICAL_SCHEMAS_TO_LOAD : nat := 3.

Definition underscore : N := 95.
Definition slash : N := 47.

Fixpoint text_eqb (a b : text) : bool :=
  match a, b with
  | [], [] => true
  | x :: a', y :: b' => (N.eqb x y && text_eqb a' b')%bool
  | _, _ => false
  end.

(** [a <= b] on texts: code point by code point. *)
Fixpoint text_leb (a b : text) : bool :=
  match a, b with
  | [], _ => true
  | _ :: _, [] => false
  | x :: a', y :: b' =>
      if N.ltb x y then true
      else if N.eqb x y then text_leb a' b' else false
  end.

(** [s.startswith(p)], returning the remainder. *)
Fixpoint strip_prefix (p s : text) : option text :=
  match p, s with
  | [], _ => Some s
  | x :: p', y :: s' => if N.eqb x y then strip_prefix p' s' else None
  | _ :: _, [] => None
  end.

(** [s.endswith(suffix)] *)
Fixpoint endswith (suffix s : text) : bool :=
  (text_eqb suffix s ||
   match s with
   | [] => false
   | _ :: s' => endswith suffix s'
   end)%bool.

(** [os.path.join(SCHEMA_HISTORY_DIR, name)] on a POSIX system. *)
Definition in_history_dir (name : text) : text :=
  SCHEMA_HISTORY_DIR ++ codes "/" ++ name.

(** The files on disk: path and content, one entry per path. *)
Definition disk : Type := list (text * string).

(** [open(path, 'w')] and what is written: an existing file is replaced. *)
Fixpoint write_file (path : text) (content : string) (d : disk) : disk :=
  match d with
  | [] => [(path, content)]
  | (p, t) :: d' =>
      if text_eqb path p then (p, content) :: d'
      else (p, t) :: write_file path content d'
  end.

Fixpoint read_file (path : text) (d : disk) : option string :=
  match d with
  | [] => None
  | (p, t) :: d' => if text_eqb path p then Some t else read_file path d'
  end.

(** [glob.glob] for a pattern [prefix*suffix] whose one wildcard sits in the
    file name: the star stands for any characters but the separator. *)
Definition glob_match (prefix suffix path : text) : bool :=
  match strip_prefix prefix path with
  | Some rest => (endswith suffix rest && negb (existsb (N.eqb slash) rest))%bool
  | None => false
  end.

(** [sorted(paths, reverse=True)]: texts in descending order. *)
Fixpoint insert_desc (x : text) (l : list text) : list text :=
  match l with
  | [] => [x]
  | y :: rest => if text_leb y x then x :: l else y :: insert_desc x rest
  end.

Definition sorted_reverse (l : list text) : list text :=
  fold_right insert_desc [] l.

Section Interpreter.

(** [isalnum c] is [c.isalnum()] for the character with code point [c], as
    the Unicode tables of the interpreter decide it.  [json_dumps v] is
    the text [json.dump] leaves in the file, up to the point of a failure
    if it has one; [json_loads] is [json.load], [None] for a content that
    does not parse. *)
Variable isalnum : N -> bool.
Variable json_dumps : pyval -> string.
Variable json_loads : string -> option pyval.

(** [''.join(c if c.isalnum() else '_' for c in table_name)] *)
Definition safe_table_name (table_name : text) : text :=
  map (fun c => if isalnum c then c else underscore) table_name.

Definition snapshot_file (table_name timestamp : text) : text :=
  in_history_dir
    (safe_table_name table_name ++ codes "_schema_" ++ timestamp ++ codes ".json").

Definition search_prefix (table_name : text) : text :=
  in_history_dir (safe_table_name table_name ++ codes "_schema_").

(** [writable] says whether creating the directory and opening the file
    succeed; the function's handler swallows a failure. *)
Definition save_schema_to_history (writable : bool) (timestamp : text)
    (table_name : text) (file_schema : dict) (d : disk) : disk :=
  if writable then
    let schema_to_save :=
      PDict [("columns", dict_get_default "columns" (PDict []) file_schema)] in
    write_file (snapshot_file table_name timestamp) (json_dumps schema_to_save) d
  else d.

Definition history_files (table_name : text) (d : disk) : list text :=
  sorted_reverse
    (filter (glob_match (search_prefix table_name) (codes ".json")) (map fst d)).

(** One round of the loading loop: a file that cannot be opened or parsed
    is skipped. *)
Definition load_one (d : disk) (file : text) : list pyval :=
  match read_file file d with
  | Some content =>
      match json_loads content with
      | Some schema_data => [schema_data]
      | None => []
      end
  | None => []
  end.

Definition load_historical_schemas (table_name : text) (num_history : nat)
    (d : disk) : list pyval :=
  let files_to_load := firstn num_history (history_files table_name d) in
  flat_map (load_one d) files_to_load.

End Interpreter.

End History.

(** ** [databricks_tools.py]: the table schema *)

Module Databricks.
Import Py Tools.

(** One element of [inspector.get_columns(table)], its type rendered by
    [str]. *)
Record ColumnInfo : Type := mkColumnInfo {
  ci_name : string;
  ci_type : string;
  ci_nullable : bool
}.

(** The calls made on the SQLAlchemy inspector; [constrained_columns] may
    be missing from the primary-key description. *)
Record Inspector : Type := mkInspector {
  has_table : string -> result bool;
  get_table_names : result (list string);
  get_columns : string -> result (list ColumnInfo);
  get_pk_constraint : string -> result (option (list string))
}.

(** [d[key] = value] on a dictionary with string keys. *)
Fixpoint assoc_set {A : Type} (key : string) (value : A) (d : list (string * A))
  : list (string * A) :=
  match d with
  | [] => [(key, value)]
  | (k, v) :: rest =>
      if String.eqb key k then (k, value) :: rest
      else (k, v) :: assoc_set key value rest
  end.

Definition schema_set (name : string) (details : ColumnDetails)
    (schema_info : TableSchema) : TableSchema :=
  assoc_set name details schema_info.

Definition add_column (primary_keys : list string) (schema_info : TableSchema)
    (col : ColumnInfo) : TableSchema :=
  schema_set (ci_name col)
    (mkColumn (ci_type col) (ci_nullable col) (mem_str (ci_name col) primary_keys))
    schema_info.

(** [pk_constraint.get('constrained_columns', [])] *)
Definition constrained (pk_constraint : option (list string)) : list string :=
  match pk_constraint with Some l => l | None => [] end.

(** An exception of the inspector is logged and raised again. *)
Definition get_db_schema (inspector : Inspector) (table_name : string)
  : result (option TableSchema) :=
  bind (has_table inspector table_name) (fun present =>
  if negb present then Ok None
  else
    bind (get_columns inspector table_name) (fun columns =>
    bind (get_pk_constraint inspector table_name) (fun pk_constraint =>
    let primary_keys := constrained pk_constraint in
    Ok (Some (fold_left (add_column primary_keys) columns []))))).

(** The loop of [get_all_table_schemas]: the column names of each table. *)
Fixpoint collect_tables (inspector : Inspector) (table_names : list string)
    (all_schemas : list (string * list string))
  : result (list (string * list string)) :=
  match table_names with
  | [] => Ok all_schemas
  | table_name :: rest =>
      bind (get_columns inspector table_name) (fun columns =>
      collect_tables inspector rest
        (assoc_set table_name (map ci_name columns) all_schemas))
  end.

(** Any exception ends in the empty dictionary. *)
Definition get_all_table_schemas (inspector : Inspector)
  : list (string * list string) :=
  match bind (get_table_names inspector)
             (fun table_names => collect_tables inspector table_names []) with
  | Ok all_schemas => all_schemas
  | Raise _ => []
  end.

End Databricks.

(** ** [tools.py] and [validation_module.py]: reading files and sheets *)

Module Files.
Import Py Pandas Tools Validation.

(** What reading a file comes to, [FileNotFoundError] told apart from the
    other exceptions; [msg] is [str] of the exception. *)
Inductive read_outcome (A : Type) : Type :=
| ReadOk (a : A)
| FileNotFound (msg : string)
| ReadFailed (e : exn).

Arguments ReadOk {A} a.
Arguments FileNotFound {A} msg.
Arguments ReadFailed {A} e.

(** [sheet_name] of [pd.read_excel]: a name or a position. *)
Inductive sheet_ref : Type :=
| ByName (name : string)
| ByIndex (i : nat).

Record Reader : Type := mkReader {
  csv_file : string -> read_outcome DataFrame;
  excel_sheet : string -> sheet_ref -> read_outcome DataFrame;
  excel_names : string -> read_outcome (list string)
}.

Definition is_excel (file_path : string) : bool :=
  (Str.endswith ".xls" file_path || Str.endswith ".xlsx" file_path)%bool.

Definition is_csv (file_path : string) : bool := Str.endswith ".csv" file_path.

Definition failed_schema (file_path : string) (sheet_name : option string)
    (message : string) : pyval :=
  PDict [("file_name", PStr file_path); ("sheet_name", opt_str sheet_name);
         ("total_rows", PInt 0); ("columns", PDict []);
         ("error", PStr message)].

(** The Excel branch of [extract_file_schema], with its own handler. *)
Definition read_excel_sheet (r : Reader) (file_path : string)
    (sheet_name : option string) : pyval + (DataFrame * option string) :=
  let sheet_to_read :=
    match sheet_name with Some s => ByName s | None => ByIndex 0 end in
  let failed (message : string) :=
    inl (failed_schema file_path sheet_name ("Failed to read sheet: " ++ message)%string) in
  match excel_sheet r file_path sheet_to_read with
  | ReadOk df =>
      match sheet_to_read with
      | ByIndex i =>
          match excel_names r file_path with
          | ReadOk sheet_names =>
              match nth_error sheet_names i with
              | Some name => inr (df, Some name)
              | None =>
                  failed ("Sheet index " ++ string_of_nat i ++ " is out of bounds.")%string
              end
          | FileNotFound msg => failed msg
          | ReadFailed e => failed (str_exn e)
          end
      | ByName s => inr (df, Some s)
      end
  | FileNotFound msg => failed msg
  | ReadFailed e => failed (str_exn e)
  end.

(** [None] is Python's [None]. *)
Definition extract_file_schema (r : Reader) (file_path : string)
    (sheet_name : option string) : option pyval :=
  if is_csv file_path then
    match csv_file r file_path with
    | ReadOk df => Some (fst (extract_schema_from_df df file_path None))
    | FileNotFound _ => None
    | ReadFailed e =>
        Some (failed_schema file_path sheet_name
                ("General read error: " ++ str_exn e)%string)
    end
  else if is_excel file_path then
    match read_excel_sheet r file_path sheet_name with
    | inl failure => Some failure
    | inr (df, current_sheet_name) =>
        Some (fst (extract_schema_from_df df file_path current_sheet_name))
    end
  else None.

(** [sheet_names] is [pd.ExcelFile(path).sheet_names]. *)
Definition get_sheet_names (sheet_names : string -> result (list string))
    (file_path : string) : list string :=
  if is_excel file_path then
    match sheet_names file_path with
    | Ok names => names
    | Raise _ => []
    end
  else if is_csv file_path then ["csv_data"]
  else [].

End Files.

(** ** [validation_module.py]: table recommendations *)

Module Recommend.
Import Py Pandas Tools Validation Databricks Files.

(** [s.find(c)] and [s.rfind(c)]; [None] is -1. *)
Fixpoint find_char (c : ascii) (s : string) : option nat :=
  match s with
  | EmptyString => None
  | String a rest =>
      if Ascii.eqb a c then Some 0%nat else option_map S (find_char c rest)
  end.

Fixpoint rfind_char (c : ascii) (s : string) : option nat :=
  match s with
  | EmptyString => None
  | String a rest =>
      match rfind_char c rest with
      | Some i => Some (S i)
      | None => if Ascii.eqb a c then Some 0%nat else None
      end
  end.

(** [s[start : stop]] for indices within the string. *)
Definition slice (s : string) (start stop : nat) : string :=
  String.substring start (stop - start) s.

(** The text from the first opening brace to the last closing brace. *)
Definition json_span (response_str : string) : option string :=
  match find_char "{"%char response_str, rfind_char "}"%char response_str with
  | Some start_index, Some end_index =>
      if Nat.ltb start_index end_index
      then Some (slice response_str start_index (end_index + 1))
      else None
  | _, _ => None
  end.

(** The collaborators of the recommendation step, beside those of the
    validation pipeline. *)
Record Env : Type := mkEnv {
  world : World;
  inspector : Inspector;
  get_table_matching_prompt : list string -> list (string * list string) -> string
}.

(** [type(v).__name__] for a parsed JSON scalar. *)
Definition type_name (c : cell) : string :=
  match c with
  | Null => "NoneType"
  | CBool _ => "bool"
  | CInt _ => "int"
  | CFloat _ _ => "float"
  | CStr _ => "str"
  | CTime _ => "Timestamp"
  end.

(** [target[key] = value]: only a dictionary takes a string key. *)
Definition set_item (key : string) (value : pyval) (target : pyval) : result dict :=
  match target with
  | PDict d => Ok (dict_set key value d)
  | PList _ => Raise (TypeError "list indices must be integers or slices, not str")
  | PV c =>
      Raise (TypeError ("'" ++ type_name c ++
                        "' object does not support item assignment"))
  end.

(** The body of the [try] block.  The exception for a missing engine is a
    plain [Exception]; only its text is observed. *)
Definition recommendations_body (env : Env) (file_path sheet_name : string)
  : result dict :=
  let w := world env in
  if negb (get_databricks_engine w) then
    Raise (ValueError "Failed to create Databricks engine. Check credentials.")
  else
    let read_sheet_name :=
      if String.eqb sheet_name "csv_data" then None else Some sheet_name in
    bind (read_sheet w file_path read_sheet_name) (fun df =>
    let file_schema :=
      as_dict (fst (extract_schema_loaded df file_path read_sheet_name)) in
    if (dict_mem "error" file_schema ||
        negb (truthy (dict_get_default "columns" PNone file_schema)))%bool
    then Raise (ValueError "Schema extraction failed for the file.")
    else
      let file_schema_cols :=
        map fst (as_dict (dict_get_default "columns" (PDict []) file_schema)) in
      let all_db_schemas := get_all_table_schemas (inspector env) in
      match all_db_schemas with
      | [] => Raise (ValueError "No tables found in the Databricks schema.")
      | _ =>
          let prompt := get_table_matching_prompt env file_schema_cols all_db_schemas in
          match get_llm_streaming_response w prompt with
          | None =>
              Raise (ValueError "Failed to get a response from LLM for table matching.")
          | Some response_str =>
              match json_span response_str with
              | None => Raise (ValueError "No JSON object found in the LLM response.")
              | Some json_str =>
                  match json_loads w json_str with
                  | None =>
                      Raise (ValueError
                        "LLM returned malformed JSON. Check logs for the raw response.")
                  | Some recommendations_json =>
                      set_item "source_file_schema" (str_list file_schema_cols)
                               recommendations_json
                  end
              end
          end
      end).

Definition get_recommendations_for_sheet (env : Env) (file_path sheet_name : string)
  : dict :=
  match recommendations_body env file_path sheet_name with
  | Ok recommendations_json => recommendations_json
  | Raise e => [("error", PStr (str_exn e))]
  end.

End Recommend.

(** ** [Driver.py]: the test run over the sheets of a file *)

Module Driver.
Import Py Pandas Tools Validation Databricks Files Recommend.

Definition FILE_TO_TEST : string := "new_orders.csv".

(** One round of the loop; [user_input] is what the user types when asked
    for the table of a sheet. *)
Definition process_sheet (env : Env) (user_input : string -> string)
    (file_path : string) (collection : result dict) (sheet_name : string)
  : result dict :=
  bind collection (fun final_report_collection =>
    let recommendations := get_recommendations_for_sheet env file_path sheet_name in
    if dict_mem "error" recommendations then Ok final_report_collection
    else
      let table_name := user_input sheet_name in
      if negb (truthy (PStr table_name)) then Ok final_report_collection
      else
        bind (run_validation_for_single_sheet (world env) file_path sheet_name
                (Some table_name)) (fun single_sheet_report =>
        if dict_mem "error" single_sheet_report then Ok final_report_collection
        else Ok (dict_set sheet_name (PDict single_sheet_report)
                          final_report_collection))).

Definition process_sheets (env : Env) (user_input : string -> string)
    (file_path : string) (sheet_names : list string) : result dict :=
  fold_left (process_sheet env user_input file_path) sheet_names (Ok []).

(** [run_test] for a file: [None] when no sheet was found, otherwise the
    combined report that is handed to [json.dumps]. *)
Definition run_test_on (env : Env) (sheet_names : string -> result (list string))
    (user_input : string -> string) (file_path : string) : result (option dict) :=
  match get_sheet_names sheet_names file_path with
  | [] => Ok None
  | names =>
      bind (process_sheets env user_input file_path names) (fun collection =>
      Ok (Some [("User_file_name", PStr file_path);
                ("sheet_validation_results", PDict collection)]))
  end.

Definition run_test (env : Env) (sheet_names : string -> result (list string))
    (user_input : string -> string) : result (option dict) :=
  run_test_on env sheet_names user_input FILE_TO_TEST.

End Driver.

(** ** Further vocabulary for the properties *)

Module Terms.
Import Py Pandas Tools Validation.

Definition is_rate_limited (o : Llm.api_outcome) : bool :=
  match o with Llm.RateLimited => true | _ => false end.

(** The rate-limit errors among the first [n] requests. *)
Definition rate_limited_among (client : nat -> Llm.api_outcome) (n : nat) : nat :=
  List.length (filter is_rate_limited (map client (seq 0 n))).

(** The last character of a text. *)
Fixpoint last_char (s : string) : option ascii :=
  match s with
  | EmptyString => None
  | String c EmptyString => Some c
  | String _ rest => last_char rest
  end.

(** The four fields every schema document carries, [file_name] being the
    path it was asked for. *)
Definition has_schema_fields (file_path : string) (schema : pyval) : Prop :=
  dict_get "file_name" (as_dict schema) = Some (PStr file_path) /\
  dict_mem "sheet_name" (as_dict schema) = true /\
  dict_mem "total_rows" (as_dict schema) = true /\
  dict_mem "columns" (as_dict schema) = true.

(** A schema document that reports an error describes nothing. *)
Definition error_means_empty (schema : pyval) : Prop :=
  dict_mem "error" (as_dict schema) = true ->
  dict_get "total_rows" (as_dict schema) = Some (PInt 0) /\
  dict_get "columns" (as_dict schema) = Some (PDict []).

(** The comparison a CHECK constraint [column operator value] asks for. *)
Definition constraint_holds (operator : string) (x value : Q) : Prop :=
  if String.eqb operator ">" then (value < x)%Q
  else if String.eqb operator ">=" then (value <= x)%Q
  else if String.eqb operator "<" then (x < value)%Q
  else if String.eqb operator "<=" then (x <= value)%Q
  else if String.eqb operator "!=" then ~ (x == value)%Q
  else if String.eqb operator "=" then (x == value)%Q
  else True.

(** The snapshot a run records for a table: the columns of the schema
    extracted from the data as loaded. *)
Definition expected_snapshot (data : loaded) (file_path : string)
    (sheet_name : option string) (table : string) : string * pyval :=
  (table,
   PDict [("columns",
           dict_get_default "columns" (PDict [])
             (as_dict (fst (extract_schema_loaded data file_path sheet_name))))]).

(** What it takes for the report of a sheet to enter the collection of the
    test run. *)
Definition accepted_report (env : Recommend.Env) (user_input : string -> string)
    (file_path sheet_name : string) (entry : pyval) : Prop :=
  dict_mem "error" (Recommend.get_recommendations_for_sheet env file_path sheet_name)
    = false /\
  truthy (PStr (user_input sheet_name)) = true /\
  exists report,
    run_validation_for_single_sheet (Recommend.world env) file_path sheet_name
      (Some (user_input sheet_name)) = Ok report /\
    dict_mem "error" report = false /\
    entry = PDict report.

End Terms.

(** ** Further concrete inputs *)

Module Samples.
Import Py Pandas Tools Validation Examples.

(** A database with a table [orders] and a table whose columns cannot be
    read. *)
Definition orders_inspector : Databricks.Inspector :=
  Databricks.mkInspector
    (fun table_name => Ok (String.eqb table_name "orders"))
    (Ok ["orders"; "broken"])
    (fun table_name =>
       if String.eqb table_name "orders"
       then Ok [Databricks.mkColumnInfo "id" "INTEGER" false;
                Databricks.mkColumnInfo "qty" "INTEGER" true]
       else Raise (IOError "table is unreadable"))
    (fun _ => Ok (Some ["id"])).

Definition orders_table_schema : TableSchema :=
  [("id", mkColumn "INTEGER" false true); ("qty", mkColumn "INTEGER" true false)].

(** A database whose one table can be read. *)
Definition healthy_inspector : Databricks.Inspector :=
  Databricks.mkInspector
    (fun table_name => Ok (String.eqb table_name "orders"))
    (Ok ["orders"])
    (fun _ => Ok [Databricks.mkColumnInfo "qty" "TEXT" true])
    (fun _ => Ok None).

(** The world of the orders file, its parser knowing the answer of the
    table-matching request as well. *)
Definition matching_json (s : string) : option pyval :=
  if String.eqb s "{table-matching}" then Some (PDict [("recommendations", PList [])])
  else example_json s.

Definition matching_world : World :=
  let w := orders_world (Some "final-analysis") in
  mkWorld true
          (read_csv w) (read_excel w) (get_db_schema w)
          (get_check_constraints w) (get_schema_analysis_prompt w)
          (get_dynamic_rules_prompt w) (get_analysis_prompt w)
          (get_llm_streaming_response w) matching_json
          (load_historical_schemas w) (utc_now w).

Definition matching_env : Recommend.Env :=
  Recommend.mkEnv matching_world healthy_inspector (fun _ _ => "{table-matching}").

Definition offline_env : Recommend.Env :=
  Recommend.mkEnv offline_world healthy_inspector (fun _ _ => "{table-matching}").

(** A workbook: read with no sheet name it gives all its sheets. *)
Definition workbook_world : World :=
  let w := orders_world (Some "final-analysis") in
  mkWorld true
          (read_csv w)
          (fun _ sheet_name =>
             match sheet_name with
             | Some _ => Ok (LFrame orders_df)
             | None => Ok (LSheets [("csv_data", orders_df)])
             end)
          (get_db_schema w)
          (get_check_constraints w) (get_schema_analysis_prompt w)
          (get_dynamic_rules_prompt w) (get_analysis_prompt w)
          (get_llm_streaming_response w) matching_json
          (load_historical_schemas w) (utc_now w).

Definition workbook_env : Recommend.Env :=
  Recommend.mkEnv workbook_world healthy_inspector (fun _ _ => "{table-matching}").

(** A sheet whose one row is blank. *)
Definition blank_df : DataFrame :=
  mkDataFrame [("qty", "float64")] [(0, [Null])].

(** [isalnum] on the ASCII range, false beyond it. *)
Definition ascii_isalnum (c : N) : bool :=
  (N.leb 48 c && N.leb c 57 || N.leb 65 c && N.leb c 90 ||
   N.leb 97 c && N.leb c 122)%bool.

Definition always_orders (sheet_name : string) : string := "orders".

(** What the test run collects for the orders file. *)
Definition orders_collection : dict :=
  Eval vm_compute in
    match Driver.process_sheets matching_env always_orders "orders.csv" ["csv_data"] with
    | Ok collection => collection
    | Raise _ => []
    end.

Definition orders_entry : pyval :=
  Eval vm_compute in
    match orders_collection with
    | (_, entry) :: _ => entry
    | [] => PNone
    end.

End Samples.

(** ** Properties *)

Import Py Pandas Tools Validation Spec Examples.

(** *** Dictionaries *)

Section DictFacts.

Lemma dict_set_in (k : string) (v : pyval) (d : dict) (k' : string) (v' : pyval) :
  In (k', v') (dict_set k v d) -> (k' = k /\ v' = v) \/ In (k', v') d.
Proof.
  induction d as [|[k0 v0] d IH]; simpl.
  - intros [H|[]]. inversion H; auto.
  - destruct (String.eqb k k0) eqn:E.
    + apply String.eqb_eq in E. subst k0.
      intros [H|H]; [inversion H; auto | auto].
    + intros [H|H]; [auto|]. destruct (IH H); auto.
Qed.

Lemma dict_get_set (k k' : string) (v : pyval) (d : dict) :
  dict_get k (dict_set k' v d) =
  if String.eqb k k' then Some v else dict_get k d.
Proof.
  induction d as [|[k0 v0] d IH]; simpl.
  - destruct (String.eqb k k'); reflexivity.
  - destruct (String.eqb k' k0) eqn:E; simpl.
    + apply String.eqb_eq in E. subst k0.
      destruct (String.eqb k k'); reflexivity.
    + destruct (String.eqb k k0) eqn:E0.
      * apply String.eqb_eq in E0. subst k0.
        rewrite String.eqb_sym, E. reflexivity.
      * exact IH.
Qed.

Lemma dict_mem_set (k k' : string) (v : pyval) (d : dict) :
  dict_mem k (dict_set k' v d) = (String.eqb k k' || dict_mem k d)%bool.
Proof.
  unfold dict_mem. rewrite dict_get_set.
  destruct (String.eqb k k'); reflexivity.
Qed.

Lemma dict_mem_update (k : string) (other d : dict) :
  dict_mem k (dict_update d other) = (dict_mem k d || dict_mem k other)%bool.
Proof.
  unfold dict_update. revert d.
  induction other as [|[k0 v0] o IH]; intro d; simpl.
  - rewrite orb_false_r. reflexivity.
  - rewrite IH, dict_mem_set. unfold dict_mem. simpl.
    destruct (String.eqb k k0); simpl.
    + destruct (dict_get k d); reflexivity.
    + reflexivity.
Qed.

Lemma dict_get_remove_other (k k' : string) (d : dict) :
  String.eqb k k' = false -> dict_get k (dict_remove k' d) = dict_get k d.
Proof.
  intro E. induction d as [|[k0 v0] d IH]; simpl; [reflexivity|].
  destruct (String.eqb k' k0) eqn:E0; simpl.
  - apply String.eqb_eq in E0. subst k0. rewrite E. reflexivity.
  - rewrite IH. reflexivity.
Qed.

Lemma dict_mem_remove_other (k k' : string) (d : dict) :
  String.eqb k k' = false -> dict_mem k (dict_remove k' d) = dict_mem k d.
Proof.
  intro E. unfold dict_mem. rewrite dict_get_remove_other by exact E. reflexivity.
Qed.

Lemma Ok_PStr_inj (a b : string) : @Ok pyval (PStr a) = Ok (PStr b) -> a = b.
Proof.
  unfold PStr. intro H. inversion H. reflexivity.
Qed.

End DictFacts.

(** *** Schema extraction *)

Section ExtractorFacts.

Lemma filter_split_length {A : Type} (p : A -> bool) (l : list A) :
  (List.length (filter (fun x => negb (p x)) l) + List.length (filter p l)
   = List.length l)%nat.
Proof.
  induction l as [|x l IH]; simpl; [reflexivity|].
  destruct (p x); simpl; lia.
Qed.

Lemma filter_idempotent {A : Type} (p : A -> bool) (l : list A) :
  filter p (filter p l) = filter p l.
Proof.
  induction l as [|x l IH]; simpl; [reflexivity|].
  destruct (p x) eqn:E; simpl; [rewrite E, IH|]; auto.
Qed.

Lemma filter_drops_empty_rows (rs : list (Z * list cell)) :
  drops_empty_rows rs (filter (fun r => negb (fully_empty r)) rs).
Proof.
  induction rs as [|r rs IH]; simpl.
  - constructor.
  - destruct (fully_empty r) eqn:E; simpl.
    + apply der_drop; assumption.
    + apply der_keep; assumption.
Qed.

Lemma drops_empty_rows_in (rs rs' : list (Z * list cell)) :
  drops_empty_rows rs rs' ->
  forall r, In r rs' <-> In r rs /\ fully_empty r = false.
Proof.
  induction 1 as [|r0 rs rs' E _ IH|r0 rs rs' E _ IH]; intro r; simpl.
  - tauto.
  - rewrite IH. split.
    + tauto.
    + intros [[->|H] F]; [congruence | tauto].
  - rewrite IH. split.
    + intros [->|[H F]]; auto.
    + intros [[->|H] F]; auto.
Qed.

(** The relation determines its result. *)
Lemma drops_empty_rows_functional (rs a b : list (Z * list cell)) :
  drops_empty_rows rs a -> drops_empty_rows rs b -> a = b.
Proof.
  intro Ha. revert b.
  induction Ha as [|r rs rs' E _ IH|r rs rs' E _ IH]; intros b Hb;
    inversion Hb; subst; try congruence.
  - apply IH. assumption.
  - f_equal. apply IH. assumption.
Qed.

Lemma extract_schema_frame (df : DataFrame) (file_name : string)
    (sheet_name : option string) :
  snd (extract_schema_from_df df file_name sheet_name) = dropna_all df.
Proof.
  unfold extract_schema_from_df.
  destruct (df_empty (dropna_all df)); [reflexivity|].
  destruct (column_details_loop _ _ _); reflexivity.
Qed.

Lemma column_details_loop_describes (df : DataFrame) (cols : list string) :
  forall acc d,
    column_details_loop df cols acc = Ok d ->
    (forall col details, In (col, details) acc -> describes df col details) ->
    forall col details, In (col, details) d -> describes df col details.
Proof.
  induction cols as [|c cols IH]; intros acc d Hloop Hacc col details Hin.
  - simpl in Hloop. inversion Hloop; subst. auto.
  - simpl in Hloop. destruct (getitem df c) as [s| |] eqn:G; try discriminate.
    eapply IH; [exact Hloop| |exact Hin].
    intros col' details' Hin'.
    apply dict_set_in in Hin'. destruct Hin' as [[-> ->]|Hin'].
    + exists s. split; [assumption|reflexivity].
    + auto.
Qed.

Lemma positions_from_nth (name : string) (ls : list string) :
  forall i j, In j (positions_from name ls i) ->
              (i <= j)%nat /\ nth_error ls (j - i) = Some name.
Proof.
  induction ls as [|l ls IH]; intros i j Hin; simpl in Hin; [contradiction|].
  destruct (String.eqb name l) eqn:E.
  - destruct Hin as [<-|Hin].
    + apply String.eqb_eq in E. subst l. rewrite Nat.sub_diag. simpl. auto.
    + apply IH in Hin. destruct Hin as [Hle Hn]. split; [lia|].
      replace (j - i)%nat with (S (j - S i)) by lia. exact Hn.
  - apply IH in Hin. destruct Hin as [Hle Hn]. split; [lia|].
    replace (j - i)%nat with (S (j - S i)) by lia. exact Hn.
Qed.

Lemma getitem_series_in_header (df : DataFrame) (col : string) (s : Series) :
  getitem df col = SelSeries s -> In (col, s_dtype s) (columns df).
Proof.
  unfold getitem. destruct (positions col df) as [|j [|j' js]] eqn:P; try discriminate.
  intro H. inversion H; subst; clear H. simpl.
  assert (Hj : In j (positions col df)) by (rewrite P; simpl; auto).
  unfold positions, labels in Hj. apply positions_from_nth in Hj.
  destruct Hj as [_ Hn]. rewrite Nat.sub_0_r in Hn.
  rewrite nth_error_map in Hn.
  destruct (nth_error (columns df) j) as [[l t]|] eqn:N; [|discriminate].
  simpl in Hn. inversion Hn; subst.
  assert (Hin : In (col, t) (columns df)) by (eapply nth_error_In; eauto).
  replace (nth j (map snd (columns df)) EmptyString) with t; [assumption|].
  symmetry. apply nth_error_nth. rewrite nth_error_map, N. reflexivity.
Qed.

Lemma positions_from_complete (name : string) (ls : list string) :
  forall i k, nth_error ls k = Some name -> In (i + k)%nat (positions_from name ls i).
Proof.
  induction ls as [|l ls IH]; intros i k Hn.
  - destruct k; discriminate.
  - destruct k as [|k]; simpl in Hn.
    + inversion Hn; subst. simpl. rewrite String.eqb_refl, Nat.add_0_r. left. reflexivity.
    + simpl. apply (IH (S i)) in Hn.
      replace (i + S k)%nat with (S i + k)%nat by lia.
      destruct (String.eqb name l); [right|]; exact Hn.
Qed.

Lemma getitem_series_unique (df : DataFrame) (col : string) (s : Series) :
  getitem df col = SelSeries s ->
  forall t, In (col, t) (columns df) -> t = s_dtype s.
Proof.
  unfold getitem. destruct (positions col df) as [|j [|j' js]] eqn:P; try discriminate.
  intro H. inversion H; subst; clear H. simpl. intros t Hin.
  apply In_nth_error in Hin. destruct Hin as [k Hk].
  assert (Hl : nth_error (labels df) k = Some col).
  { unfold labels. rewrite nth_error_map, Hk. reflexivity. }
  apply (positions_from_complete col (labels df) 0) in Hl.
  fold (positions col df) in Hl. rewrite P in Hl. simpl in Hl.
  destruct Hl as [<-|[]].
  symmetry. apply nth_error_nth. rewrite nth_error_map, Hk. reflexivity.
Qed.

End ExtractorFacts.

(** **** Frame effect of the extractor *)

(** C10. Schema extraction modifies the caller's DataFrame: after
    [extract_schema_from_df] the frame has lost exactly its fully empty
    rows; the header, the other rows, their index labels and their order
    are unchanged, and no fully empty row is left. *)
Theorem extract_schema_removes_empty_rows_in_place
    (df : DataFrame) (file_name : string) (sheet_name : option string) :
  let df' := snd (extract_schema_from_df df file_name sheet_name) in
  columns df' = columns df /\
  drops_empty_rows (rows df) (rows df') /\
  (forall r, In r (rows df') <-> In r (rows df) /\ fully_empty r = false) /\
  (List.length (rows df') + count_rows_empty df = List.length (rows df))%nat /\
  snd (extract_schema_from_df df' file_name sheet_name) = df'.
Proof.
  cbv zeta. rewrite extract_schema_frame.
  assert (D : drops_empty_rows (rows df) (rows (dropna_all df)))
    by apply filter_drops_empty_rows.
  split; [reflexivity|]. split; [exact D|].
  split; [apply drops_empty_rows_in; exact D|]. split.
  - unfold count_rows_empty, dropna_all. simpl.
    apply (filter_split_length fully_empty).
  - rewrite extract_schema_frame.
    unfold dropna_all. simpl. f_equal. apply filter_idempotent.
Qed.

(** **** Recorded type tags *)

(** C3, as stated, fails: a column whose dtype is [uint64] (what
    [read_csv] infers for integers above the signed 64-bit range) is
    recorded with the tag [uint64], which is none of the five. *)
Lemma inferred_type_outside_canonical_tags :
  let schema := fst (extract_schema_from_df big_df "big.csv" None) in
  has_error schema = false /\
  (exists details,
      In ("big", details) (schema_columns schema) /\
      item "inferred_type" details = Ok (PStr "uint64")) /\
  ~ In "uint64" canonical_dtypes.
Proof.
  cbv zeta. split; [reflexivity|]. split.
  - eexists. split; [left; reflexivity | reflexivity].
  - unfold canonical_dtypes. simpl.
    intros [H|[H|[H|[H|[H|[]]]]]]; discriminate.
Qed.

(** C3, amended. When extraction succeeds, the type recorded for a column
    is the dtype name of the caller's column with that label, verbatim;
    so it is one of the five tags exactly when that dtype is. *)
Theorem inferred_type_is_column_dtype
    (df : DataFrame) (file_name : string) (sheet_name : option string)
    (col : string) (details : pyval) :
  has_error (fst (extract_schema_from_df df file_name sheet_name)) = false ->
  In (col, details)
     (schema_columns (fst (extract_schema_from_df df file_name sheet_name))) ->
  exists t,
    In (col, t) (columns df) /\
    (forall t', In (col, t') (columns df) -> t' = t) /\
    item "inferred_type" details = Ok (PStr t) /\
    ((exists tag, item "inferred_type" details = Ok (PStr tag) /\
                  In tag canonical_dtypes)
     <-> In t canonical_dtypes).
Proof.
  unfold extract_schema_from_df.
  destruct (df_empty (dropna_all df)).
  - simpl. intros _ [].
  - destruct (column_details_loop (dropna_all df) (labels (dropna_all df)) [])
      as [d|e] eqn:L.
    + simpl. intros _ Hin.
      destruct (column_details_loop_describes _ _ _ _ L (fun _ _ F => match F with end)
                  col details Hin) as [s [G I]].
      exists (s_dtype s). split; [|split; [|split]].
      * apply (getitem_series_in_header (dropna_all df)). exact G.
      * intros t' Ht'. apply (getitem_series_unique (dropna_all df) col s G t' Ht').
      * exact I.
      * split.
        -- intros [tag [Ht Hc]]. rewrite I in Ht. inversion Ht; subst. exact Hc.
        -- intro Hc. exists (s_dtype s). auto.
    + simpl. discriminate.
Qed.

Lemma inferred_type_is_column_dtype_witness :
  has_error (fst (extract_schema_from_df orders_df "orders.csv" None)) = false /\
  In ("qty", qty_details)
     (schema_columns (fst (extract_schema_from_df orders_df "orders.csv" None))) /\
  exists t,
    In ("qty", t) (columns orders_df) /\
    (forall t', In ("qty", t') (columns orders_df) -> t' = t) /\
    item "inferred_type" qty_details = Ok (PStr t) /\
    ((exists tag, item "inferred_type" qty_details = Ok (PStr tag) /\
                  In tag canonical_dtypes)
     <-> In t canonical_dtypes).
Proof.
  split; [reflexivity|]. split; [left; reflexivity|].
  apply (inferred_type_is_column_dtype orders_df "orders.csv" None "qty" qty_details).
  - reflexivity.
  - left; reflexivity.
Defined.

(** *** Type-compatibility check *)

Section TypeCheckFacts.

Lemma in_concat_map_fst {A B C : Type} (f : A -> list B * C) (l : list A) (v : B) :
  In v (List.concat (map fst (map f l))) <-> exists a, In a l /\ In v (fst (f a)).
Proof.
  rewrite in_concat. split.
  - intros [x [Hx Hv]]. rewrite map_map in Hx. apply in_map_iff in Hx.
    destruct Hx as [a [<- Ha]]. eauto.
  - intros [a [Ha Hv]]. exists (fst (f a)). split; [|exact Hv].
    rewrite map_map. apply in_map_iff. eauto.
Qed.

Lemma in_concat_map_snd {A B C : Type} (f : A -> B * list C) (l : list A) (v : C) :
  In v (List.concat (map snd (map f l))) <-> exists a, In a l /\ In v (snd (f a)).
Proof.
  rewrite in_concat. split.
  - intros [x [Hx Hv]]. rewrite map_map in Hx. apply in_map_iff in Hx.
    destruct Hx as [a [<- Ha]]. eauto.
  - intros [a [Ha Hv]]. exists (snd (f a)). split; [|exact Hv].
    rewrite map_map. apply in_map_iff. eauto.
Qed.

Lemma in_validate_data_types (df : DataFrame) (db_schema : TableSchema) (v : pyval) :
  In v (validate_data_types df db_schema) <->
  exists name details,
    In (name, details) db_schema /\ In v (fst (type_check_column df name details)).
Proof.
  unfold validate_data_types, validate_data_types_log. cbn [fst].
  rewrite (in_concat_map_fst (fun e => type_check_column df (fst e) (snd e))).
  split.
  - intros [[name details] [He Hv]]. exists name, details. auto.
  - intros [name [details [He Hv]]]. exists (name, details). auto.
Qed.

(** The shape of a type violation and the condition under which it is
    emitted. *)
Lemma type_check_column_inv (df : DataFrame) (name : string) (details : ColumnDetails)
    (v : pyval) :
  In v (fst (type_check_column df name details)) ->
  exists s expected samples,
    getitem df name = SelSeries s /\
    smap_get (base_type (col_type details)) sql_to_pandas_map = Some expected /\
    String.eqb (s_dtype s) expected = false /\
    (mem_str (base_type (col_type details)) date_types &&
     String.eqb (s_dtype s) "object")%bool = false /\
    (List.length samples <= 5)%nat /\
    v = PDict [("column", PStr name);
               ("expected_db_type", PStr (base_type (col_type details)));
               ("found_file_type", PStr (s_dtype s));
               ("sample_invalid_values", str_list samples)].
Proof.
  unfold type_check_column.
  destruct (has_column name df); cbn [negb fst In]; [|intros []].
  destruct (getitem df name) as [s|n|] eqn:G; cbn [fst In]; [|intros []|intros []].
  destruct (smap_get (base_type (col_type details)) sql_to_pandas_map)
    as [expected|] eqn:M; cbn [fst In]; [|intros []].
  destruct (String.eqb (s_dtype s) expected) eqn:E1; cbn [negb andb fst In];
    [intros []|].
  destruct (mem_str (base_type (col_type details)) date_types &&
            String.eqb (s_dtype s) "object")%bool eqn:E2; cbn [negb fst In];
    [intros []|].
  intros [<-|[]].
  exists s, expected.
  eexists. split; [reflexivity|]. split; [reflexivity|]. split; [exact E1|].
  split; [exact E2|]. split; [|reflexivity].
  apply firstn_le_length.
Qed.

Lemma type_violation_fields (name base dtype : string) (samples : pyval) :
  let v := PDict [("column", PStr name); ("expected_db_type", PStr base);
                  ("found_file_type", PStr dtype);
                  ("sample_invalid_values", samples)] in
  item "column" v = Ok (PStr name) /\
  item "expected_db_type" v = Ok (PStr base) /\
  item "found_file_type" v = Ok (PStr dtype) /\
  item "sample_invalid_values" v = Ok samples.
Proof.
  cbv zeta. repeat split; reflexivity.
Qed.

Lemma mem_str_In (x : string) (l : list string) : mem_str x l = true <-> In x l.
Proof.
  unfold mem_str. rewrite existsb_exists. split.
  - intros [y [Hy E]]. apply String.eqb_eq in E. subst. exact Hy.
  - intro H. exists x. split; [exact H | apply String.eqb_refl].
Qed.

Lemma collect_samples_sound (bad : cell -> bool) (vals : list cell) :
  forall acc x,
    In x (collect_samples bad vals acc) ->
    In x acc \/ exists v, In v vals /\ bad v = true /\ x = py_str v.
Proof.
  induction vals as [|v vals IH]; intros acc x H; cbn [collect_samples] in H;
    [auto|].
  assert (Hacc : forall y, In y (if bad v then acc ++ [py_str v] else acc) ->
                           In y acc \/ (bad v = true /\ y = py_str v)).
  { intros y Hy. destruct (bad v); [|auto].
    apply in_app_or in Hy. destruct Hy as [Hy|[<-|[]]]; auto. }
  destruct (Nat.leb 5 (List.length (if bad v then acc ++ [py_str v] else acc))).
  - destruct (Hacc x H) as [Hx|[Hb ->]]; [auto|].
    right. exists v. split; [left; reflexivity | auto].
  - apply IH in H. destruct H as [H|[v' [Hv' [Hb ->]]]].
    + destruct (Hacc x H) as [Hx|[Hb ->]]; [auto|].
      right. exists v. split; [left; reflexivity | auto].
    + right. exists v'. split; [right; exact Hv' | auto].
Qed.

End TypeCheckFacts.


(** *** Constraint checks: shape of the violations *)

Section QualityShapes.

Lemma not_null_check_inv (name : string) (details : ColumnDetails) (s : Series)
    (v : pyval) :
  In v (not_null_check name details s) ->
  exists n idx msg,
    nullable details = false /\
    n = not_null_count s (col_type details) /\
    (0 < n)%nat /\
    idx = firstn 5 (select (null_or_empty_mask s) (s_index s)) /\
    v = PDict [("column", PStr name);
               ("check", PStr "not_null_violation");
               ("count", PNat n);
               ("affected_rows_sample_indices", int_list idx);
               ("severity", PStr "high");
               ("details", PStr msg)].
Proof.
  unfold not_null_check.
  destruct (nullable details); cbn [negb]; [intros []|].
  destruct (Nat.ltb 0 (not_null_count s (col_type details))) eqn:E; [|intros []].
  intros [<-|[]]. apply Nat.ltb_lt in E.
  eexists _, _, _. repeat split. exact E.
Qed.

Lemma primary_key_check_inv (name : string) (details : ColumnDetails) (s : Series)
    (v : pyval) :
  In v (primary_key_check name details s) ->
  exists msg,
    primary_key details = true /\
    (0 < List.length (unique (pk_duplicates s)))%nat /\
    v = PDict [("column", PStr name);
               ("check", PStr "primary_key_violation");
               ("distinct_keys_duplicated",
                PNat (List.length (unique (pk_duplicates s))));
               ("total_duplicate_records", PNat (List.length (pk_duplicates s)));
               ("sample_duplicate_values",
                str_list (map py_str (firstn 5 (unique (pk_duplicates s)))));
               ("severity", PStr "high");
               ("details", PStr msg)].
Proof.
  unfold primary_key_check.
  destruct (primary_key details); [|intros []].
  destruct (Nat.ltb 0 (List.length (unique (pk_duplicates s)))) eqn:E; [|intros []].
  intros [<-|[]]. apply Nat.ltb_lt in E.
  eexists. repeat split. exact E.
Qed.

Lemma check_one_constraint_inv (name : string) (s : Series) (c : CheckConstraint)
    (v : pyval) :
  In v (fst (check_one_constraint name s c)) ->
  exists operator value idx vals msg,
    match_check_constraint name (Str.strip (cc_sqltext c)) = Some (operator, value) /\
    non_numeric_present s = false /\
    let violated := violated_rows operator value (map to_numeric (s_values s)) in
    (0 < count_true violated)%nat /\
    idx = firstn 5 (select violated (s_index s)) /\
    (List.length vals <= 5)%nat /\
    v = PDict [("column", PStr name);
               ("check", PStr "check_constraint_violation");
               ("constraint_name", opt_str (cc_name c));
               ("sqltext", PStr (Str.strip (cc_sqltext c)));
               ("count", PNat (count_true violated));
               ("affected_rows_sample_indices", int_list idx);
               ("sample_violating_values", str_list vals);
               ("severity", PStr "medium");
               ("details", PStr msg)].
Proof.
  unfold check_one_constraint.
  destruct (match_check_constraint name (Str.strip (cc_sqltext c)))
    as [[operator value]|] eqn:M; [|intros []].
  destruct (non_numeric_present s) eqn:N; cbn [negb]; [intros []|].
  destruct (Nat.ltb 0 (count_true (violated_rows operator value
                                     (map to_numeric (s_values s))))) eqn:E;
    [|intros []].
  intros [<-|[]]. apply Nat.ltb_lt in E.
  exists operator, value. eexists _, _, _.
  split; [reflexivity|]. split; [reflexivity|]. cbv zeta.
  split; [exact E|]. split; [reflexivity|]. split; [|reflexivity].
  rewrite length_map. apply firstn_le_length.
Qed.

Lemma in_check_constraints_check (name : string) (s : Series)
    (cs : list CheckConstraint) (v : pyval) :
  In v (fst (check_constraints_check name s cs)) ->
  exists c, In c cs /\ Str.contains name (cc_sqltext c) = true /\
            In v (fst (check_one_constraint name s c)).
Proof.
  unfold check_constraints_check. cbn [fst].
  rewrite (in_concat_map_fst (check_one_constraint name s)).
  intros [c [Hc Hv]]. apply filter_In in Hc. destruct Hc as [Hc Hm].
  exists c. auto.
Qed.

(** Every violation of a column is one of the three kinds. *)
Lemma quality_check_column_inv (df : DataFrame) (cs : list CheckConstraint)
    (name : string) (details : ColumnDetails) (v : pyval) :
  In v (fst (quality_check_column df cs name details)) ->
  exists s,
    getitem df name = SelSeries s /\
    (In v (not_null_check name details s) \/
     In v (primary_key_check name details s) \/
     In v (fst (check_constraints_check name s cs))).
Proof.
  unfold quality_check_column.
  destruct (has_column name df); cbn [negb fst In]; [|intros []].
  destruct (getitem df name) as [s|n|]; cbn [fst In]; [|intros []|intros []].
  intro H. exists s. split; [reflexivity|].
  apply in_app_or in H. destruct H as [H|H]; [auto|].
  apply in_app_or in H. destruct H as [H|H]; auto.
Qed.

Lemma in_run_data_quality_checks (df : DataFrame) (db_schema : TableSchema)
    (fetched : result (list CheckConstraint)) (table : string) (v : pyval) :
  In v (run_data_quality_checks df db_schema fetched table) <->
  exists name details,
    In (name, details) db_schema /\
    In v (fst (quality_check_column df
                 (match fetched with Ok cs => cs | Raise _ => [] end) name details)).
Proof.
  unfold run_data_quality_checks, run_data_quality_checks_log.
  destruct fetched as [cs|e]; cbn [fst].
  - rewrite (in_concat_map_fst (fun e => quality_check_column df cs (fst e) (snd e))).
    split.
    + intros [[name details] [He Hv]]. exists name, details. auto.
    + intros [name [details [He Hv]]]. exists (name, details). auto.
  - rewrite (in_concat_map_fst (fun e => quality_check_column df [] (fst e) (snd e))).
    split.
    + intros [[name details] [He Hv]]. exists name, details. auto.
    + intros [name [details [He Hv]]]. exists (name, details). auto.
Qed.

Lemma quality_violation_column (df : DataFrame) (cs : list CheckConstraint)
    (name : string) (details : ColumnDetails) (v : pyval) :
  In v (fst (quality_check_column df cs name details)) ->
  item "column" v = Ok (PStr name).
Proof.
  intro H. apply quality_check_column_inv in H.
  destruct H as [s [_ [H|[H|H]]]].
  - apply not_null_check_inv in H.
    destruct H as [n [idx [msg [_ [_ [_ [_ ->]]]]]]]. reflexivity.
  - apply primary_key_check_inv in H. destruct H as [msg [_ [_ ->]]]. reflexivity.
  - apply in_check_constraints_check in H. destruct H as [c [_ [_ H]]].
    apply check_one_constraint_inv in H.
    destruct H as [op [val [idx [vals [msg [_ [_ H]]]]]]]. cbv zeta in H.
    destruct H as [_ [_ [_ ->]]]. reflexivity.
Qed.

Lemma type_violation_column (df : DataFrame) (name : string)
    (details : ColumnDetails) (v : pyval) :
  In v (fst (type_check_column df name details)) ->
  item "column" v = Ok (PStr name).
Proof.
  intro H. apply type_check_column_inv in H.
  destruct H as [s [exp [samples [_ [_ [_ [_ [_ ->]]]]]]]]. reflexivity.
Qed.

End QualityShapes.

(** *** Duplicate labels after renaming *)

Section DuplicateLabels.

Lemma positions_from_present (f : string -> string) (a t : string) (ls : list string) :
  In a ls -> f a = t ->
  forall i, (1 <= List.length (positions_from t (map f ls) i))%nat.
Proof.
  intros Ha Hf. induction ls as [|l ls IH]; intro i; [contradiction|].
  cbn [map positions_from].
  destruct (String.eqb t (f l)) eqn:E.
  - cbn [List.length]. lia.
  - destruct Ha as [->|Ha].
    + rewrite Hf, String.eqb_refl in E. discriminate.
    + apply IH. exact Ha.
Qed.

Lemma positions_from_twice (f : string -> string) (a b t : string) (ls : list string) :
  a <> b -> In a ls -> In b ls -> f a = t -> f b = t ->
  forall i, (2 <= List.length (positions_from t (map f ls) i))%nat.
Proof.
  intros Hab Ha Hb Hfa Hfb. induction ls as [|l ls IH]; intro i; [contradiction|].
  cbn [map positions_from].
  destruct (String.eqb t (f l)) eqn:E.
  - cbn [List.length].
    assert (1 <= List.length (positions_from t (map f ls) (S i)))%nat; [|lia].
    destruct Ha as [->|Ha].
    + destruct Hb as [->|Hb]; [contradiction|].
      apply (positions_from_present f b); assumption.
    + apply (positions_from_present f a); assumption.
  - destruct Ha as [->|Ha].
    { rewrite Hfa, String.eqb_refl in E. discriminate. }
    destruct Hb as [->|Hb].
    { rewrite Hfb, String.eqb_refl in E. discriminate. }
    apply IH; assumption.
Qed.

Lemma labels_rename (mapping : list (string * string)) (df : DataFrame) :
  labels (rename mapping df) = map (rename_label mapping) (labels df).
Proof.
  unfold labels, rename. cbn [columns]. rewrite !map_map. reflexivity.
Qed.

Lemma existsb_positions_from (name : string) (ls : list string) :
  forall i, positions_from name ls i <> [] -> existsb (String.eqb name) ls = true.
Proof.
  induction ls as [|l ls IH]; intros i H; cbn in *; [congruence|].
  destruct (String.eqb name l); [reflexivity|]. cbn. eapply IH. exact H.
Qed.

Lemma has_column_positions (name : string) (df : DataFrame) :
  (1 <= List.length (positions name df))%nat -> has_column name df = true.
Proof.
  intro H. unfold has_column. apply (existsb_positions_from name (labels df) 0).
  unfold positions in H. destruct (positions_from name (labels df) 0); cbn in H;
    [lia | discriminate].
Qed.

Lemma getitem_repeated (name : string) (df : DataFrame) :
  (2 <= List.length (positions name df))%nat ->
  has_column name df = true /\ exists n, getitem df name = SelFrame n.
Proof.
  intro H. split; [apply has_column_positions; lia|].
  unfold getitem. destruct (positions name df) as [|j [|j' js]]; cbn in H; try lia.
  eexists. reflexivity.
Qed.

Lemma renamed_collision (df : DataFrame) (mapping : list (string * string))
    (a b target : string) :
  a <> b -> In a (labels df) -> In b (labels df) ->
  rename_label mapping a = target -> rename_label mapping b = target ->
  has_column target (rename mapping df) = true /\
  exists n, getitem (rename mapping df) target = SelFrame n.
Proof.
  intros Hab Ha Hb Hfa Hfb. apply getitem_repeated.
  unfold positions. rewrite labels_rename.
  apply (positions_from_twice (rename_label mapping) a b); assumption.
Qed.

End DuplicateLabels.

(** C9. When the naming map sends two distinct file columns to one target
    name, the column carrying that name is left out of both checks: no
    type violation and no data-quality violation names it, and each
    checker logs a warning for it when the table has such a column. *)
Theorem colliding_columns_are_skipped
    (df : DataFrame) (mapping : list (string * string)) (a b target : string)
    (db_schema : TableSchema) (fetched : result (list CheckConstraint))
    (table : string) :
  a <> b -> In a (labels df) -> In b (labels df) ->
  rename_label mapping a = target -> rename_label mapping b = target ->
  let mapped_df := rename mapping df in
  (forall v, In v (validate_data_types mapped_df db_schema) ->
             item "column" v <> Ok (PStr target)) /\
  (forall v, In v (run_data_quality_checks mapped_df db_schema fetched table) ->
             item "column" v <> Ok (PStr target)) /\
  (forall details,
      In (target, details) db_schema ->
      In (duplicate_type_warning target)
         (snd (validate_data_types_log mapped_df db_schema)) /\
      In (duplicate_quality_warning target)
         (snd (run_data_quality_checks_log mapped_df db_schema fetched table))).
Proof.
  intros Hab Ha Hb Hfa Hfb mapped_df.
  destruct (renamed_collision df mapping a b target Hab Ha Hb Hfa Hfb)
    as [Hhas [n Hget]].
  fold mapped_df in Hhas, Hget.
  assert (Htype : forall details,
             type_check_column mapped_df target details =
             ([], [duplicate_type_warning target])).
  { intro details. unfold type_check_column. rewrite Hhas, Hget. reflexivity. }
  assert (Hqual : forall cs details,
             quality_check_column mapped_df cs target details =
             ([], [duplicate_quality_warning target])).
  { intros cs details. unfold quality_check_column. rewrite Hhas, Hget. reflexivity. }
  split; [|split].
  - intros v Hin Hcol. apply in_validate_data_types in Hin.
    destruct Hin as [name [details [_ Hv]]].
    pose proof (type_violation_column _ _ _ _ Hv) as Hname.
    pose proof (eq_trans (eq_sym Hname) Hcol) as E. apply Ok_PStr_inj in E. subst name.
    rewrite Htype in Hv. exact Hv.
  - intros v Hin Hcol. apply in_run_data_quality_checks in Hin.
    destruct Hin as [name [details [_ Hv]]].
    pose proof (quality_violation_column _ _ _ _ _ Hv) as Hname.
    pose proof (eq_trans (eq_sym Hname) Hcol) as E. apply Ok_PStr_inj in E. subst name.
    rewrite Hqual in Hv. exact Hv.
  - intros details Hin. split.
    + unfold validate_data_types_log. cbn [snd]. apply in_or_app. left.
      apply (in_concat_map_snd (fun e => type_check_column mapped_df (fst e) (snd e))).
      exists (target, details). split; [exact Hin|].
      cbn [fst snd]. rewrite Htype. left. reflexivity.
    + unfold run_data_quality_checks_log.
      destruct fetched as [cs|e]; cbn [snd]; right; apply in_or_app; left.
      * apply (in_concat_map_snd
                 (fun e => quality_check_column mapped_df cs (fst e) (snd e))).
        exists (target, details). split; [exact Hin|].
        cbn [fst snd]. rewrite Hqual. left. reflexivity.
      * apply (in_concat_map_snd
                 (fun e => quality_check_column mapped_df [] (fst e) (snd e))).
        exists (target, details). split; [exact Hin|].
        cbn [fst snd]. rewrite Hqual. left. reflexivity.
Qed.

Lemma colliding_columns_are_skipped_witness :
  "qty" <> "quantity" /\
  In "qty" (labels two_quantities_df) /\
  In "quantity" (labels two_quantities_df) /\
  rename_label colliding_map "qty" = "Quantity" /\
  rename_label colliding_map "quantity" = "Quantity" /\
  (forall v, In v (validate_data_types (rename colliding_map two_quantities_df)
                     quantity_schema) ->
             item "column" v <> Ok (PStr "Quantity")) /\
  (forall v, In v (run_data_quality_checks (rename colliding_map two_quantities_df)
                     quantity_schema (Ok []) "orders") ->
             item "column" v <> Ok (PStr "Quantity")) /\
  (forall details,
      In ("Quantity", details) quantity_schema ->
      In (duplicate_type_warning "Quantity")
         (snd (validate_data_types_log (rename colliding_map two_quantities_df)
                 quantity_schema)) /\
      In (duplicate_quality_warning "Quantity")
         (snd (run_data_quality_checks_log (rename colliding_map two_quantities_df)
                 quantity_schema (Ok []) "orders"))).
Proof.
  assert (Hne : "qty" <> "quantity") by discriminate.
  split; [exact Hne|].
  split; [left; reflexivity|].
  split; [right; left; reflexivity|].
  split; [reflexivity|].
  split; [reflexivity|].
  apply (colliding_columns_are_skipped two_quantities_df colliding_map
           "qty" "quantity" "Quantity" quantity_schema (Ok []) "orders").
  - exact Hne.
  - left; reflexivity.
  - right; left; reflexivity.
  - reflexivity.
  - reflexivity.
Defined.

(** *** Not-null check *)

Section NotNullFacts.

Lemma filter_none {A : Type} (p : A -> bool) (l : list A) :
  (forall x, In x l -> p x = false) -> filter p l = [].
Proof.
  induction l as [|x l IH]; intro H; cbn; [reflexivity|].
  rewrite (H x (or_introl eq_refl)). apply IH. intros y Hy. apply H. right. exact Hy.
Qed.

Lemma is_empty_str_CStr (c : cell) :
  is_empty_str c = true -> c = CStr EmptyString.
Proof.
  destruct c; cbn; try discriminate.
  intro H. apply String.eqb_eq in H. subst. reflexivity.
Qed.

Lemma is_object_dtype (s : Series) : is_object s = true <-> s_dtype s = "object".
Proof.
  unfold is_object. apply String.eqb_eq.
Qed.

Lemma no_empty_strings_outside_object (s : Series) :
  strings_in_object_columns s -> is_object s = false ->
  forall c, In c (s_values s) -> is_empty_str c = false.
Proof.
  intros Hwf Hobj c Hc. destruct (is_empty_str c) eqn:E; [|reflexivity].
  apply is_empty_str_CStr in E.
  apply (Hwf c EmptyString Hc) in E. apply is_object_dtype in E. congruence.
Qed.

Lemma empty_string_count_spec (s : Series) :
  strings_in_object_columns s ->
  empty_string_count s = count_where is_empty_str (s_values s).
Proof.
  intro Hwf. unfold empty_string_count, count_where.
  destruct (is_object s) eqn:E; [reflexivity|].
  rewrite filter_none; [reflexivity|].
  apply no_empty_strings_outside_object; assumption.
Qed.

Lemma not_null_count_spec (s : Series) (declared : string) :
  strings_in_object_columns s ->
  not_null_count s declared =
  if is_db_string_type declared
  then count_where is_null (s_values s)
  else (count_where is_null (s_values s) + count_where is_empty_str (s_values s))%nat.
Proof.
  intro Hwf. unfold not_null_count. rewrite (empty_string_count_spec s Hwf).
  unfold null_count, count_where.
  destruct (is_db_string_type declared); cbn [negb andb]; [reflexivity|].
  destruct (Nat.ltb 0 (List.length (filter is_empty_str (s_values s)))) eqn:E;
    [reflexivity|].
  apply Nat.ltb_ge in E. lia.
Qed.

Lemma select_incl {A : Type} (mask : list bool) (xs : list A) (x : A) :
  In x (select mask xs) -> In x xs.
Proof.
  revert xs. induction mask as [|b mask IH]; intros xs H; [contradiction|].
  destruct xs as [|y xs]; destruct b; cbn in H; try contradiction.
  - destruct H as [->|H]; [left; reflexivity | right; apply IH; exact H].
  - right. apply IH. exact H.
Qed.

Lemma firstn_incl {A : Type} (n : nat) (l : list A) (x : A) :
  In x (firstn n l) -> In x l.
Proof.
  revert l. induction n as [|n IH]; intros l H; [contradiction|].
  destruct l as [|y l]; [contradiction|].
  destruct H as [->|H]; [left; reflexivity | right; apply IH; exact H].
Qed.

(** Which declared types the check treats as text-based. *)
Lemma text_based_declared_types :
  map is_db_string_type ["TEXT"; "VARCHAR(255)"; "CHAR(3)"; "STRING"; "nvarchar(10)"]
    = [true; true; true; true; true] /\
  map is_db_string_type ["INTEGER"; "DOUBLE"; "BOOLEAN"; "DATE"; "TIMESTAMP"]
    = [false; false; false; false; false].
Proof.
  split; vm_compute; reflexivity.
Qed.

Lemma strip_prefix_sound (p : string) :
  forall s r, Str.strip_prefix p s = Some r -> s = (p ++ r)%string.
Proof.
  induction p as [|a p IH]; intros s r H; cbn [Str.strip_prefix] in H.
  - inversion H. reflexivity.
  - destruct s as [|b s]; [discriminate H|].
    destruct (Ascii.eqb a b) eqn:E; [|discriminate H].
    apply Ascii.eqb_eq in E. subst b. cbn [append]. f_equal. apply IH. exact H.
Qed.

Lemma strip_prefix_complete (p r : string) : Str.strip_prefix p (p ++ r) = Some r.
Proof.
  induction p as [|a p IH]; cbn [append Str.strip_prefix]; [reflexivity|].
  rewrite Ascii.eqb_refl. exact IH.
Qed.

(** [t in s] holds exactly when [s] splits around an occurrence of [t]. *)
Lemma contains_iff (t s : string) :
  Str.contains t s = true <-> exists before after, s = (before ++ t ++ after)%string.
Proof.
  split.
  - induction s as [|c s IH]; cbn [Str.contains]; intro H;
      apply orb_true_iff in H; destruct H as [H|H].
    + unfold Str.startswith in H.
      destruct (Str.strip_prefix t EmptyString) as [r|] eqn:E; [|discriminate H].
      apply strip_prefix_sound in E. exists EmptyString, r. exact E.
    + discriminate H.
    + unfold Str.startswith in H.
      destruct (Str.strip_prefix t (String c s)) as [r|] eqn:E; [|discriminate H].
      apply strip_prefix_sound in E. exists EmptyString, r. exact E.
    + destruct (IH H) as [before [after ->]]. exists (String c before), after.
      reflexivity.
  - intros [before [after ->]]. induction before as [|c before IH].
    + cbn [append]. destruct (t ++ after)%string eqn:E; cbn [Str.contains];
        unfold Str.startswith; rewrite <- E, strip_prefix_complete; reflexivity.
    + cbn [append Str.contains]. rewrite IH. apply orb_true_r.
Qed.

Lemma is_db_string_type_iff (declared : string) :
  is_db_string_type declared = true <-> text_based declared.
Proof.
  unfold is_db_string_type, text_based, mentions. cbn [existsb].
  rewrite !orb_true_iff, !contains_iff. intuition discriminate.
Qed.

Lemma upper_app (a b : string) :
  Str.upper (a ++ b) = (Str.upper a ++ Str.upper b)%string.
Proof.
  induction a as [|c a IH]; cbn [append Str.upper]; [reflexivity|].
  rewrite IH. reflexivity.
Qed.

Lemma before_char_split (sep : ascii) (s : string) :
  exists rest, s = (Str.before_char sep s ++ rest)%string.
Proof.
  induction s as [|c s [rest IH]]; cbn [Str.before_char].
  - exists EmptyString. reflexivity.
  - destruct (Ascii.eqb c sep).
    + exists (String c s). reflexivity.
    + exists rest. cbn [append]. f_equal. exact IH.
Qed.

(** The declared type begins with its base type, parameters or not. *)
Lemma upper_begins_with_base_type (declared : string) :
  exists rest, Str.upper declared = (base_type declared ++ rest)%string.
Proof.
  destruct (before_char_split "(" declared) as [rest H].
  exists (Str.upper rest). unfold base_type. rewrite <- upper_app, <- H. reflexivity.
Qed.

Lemma string_types_are_text_based (declared : string) :
  mem_str (base_type declared) string_types = true -> text_based declared.
Proof.
  intro H. apply mem_str_In in H.
  destruct (upper_begins_with_base_type declared) as [rest Hu].
  unfold text_based, mentions. rewrite Hu.
  destruct H as [H|[H|[H|[H|[]]]]]; rewrite <- H.
  - right. left. exists EmptyString, rest. reflexivity.
  - left. exists "VAR", rest. reflexivity.
  - left. exists EmptyString, rest. reflexivity.
  - right. right. exists EmptyString, rest. reflexivity.
Qed.

Lemma select_mask_labels {A : Type} (p : A -> bool) (vs : list A) :
  forall idx : list Z,
    select (map p vs) idx =
    map fst (filter (fun iv => p (snd iv)) (combine idx vs)).
Proof.
  induction vs as [|v vs IH]; intros [|i idx]; cbn [map combine filter snd];
    try reflexivity.
  - destruct (p v); reflexivity.
  - destruct (p v); cbn [select map fst]; rewrite IH; reflexivity.
Qed.

Lemma sampled_rows (s : Series) (p : cell -> bool) :
  (forall c, In c (s_values s) ->
             (is_null c || (is_object s && is_empty_str c))%bool = p c) ->
  select (null_or_empty_mask s) (s_index s) = labels_where p s.
Proof.
  intro H. unfold null_or_empty_mask, labels_where.
  rewrite select_mask_labels. f_equal. apply filter_ext_in.
  intros [i v] Hin. cbn [snd]. apply H. apply in_combine_r in Hin. exact Hin.
Qed.

Lemma count_where_zero (p : cell -> bool) (vs : list cell) :
  count_where p vs = 0%nat -> forall c, In c vs -> p c = false.
Proof.
  unfold count_where. intros H c Hc. destruct (p c) eqn:E; [|reflexivity].
  assert (Hin : In c (filter p vs)) by (apply filter_In; auto).
  destruct (filter p vs); [destruct Hin|discriminate H].
Qed.

End NotNullFacts.

(** C6, the claim as stated fails.  A table column of type ARRAY<STRING> is
    in no reading of the textual family, yet the check takes it for
    text-based, since its name mentions STRING: the empty string of the
    non-nullable column is not counted and no violation is reported. *)
Lemma empty_string_not_counted_outside_textual_family :
  in_textual_family (col_type tags_column) = false /\
  nullable tags_column = false /\
  count_where is_empty_str (s_values (column_at tags_df 0)) = 1%nat /\
  run_data_quality_checks tags_df [("tags", tags_column)] (Ok []) "tagged" = [].
Proof.
  repeat split; vm_compute; reflexivity.
Qed.

(** C6, amended.  For a non-nullable column the not-null check counts the
    missing entries and, exactly when the declared type is not text-based
    (its upper-cased name mentions none of CHAR, TEXT, STRING), the empty
    strings as well.  A zero total gives no violation; a positive total
    gives one [not_null_violation] of severity high carrying that total
    and at most five row indices, each the label of a row whose value is
    missing or an empty string.  When the empty strings were counted, or
    there are none, the indices are the first five labels of the counted
    rows in row order.  The string types TEXT, VARCHAR, CHAR and STRING,
    with or without parameters, are text-based; the other types of the
    compatibility table are not.  The values 1, null, 3, empty string, 5
    declared INTEGER give one violation with count 2. *)
Theorem not_null_check_counts_nulls_and_empty_strings :
  (forall name details s,
      nullable details = false ->
      strings_in_object_columns s ->
      let missing := count_where is_null (s_values s) in
      let empty := count_where is_empty_str (s_values s) in
      exists total,
        (text_based (col_type details) -> total = missing) /\
        (~ text_based (col_type details) -> total = (missing + empty)%nat) /\
        (total = 0%nat -> not_null_check name details s = []) /\
        ((0 < total)%nat ->
         exists idx msg,
           not_null_check name details s =
             [PDict [("column", PStr name);
                     ("check", PStr "not_null_violation");
                     ("count", PNat total);
                     ("affected_rows_sample_indices", int_list idx);
                     ("severity", PStr "high");
                     ("details", PStr msg)]] /\
           (List.length idx <= 5)%nat /\
           (forall i, In i idx -> In i (labels_where missing_or_empty s)) /\
           (~ text_based (col_type details) ->
            idx = firstn 5 (labels_where missing_or_empty s)) /\
           (empty = 0%nat -> idx = firstn 5 (labels_where is_null s)))) /\
  (forall declared,
      mem_str (base_type declared) string_types = true -> text_based declared) /\
  Forall (fun declared => ~ text_based declared) other_table_types /\
  run_data_quality_checks readings_df [("reading", reading_column)] (Ok []) "readings" =
    [PDict [("column", PStr "reading");
            ("check", PStr "not_null_violation");
            ("count", PInt 2);
            ("affected_rows_sample_indices", int_list [1; 3]);
            ("severity", PStr "high");
            ("details",
             PStr "Column is non-nullable but contains 2 nulls (or empty strings treated as nulls for non-string columns).")]].
Proof.
  split; [|split; [|split]].
  - intros name details s Hnn Hwf missing empty.
    pose proof (not_null_count_spec s (col_type details) Hwf) as Hc.
    pose proof (is_db_string_type_iff (col_type details)) as Htb.
    fold missing empty in Hc.
    assert (Hmask : select (null_or_empty_mask s) (s_index s)
                    = labels_where missing_or_empty s).
    { apply sampled_rows. intros c Hc'. unfold missing_or_empty.
      destruct (is_object s) eqn:O; [reflexivity|].
      rewrite (no_empty_strings_outside_object s Hwf O c Hc'). reflexivity. }
    exists (not_null_count s (col_type details)).
    split; [|split; [|split]].
    + intro T. apply Htb in T. rewrite T in Hc. exact Hc.
    + intro T. destruct (is_db_string_type (col_type details)) eqn:E;
        [exfalso; apply T; apply Htb; reflexivity|exact Hc].
    + intro Z. unfold not_null_check. rewrite Hnn, Z. reflexivity.
    + intro Hpos. unfold not_null_check. rewrite Hnn. cbn [negb].
      apply Nat.ltb_lt in Hpos. rewrite Hpos.
      eexists _, _. split; [reflexivity|]. rewrite Hmask.
      split; [apply firstn_le_length|].
      split; [intros i Hi; apply firstn_incl in Hi; exact Hi|].
      split; [reflexivity|].
      intro Hempty. f_equal. unfold labels_where. f_equal.
      apply filter_ext_in. intros [i v] Hin. cbn [snd]. unfold missing_or_empty.
      apply in_combine_r in Hin.
      rewrite (count_where_zero is_empty_str (s_values s) Hempty v Hin).
      apply orb_false_r.
  - exact string_types_are_text_based.
  - unfold other_table_types.
    repeat (constructor;
            [intro T; apply is_db_string_type_iff in T; vm_compute in T;
             discriminate T|]).
    constructor.
  - vm_compute. reflexivity.
Qed.

Lemma not_null_check_counts_nulls_and_empty_strings_witness :
  nullable reading_column = false /\
  strings_in_object_columns readings_series /\
  exists total,
    (text_based (col_type reading_column) ->
     total = count_where is_null (s_values readings_series)) /\
    (~ text_based (col_type reading_column) ->
     total = (count_where is_null (s_values readings_series) +
              count_where is_empty_str (s_values readings_series))%nat) /\
    (total = 0%nat -> not_null_check "reading" reading_column readings_series = []) /\
    ((0 < total)%nat ->
     exists idx msg,
       not_null_check "reading" reading_column readings_series =
         [PDict [("column", PStr "reading");
                 ("check", PStr "not_null_violation");
                 ("count", PNat total);
                 ("affected_rows_sample_indices", int_list idx);
                 ("severity", PStr "high");
                 ("details", PStr msg)]] /\
       (List.length idx <= 5)%nat /\
       (forall i, In i idx -> In i (labels_where missing_or_empty readings_series)) /\
       (~ text_based (col_type reading_column) ->
        idx = firstn 5 (labels_where missing_or_empty readings_series)) /\
       (count_where is_empty_str (s_values readings_series) = 0%nat ->
        idx = firstn 5 (labels_where is_null readings_series))).
Proof.
  assert (Hwf : strings_in_object_columns readings_series)
    by (intros c t _ _; reflexivity).
  split; [reflexivity|]. split; [exact Hwf|].
  apply (proj1 not_null_check_counts_nulls_and_empty_strings
           "reading" reading_column readings_series eq_refl Hwf).
Defined.

(** *** Primary-key check *)

Section PrimaryKeyFacts.

Lemma cell_eqb_refl (a : cell) : is_null a = false -> cell_eqb a a = true.
Proof.
  destruct a; cbn; intro H; try discriminate;
    try apply Qeq_bool_refl; apply String.eqb_refl.
Qed.

Lemma cell_eqb_comm (a b : cell) : cell_eqb a b = cell_eqb b a.
Proof.
  destruct a, b; cbn; try reflexivity;
    try apply Qeq_bool_comm; apply String.eqb_sym.
Qed.

Lemma select_map_filter {A : Type} (p : A -> bool) (l : list A) :
  select (map p l) l = filter p l.
Proof.
  assert (G : forall l0, select (map p l0) l0 = filter p l0).
  { induction l0 as [|x l0 IH]; cbn; [reflexivity|].
    destruct (p x); rewrite IH; reflexivity. }
  apply G.
Qed.

Lemma filter_filter_and {A : Type} (p q : A -> bool) (l : list A) :
  filter q (filter p l) = filter (fun x => (p x && q x)%bool) l.
Proof.
  induction l as [|x l IH]; cbn; [reflexivity|].
  destruct (p x); cbn; [destruct (q x)|]; rewrite IH; reflexivity.
Qed.

Lemma pk_keys_spec (s : Series) :
  strings_in_object_columns s -> pk_keys s = usable_keys (s_values s).
Proof.
  intro Hwf. unfold pk_keys, usable_keys, dropna.
  destruct (is_object s) eqn:E.
  - rewrite filter_filter_and. apply filter_ext. intro c.
    destruct (is_null c), (is_empty_str c); reflexivity.
  - apply filter_ext_in. intros c Hc.
    rewrite (no_empty_strings_outside_object s Hwf E c Hc).
    rewrite orb_false_r. reflexivity.
Qed.

Lemma pk_duplicates_spec (s : Series) :
  pk_duplicates s = filter (occurs_twice (pk_keys s)) (pk_keys s).
Proof.
  unfold pk_duplicates, duplicated_all, occurs_twice.
  apply (select_map_filter (fun k => Nat.leb 2 (count_eq k (pk_keys s)))).
Qed.

Lemma unique_acc_sound (vs seen : list cell) (d : cell) :
  In d (unique_acc seen vs) -> In d vs /\ existsb (cell_eqb d) seen = false.
Proof.
  revert seen. induction vs as [|v vs IH]; intros seen H; [contradiction|].
  cbn in H. destruct (existsb (cell_eqb v) seen) eqn:E.
  - apply IH in H. destruct H. split; [right|]; assumption.
  - destruct H as [->|H].
    + split; [left; reflexivity | exact E].
    + apply IH in H. destruct H as [Hin Hs]. cbn in Hs.
      apply orb_false_iff in Hs. destruct Hs. split; [right|]; assumption.
Qed.

Lemma unique_acc_complete (vs seen : list cell) (k : cell) :
  In k vs -> is_null k = false ->
  existsb (cell_eqb k) seen = true \/ existsb (cell_eqb k) (unique_acc seen vs) = true.
Proof.
  revert seen. induction vs as [|v vs IH]; intros seen Hin Hk; [contradiction|].
  cbn. destruct (existsb (cell_eqb v) seen) eqn:E.
  - destruct Hin as [->|Hin]; [left; exact E | apply IH; assumption].
  - cbn. destruct Hin as [->|Hin].
    + right. rewrite cell_eqb_refl by exact Hk. reflexivity.
    + destruct (IH (v :: seen) Hin Hk) as [H|H].
      * cbn in H. apply orb_true_iff in H. destruct H as [H|H].
        -- right. rewrite H. reflexivity.
        -- left. exact H.
      * right. rewrite H. apply orb_true_r.
Qed.

Lemma unique_acc_distinct (vs seen : list cell) :
  distinct_cells (unique_acc seen vs).
Proof.
  revert seen. induction vs as [|v vs IH]; intro seen; cbn.
  - constructor.
  - destruct (existsb (cell_eqb v) seen); [apply IH|].
    constructor; [|apply IH].
    apply Forall_forall. intros d Hd. apply unique_acc_sound in Hd.
    destruct Hd as [_ Hs]. cbn in Hs. apply orb_false_iff in Hs.
    destruct Hs as [Hs _]. rewrite cell_eqb_comm. exact Hs.
Qed.

Lemma unique_nonempty (vs : list cell) :
  vs <> [] -> (0 < List.length (unique vs))%nat.
Proof.
  destruct vs as [|v vs]; [congruence|]. intros _. cbn. lia.
Qed.

Lemma usable_keys_not_null (vs : list cell) (k : cell) :
  In k (usable_keys vs) -> is_null k = false.
Proof.
  unfold usable_keys. intro H. apply filter_In in H. destruct H as [_ H].
  apply negb_true_iff in H. apply orb_false_iff in H. tauto.
Qed.

End PrimaryKeyFacts.

(** C7. For a primary-key column the check looks at the keys that are
    neither null nor empty.  When no key occurs twice it emits nothing;
    when some key does it emits exactly one [primary_key_violation] of
    severity high, reporting the number of distinct duplicated key values,
    the number of records carrying a duplicated key, and at most five of
    the duplicated values.  The keys 1, 1, 2, 3, 3, 3 give 2 and 5. *)
Theorem primary_key_check_reports_duplicates :
  (forall name details s,
      primary_key details = true ->
      strings_in_object_columns s ->
      let keys := usable_keys (s_values s) in
      ((forall k, In k keys -> occurs_twice keys k = false) ->
       primary_key_check name details s = []) /\
      ((exists k, In k keys /\ occurs_twice keys k = true) ->
       exists distinct msg,
         primary_key_check name details s =
           [PDict [("column", PStr name);
                   ("check", PStr "primary_key_violation");
                   ("distinct_keys_duplicated", PNat (List.length distinct));
                   ("total_duplicate_records",
                    PNat (List.length (filter (occurs_twice keys) keys)));
                   ("sample_duplicate_values",
                    str_list (map py_str (firstn 5 distinct)));
                   ("severity", PStr "high");
                   ("details", PStr msg)]] /\
         distinct_cells distinct /\
         (forall d, In d distinct -> In d keys /\ occurs_twice keys d = true) /\
         (forall k, In k keys -> occurs_twice keys k = true ->
                    existsb (cell_eqb k) distinct = true) /\
         (List.length (firstn 5 distinct) <= 5)%nat)) /\
  run_data_quality_checks ids_df [("id", id_column)] (Ok []) "orders" =
    [PDict [("column", PStr "id");
            ("check", PStr "primary_key_violation");
            ("distinct_keys_duplicated", PInt 2);
            ("total_duplicate_records", PInt 5);
            ("sample_duplicate_values", str_list ["1"; "3"]);
            ("severity", PStr "high");
            ("details",
             PStr "Primary key column contains duplicates for 2 unique key(s), affecting 5 records total.")]].
Proof.
  split.
  - intros name details s Hpk Hwf keys.
    assert (Hdup : pk_duplicates s = filter (occurs_twice keys) keys).
    { rewrite pk_duplicates_spec, (pk_keys_spec s Hwf). reflexivity. }
    unfold primary_key_check. rewrite Hpk, Hdup. split.
    + intro Hnone. rewrite (filter_none _ _ Hnone). reflexivity.
    + intros [k [Hk Hocc]].
      assert (Hne : filter (occurs_twice keys) keys <> []).
      { intro E. assert (Hin : In k (filter (occurs_twice keys) keys))
          by (apply filter_In; auto).
        rewrite E in Hin. exact Hin. }
      pose proof (unique_nonempty _ Hne) as Hpos. apply Nat.ltb_lt in Hpos.
      rewrite Hpos.
      exists (unique (filter (occurs_twice keys) keys)). eexists.
      split; [reflexivity|]. split; [apply unique_acc_distinct|]. split; [|split].
      * intros d Hd. apply unique_acc_sound in Hd. destruct Hd as [Hd _].
        apply filter_In in Hd. exact Hd.
      * intros k' Hk' Hocc'.
        destruct (unique_acc_complete (filter (occurs_twice keys) keys) [] k')
          as [H|H].
        -- apply filter_In. auto.
        -- apply (usable_keys_not_null (s_values s)). exact Hk'.
        -- discriminate.
        -- exact H.
      * apply firstn_le_length.
  - vm_compute. reflexivity.
Qed.

Lemma primary_key_check_reports_duplicates_witness :
  primary_key id_column = true /\
  strings_in_object_columns ids_series /\
  (exists k, In k (usable_keys (s_values ids_series)) /\
             occurs_twice (usable_keys (s_values ids_series)) k = true) /\
  exists distinct msg,
    primary_key_check "id" id_column ids_series =
      [PDict [("column", PStr "id");
              ("check", PStr "primary_key_violation");
              ("distinct_keys_duplicated", PNat (List.length distinct));
              ("total_duplicate_records", PNat 5);
              ("sample_duplicate_values",
               str_list (map py_str (firstn 5 distinct)));
              ("severity", PStr "high");
              ("details", PStr msg)]] /\
    distinct_cells distinct /\
    (forall d, In d distinct ->
               In d (usable_keys (s_values ids_series)) /\
               occurs_twice (usable_keys (s_values ids_series)) d = true) /\
    (forall k, In k (usable_keys (s_values ids_series)) ->
               occurs_twice (usable_keys (s_values ids_series)) k = true ->
               existsb (cell_eqb k) distinct = true) /\
    (List.length (firstn 5 distinct) <= 5)%nat.
Proof.
  assert (Hwf : strings_in_object_columns ids_series).
  { intros c t Hc ->. cbn in Hc.
    repeat (destruct Hc as [Hc|Hc]; [discriminate|]). contradiction. }
  assert (Hex : exists k, In k (usable_keys (s_values ids_series)) /\
                          occurs_twice (usable_keys (s_values ids_series)) k = true).
  { exists (CInt 1). split; [left; reflexivity | reflexivity]. }
  split; [reflexivity|]. split; [exact Hwf|]. split; [exact Hex|].
  exact (proj2 (proj1 primary_key_check_reports_duplicates
                  "id" id_column ids_series eq_refl Hwf) Hex).
Defined.

(** C8. A column declared DATE, DATETIME or TIMESTAMP whose data was read
    as text is never flagged: no violation pairs a temporal declared type
    with the found type [object], and the check of such a column returns
    nothing.  Every violation carries at most five samples; for a column
    declared with an integer type and read as text, each sample is the text
    of a value of the column that fails the integer coercion.  The column
    declared INTEGER holding the texts 1, 2 and x is flagged, with x as its
    sample. *)
Theorem temporal_text_not_flagged_integer_text_flagged :
  (forall df db_schema v expected,
      In v (validate_data_types df db_schema) ->
      item "expected_db_type" v = Ok (PStr expected) ->
      In expected date_types ->
      item "found_file_type" v <> Ok (PStr "object")) /\
  (forall df name details s,
      getitem df name = SelSeries s ->
      s_dtype s = "object" ->
      In (base_type (col_type details)) date_types ->
      type_check_column df name details = ([], [])) /\
  (forall df db_schema v,
      In v (validate_data_types df db_schema) ->
      exists samples,
        item "sample_invalid_values" v = Ok (str_list samples) /\
        (List.length samples <= 5)%nat) /\
  (forall df name details s,
      getitem df name = SelSeries s ->
      s_dtype s = "object" ->
      smap_get (base_type (col_type details)) sql_to_pandas_map = Some "int64" ->
      exists samples,
        fst (type_check_column df name details) =
          [PDict [("column", PStr name);
                  ("expected_db_type", PStr (base_type (col_type details)));
                  ("found_file_type", PStr "object");
                  ("sample_invalid_values", str_list samples)]] /\
        (List.length samples <= 5)%nat /\
        (forall x, In x samples ->
                   exists v, In v (s_values s) /\ is_null v = false /\
                             fails_integer v = true /\ x = py_str v)) /\
  validate_data_types qty_text_df qty_integer_schema =
    [PDict [("column", PStr "qty");
            ("expected_db_type", PStr "INTEGER");
            ("found_file_type", PStr "object");
            ("sample_invalid_values", str_list ["x"])]].
Proof.
  split; [|split; [|split; [|split]]].
  - intros df db_schema v expected Hin Hexp Hdate Hfound.
    apply in_validate_data_types in Hin. destruct Hin as [name [details [_ Hv]]].
    apply type_check_column_inv in Hv.
    destruct Hv as [s [exp [samples [_ [_ [_ [Hexc [_ ->]]]]]]]].
    destruct (type_violation_fields name (base_type (col_type details)) (s_dtype s)
                (str_list samples)) as [_ [F1 [F2 _]]].
    pose proof (eq_trans (eq_sym F1) Hexp) as Hexp'.
    pose proof (eq_trans (eq_sym F2) Hfound) as Hfound'.
    apply Ok_PStr_inj in Hexp'. subst expected.
    apply Ok_PStr_inj in Hfound'. rename Hfound' into Hf.
    apply mem_str_In in Hdate. rewrite Hdate, Hf in Hexc. discriminate.
  - intros df name details s G Hobj Hdate.
    unfold type_check_column. rewrite G.
    apply mem_str_In in Hdate. rewrite Hdate, Hobj.
    destruct (has_column name df); [|reflexivity]. cbn [negb].
    destruct (smap_get (base_type (col_type details)) sql_to_pandas_map) as [exp|] eqn:M.
    + replace (String.eqb "object" "object") with true by reflexivity.
      cbn [andb negb]. rewrite andb_false_r. reflexivity.
    + exfalso. apply mem_str_In in Hdate. unfold date_types in Hdate.
      destruct Hdate as [H|[H|[H|[]]]]; rewrite <- H in M; vm_compute in M;
        discriminate.
  - intros df db_schema v Hin.
    apply in_validate_data_types in Hin. destruct Hin as [name [details [_ Hv]]].
    apply type_check_column_inv in Hv.
    destruct Hv as [s [exp [samples [_ [_ [_ [_ [Hlen ->]]]]]]]].
    exists samples. split; [|exact Hlen].
    apply type_violation_fields.
  - intros df name details s G Hobj Hint.
    unfold type_check_column. rewrite G, Hint, Hobj.
    rewrite (has_column_positions name df).
    2:{ unfold getitem in G. destruct (positions name df); [discriminate G|].
        cbn [List.length]. lia. }
    replace (mem_str (base_type (col_type details)) date_types) with false.
    2:{ symmetry. destruct (mem_str _ date_types) eqn:M; [|reflexivity].
        apply mem_str_In in M. unfold date_types in M.
        destruct M as [H|[H|[H|[]]]]; rewrite <- H in Hint; vm_compute in Hint;
          discriminate. }
    cbn [negb andb fst].
    replace (String.eqb "object" "int64") with false by reflexivity.
    replace (String.eqb "int64" "int64") with true by reflexivity.
    replace (String.eqb "object" "object") with true by reflexivity.
    cbn [negb andb fst].
    eexists. split; [reflexivity|]. split; [apply firstn_le_length|].
    intros x Hx. apply firstn_incl in Hx.
    apply collect_samples_sound in Hx. destruct Hx as [[]|[v [Hv [Hbad ->]]]].
    apply unique_acc_sound in Hv. destruct Hv as [Hv _].
    apply filter_In in Hv. destruct Hv as [Hv Hn].
    exists v. split; [exact Hv|]. split; [|split; [exact Hbad | reflexivity]].
    apply negb_true_iff in Hn. exact Hn.
  - vm_compute. reflexivity.
Qed.

Lemma temporal_text_not_flagged_integer_text_flagged_witness :
  getitem dates_df "shipped" = SelSeries shipped_series /\
  s_dtype shipped_series = "object" /\
  In (base_type (col_type shipped_column)) date_types /\
  type_check_column dates_df "shipped" shipped_column = ([], []).
Proof.
  assert (Hd : In (base_type (col_type shipped_column)) date_types)
    by (left; reflexivity).
  split; [reflexivity|]. split; [reflexivity|]. split; [exact Hd|].
  exact (proj1 (proj2 temporal_text_not_flagged_integer_text_flagged)
               dates_df "shipped" shipped_column shipped_series
               eq_refl eq_refl Hd).
Defined.

(** *** CHECK constraints *)

Section CheckConstraintFacts.

(** When the code evaluates a matched constraint: no value at all fails
    the numeric coercion, a missing entry included, or the column is
    entirely null. *)
Lemma constraint_evaluated_iff (s : Series) :
  non_numeric_present s = false <->
  (forall c, In c (s_values s) -> to_numeric c <> None) \/
  (forall c, In c (s_values s) -> c = Null).
Proof.
  unfold non_numeric_present. rewrite andb_false_iff, negb_false_iff. split.
  - intros [H|H].
    + left. intros c Hc E.
      assert (X : existsb is_nan (map to_numeric (s_values s)) = true).
      { apply existsb_exists. exists (to_numeric c). split.
        - apply in_map. exact Hc.
        - rewrite E. reflexivity. }
      congruence.
    + right. intros c Hc. rewrite forallb_forall in H. specialize (H c Hc).
      destruct c; try discriminate. reflexivity.
  - intros [H|H].
    + left. destruct (existsb is_nan (map to_numeric (s_values s))) eqn:E;
        [|reflexivity].
      apply existsb_exists in E. destruct E as [x [Hx Hn]].
      apply in_map_iff in Hx. destruct Hx as [c [<- Hc]].
      destruct (to_numeric c) eqn:T; [discriminate|].
      exfalso. exact (H c Hc T).
    + right. apply forallb_forall. intros c Hc. rewrite (H c Hc). reflexivity.
Qed.

(** The two examples of the specification: the text [abc] makes the
    constraint skip; without it two values violate [price > 0]. *)
Lemma price_constraint_examples :
  run_data_quality_checks_log prices_with_text_df [("price", price_column)]
                              (Ok [price_positive]) "prices" =
    ([], [(INFO, "Fetched 1 CHECK constraints for table 'prices'.");
          skip_note "price" "price > 0";
          (INFO, "Data quality checks complete. Found 0 violations.")]) /\
  run_data_quality_checks prices_df [("price", price_column)]
                          (Ok [price_positive]) "prices" =
    [PDict [("column", PStr "price");
            ("check", PStr "check_constraint_violation");
            ("constraint_name", PStr "price_positive");
            ("sqltext", PStr "price > 0");
            ("count", PInt 2);
            ("affected_rows_sample_indices", int_list [1; 2]);
            ("sample_violating_values", str_list ["-5"; "0"]);
            ("severity", PStr "medium");
            ("details", PStr "2 values violate CHECK constraint 'price > 0'.")]].
Proof.
  split; vm_compute; reflexivity.
Qed.

End CheckConstraintFacts.

(** C5, evaluated where the code departs from it.  In the price column
    10, null, -5 every value that is present is a number and one of them,
    -5, violates [price > 0]; the constraint is nevertheless skipped, with
    the log note, because the missing entry itself counts as a value that
    failed the numeric coercion. *)
Theorem check_constraint_skipped_when_a_value_is_missing :
  getitem prices_with_null_df "price" = SelSeries prices_with_null /\
  all_present_numeric (s_values prices_with_null) = true /\
  match_check_constraint "price" (Str.strip (cc_sqltext price_positive)) =
    Some (">", 0%Q) /\
  count_true (violated_rows ">" 0%Q (map to_numeric (s_values prices_with_null))) =
    1%nat /\
  non_numeric_present prices_with_null = true /\
  run_data_quality_checks_log prices_with_null_df [("price", price_column)]
                              (Ok [price_positive]) "prices" =
    ([], [(INFO, "Fetched 1 CHECK constraints for table 'prices'.");
          skip_note "price" "price > 0";
          (INFO, "Data quality checks complete. Found 0 violations.")]).
Proof.
  repeat split; vm_compute; reflexivity.
Qed.

(** *** Violation summary *)

Section SummaryFacts.

Lemma map_result_ok {A B : Type} (f : A -> result B) (l : list A) :
  (forall x, In x l -> exists y, f x = Ok y) ->
  exists ys, map_result f l = Ok ys.
Proof.
  induction l as [|a l IH]; intro H; cbn.
  - eexists. reflexivity.
  - destruct (H a (or_introl eq_refl)) as [y Hy]. rewrite Hy. cbn.
    destruct IH as [ys Hys]; [intros x Hx; apply H; right; exact Hx|].
    rewrite Hys. cbn. eexists. reflexivity.
Qed.

Lemma map_result_raise {A B : Type} (f : A -> result B) (l : list A) (e : exn) :
  (forall x, In x l -> (exists y, f x = Ok y) \/ f x = Raise e) ->
  (exists x, In x l /\ f x = Raise e) ->
  map_result f l = Raise e.
Proof.
  induction l as [|a l IH]; intros Hall [x [Hx Hr]]; [contradiction|].
  cbn. destruct (Hall a (or_introl eq_refl)) as [[y Hy]|Ha].
  - rewrite Hy. cbn. rewrite IH; [reflexivity| |].
    + intros z Hz. apply Hall. right. exact Hz.
    + destruct Hx as [->|Hx]; [congruence|]. exists x. auto.
  - rewrite Ha. reflexivity.
Qed.

Lemma summarize_type_violation_ok (df : DataFrame) (db_schema : TableSchema) (v : pyval) :
  In v (validate_data_types df db_schema) ->
  exists y, summarize_type_violation v = Ok y.
Proof.
  intro H. apply in_validate_data_types in H. destruct H as [name [details [_ H]]].
  apply type_check_column_inv in H.
  destruct H as [s [exp [samples [_ [_ [_ [_ [_ ->]]]]]]]].
  eexists. reflexivity.
Qed.

(** A primary-key violation carries no [count]; the other two kinds do. *)
Lemma summarize_dq_violation_cases (df : DataFrame) (db_schema : TableSchema)
    (fetched : result (list CheckConstraint)) (table : string) (v : pyval) :
  In v (run_data_quality_checks df db_schema fetched table) ->
  (item "check" v = Ok (PStr "primary_key_violation") /\
   summarize_dq_violation v = Raise (KeyError "count")) \/
  (item "check" v <> Ok (PStr "primary_key_violation") /\
   exists y, summarize_dq_violation v = Ok y).
Proof.
  intro H. apply in_run_data_quality_checks in H.
  destruct H as [name [details [_ H]]].
  apply quality_check_column_inv in H. destruct H as [s [_ [H|[H|H]]]].
  - apply not_null_check_inv in H.
    destruct H as [n [idx [msg [_ [_ [_ [_ ->]]]]]]].
    right. split; [|eexists; reflexivity].
    intro E. apply Ok_PStr_inj in E. discriminate.
  - apply primary_key_check_inv in H. destruct H as [msg [_ [_ ->]]].
    left. split; reflexivity.
  - apply in_check_constraints_check in H. destruct H as [c [_ [_ H]]].
    apply check_one_constraint_inv in H.
    destruct H as [op [val [idx [vals [msg [_ [_ H]]]]]]]. cbv zeta in H.
    destruct H as [_ [_ [_ ->]]].
    right. split; [|eexists; reflexivity].
    intro E. apply Ok_PStr_inj in E. discriminate.
Qed.

(** Without a primary-key violation the summary is built. *)
Lemma summary_built_without_primary_key_violation (df : DataFrame)
    (db_schema : TableSchema) (fetched : result (list CheckConstraint))
    (table : string) :
  (forall v, In v (run_data_quality_checks df db_schema fetched table) ->
             item "check" v <> Ok (PStr "primary_key_violation")) ->
  exists summary,
    _create_violation_summary (validate_data_types df db_schema)
      (run_data_quality_checks df db_schema fetched table) = Ok summary.
Proof.
  intro Hno. unfold _create_violation_summary.
  destruct (map_result_ok summarize_type_violation (validate_data_types df db_schema))
    as [ts Hts]; [intros v Hv; eapply summarize_type_violation_ok; exact Hv|].
  rewrite Hts. cbn [bind].
  destruct (map_result_ok summarize_dq_violation
              (run_data_quality_checks df db_schema fetched table)) as [ds Hds].
  { intros v Hv. destruct (summarize_dq_violation_cases _ _ _ _ _ Hv) as [[E _]|[_ H]].
    - exfalso. exact (Hno v Hv E).
    - exact H. }
  rewrite Hds. cbn [bind]. eexists. reflexivity.
Qed.

(** With one, it raises. *)
Lemma summary_fails_on_primary_key (df : DataFrame)
    (db_schema : TableSchema) (fetched : result (list CheckConstraint))
    (table : string) :
  (exists v, In v (run_data_quality_checks df db_schema fetched table) /\
             item "check" v = Ok (PStr "primary_key_violation")) ->
  _create_violation_summary (validate_data_types df db_schema)
    (run_data_quality_checks df db_schema fetched table) = Raise (KeyError "count").
Proof.
  intros [v [Hv Hc]]. unfold _create_violation_summary.
  destruct (map_result_ok summarize_type_violation (validate_data_types df db_schema))
    as [ts Hts]; [intros x Hx; eapply summarize_type_violation_ok; exact Hx|].
  rewrite Hts. cbn [bind].
  rewrite (map_result_raise summarize_dq_violation _ (KeyError "count")).
  - reflexivity.
  - intros x Hx. destruct (summarize_dq_violation_cases _ _ _ _ _ Hx) as [[_ E]|[_ H]];
      auto.
  - exists v. split; [exact Hv|].
    destruct (summarize_dq_violation_cases _ _ _ _ _ Hv) as [[_ E]|[N _]];
      [exact E | contradiction].
Qed.

End SummaryFacts.

(** C1, evaluated where the code departs from it.  Deep validation of the
    key column 1, 1, 2, 3, 3, 3 yields a [primary_key_violation]; it has no
    [count] entry, so building the summary raises [KeyError('count')], and
    the per-sheet pipeline ends in the error report although every
    collaborator answered. *)
Theorem violation_summary_raises_on_primary_key_violation :
  (exists v, In v (run_data_quality_checks ids_df id_schema (Ok []) "orders") /\
             item "check" v = Ok (PStr "primary_key_violation")) /\
  _create_violation_summary (validate_data_types ids_df id_schema)
    (run_data_quality_checks ids_df id_schema (Ok []) "orders")
  = Raise (KeyError "count") /\
  exists st,
    _run_validation_for_sheet_internal ids_world (LFrame ids_df) "orders.csv" None
                                       (Some "orders")
    = Ok (error_report ids_world "orders.csv" None (KeyError "count"),
          PDict [("naming_mismatches", PDict [])], st) /\
    snapshot st = None.
Proof.
  split; [|split].
  - eexists. split; [left; reflexivity | reflexivity].
  - vm_compute. reflexivity.
  - eexists. split; [vm_compute; reflexivity | reflexivity].
Qed.

(** *** The per-sheet pipeline *)

Section PipelineFacts.

Lemma update_pair_mem (k : string) (l : list pyval) :
  forall (acc : result dict) (d' : dict),
    fold_left update_pair l acc = Ok d' ->
    exists d, acc = Ok d /\ (dict_mem k d = true -> dict_mem k d' = true).
Proof.
  induction l as [|p l IH]; intros acc d' H; cbn in H.
  - exists d'. auto.
  - apply IH in H. destruct H as [d1 [H1 Hm]].
    destruct acc as [d|e]; [|discriminate].
    exists d. split; [reflexivity|]. intro Hk. apply Hm.
    unfold update_pair, bind in H1.
    repeat match type of H1 with
           | context [match ?x with _ => _ end] => destruct x; try discriminate
           end;
      inversion H1; subst; rewrite dict_mem_set, Hk; apply orb_true_r.
Qed.

Lemma py_update_mem (k : string) (d d' : dict) (other : pyval) :
  py_update d other = Ok d' -> dict_mem k d = true -> dict_mem k d' = true.
Proof.
  unfold py_update. destruct other as [c|l|o].
  - destruct c; try discriminate. destruct s; [|discriminate].
    intro H. inversion H; subst. auto.
  - intros H Hk. apply (update_pair_mem k) in H. destruct H as [d0 [E Hm]].
    inversion E; subst. auto.
  - intros H Hk. inversion H; subst. rewrite dict_mem_update, Hk. reflexivity.
Qed.

Lemma base_report_fields (w : World) (file_path : string) (sheet_name : option string)
    (file_schema : dict) (tv dv : list pyval) (dyn : pyval) :
  let r := base_report w file_path sheet_name file_schema tv dv dyn in
  has_report_fields r = true /\
  dict_mem "validation_summary" r = true /\
  dict_mem "schema_mismatch" r = false /\
  dict_get "data_type_mismatch" r = Some (PList tv) /\
  dict_get "data_quality_issues" r = Some (PList dv).
Proof.
  cbv zeta. repeat split; reflexivity.
Qed.

Lemma error_report_fields (w : World) (file_path : string) (sheet_name : option string)
    (e : exn) :
  let r := error_report w file_path sheet_name e in
  has_report_fields r = true /\
  dict_get "validation_summary" r =
    Some (PDict [("status", PStr "Error"); ("details", PStr (str_exn e))]) /\
  dict_mem "schema_mismatch" r = false /\
  dict_mem "data_type_mismatch" r = false /\
  dict_mem "data_quality_issues" r = false.
Proof.
  cbv zeta. repeat split; reflexivity.
Qed.

(** What the deterministic steps leave behind when they succeed. *)
Lemma deterministic_steps_ok (w : World) (file_path : string)
    (sheet_name : option string) (table : string) (st st' : PState) (c : Computed) :
  deterministic_steps w file_path sheet_name table st = (Ok c, st') ->
  schema_analysis_json st' = c_analysis c /\
  snapshot st' = snapshot st /\
  exists dyn,
    c_report c = base_report w file_path sheet_name (c_file_schema c)
                             (c_type_violations c) (c_dq_violations c) dyn.
Proof.
  unfold deterministic_steps, mbind, get_state, set_frame, set_schema_analysis,
    lift, raise, ret.
  destruct (extract_schema_loaded (frame st) file_path sheet_name) as [fs df].
  destruct (dict_mem "error" (as_dict fs) ||
            negb (truthy (dict_get_default "columns" PNone (as_dict fs))))%bool;
    [discriminate|].
  destruct (get_db_schema w table) as [[db_schema|]|e]; try discriminate.
  destruct (get_llm_streaming_response w _) as [resp|]; [|discriminate].
  destruct (json_loads w resp) as [analysis|]; [|discriminate].
  destruct (get_or "naming_mismatches" (PDict []) analysis) as [nm|e];
    [|discriminate].
  destruct (rename_loaded nm df) as [mapped|e]; [|discriminate].
  destruct (_create_violation_summary _ _) as [summary|e]; [|discriminate].
  intro H. inversion H; subst; clear H. cbn.
  split; [reflexivity|]. split; [reflexivity|]. eexists. reflexivity.
Qed.

(** The frame that deep validation renames is the caller's frame as the
    extractor left it, whatever happens afterwards. *)
Lemma deterministic_steps_frame (w : World) (file_path : string)
    (sheet_name : option string) (table : string) (st st' : PState)
    (r : result Computed) :
  deterministic_steps w file_path sheet_name table st = (r, st') ->
  frame st' = snd (extract_schema_loaded (frame st) file_path sheet_name).
Proof.
  unfold deterministic_steps, mbind, get_state, set_frame, set_schema_analysis,
    lift, raise, ret.
  destruct (extract_schema_loaded (frame st) file_path sheet_name) as [fs df].
  destruct (dict_mem "error" (as_dict fs) ||
            negb (truthy (dict_get_default "columns" PNone (as_dict fs))))%bool;
    [intro H; inversion H; reflexivity|].
  destruct (get_db_schema w table) as [[db_schema|]|e];
    try (intro H; inversion H; reflexivity).
  destruct (get_llm_streaming_response w _) as [resp|];
    [|intro H; inversion H; reflexivity].
  destruct (json_loads w resp) as [analysis|]; [|intro H; inversion H; reflexivity].
  destruct (get_or "naming_mismatches" (PDict []) analysis) as [nm|e];
    [|intro H; inversion H; reflexivity].
  destruct (rename_loaded nm df) as [mapped|e]; [|intro H; inversion H; reflexivity].
  destruct (_create_violation_summary _ _) as [summary|e];
    intro H; inversion H; reflexivity.
Qed.

Lemma validation_body_fields (w : World) (file_path : string)
    (sheet_name : option string) (table : string) (st st' : PState) (r : dict) :
  validation_body w file_path sheet_name table st = (Ok r, st') ->
  has_report_fields r = true /\ dict_mem "validation_summary" r = true.
Proof.
  unfold validation_body, mbind.
  destruct (deterministic_steps w file_path sheet_name table st) as [[c|e] st1] eqn:D;
    [|discriminate].
  apply deterministic_steps_ok in D. destruct D as [_ [_ [dyn Hrep]]].
  destruct (base_report_fields w file_path sheet_name (c_file_schema c)
              (c_type_violations c) (c_dq_violations c) dyn) as [Hf [Hv _]].
  rewrite <- Hrep in Hf, Hv.
  unfold narrative_step, mbind, lift, ret, raise, set_snapshot.
  destruct (get_llm_streaming_response w _) as [raw|]; [|discriminate].
  assert (G : forall r0, (py_update (c_report c) r0 = Ok r \/
                          r = dict_set "validation_summary" parse_failure_summary
                                       (c_report c) /\ r0 = PNone) ->
              has_report_fields r = true /\ dict_mem "validation_summary" r = true).
  { intros r0 [Hu|[-> _]].
    - unfold has_report_fields in *.
      apply andb_true_iff in Hf. destruct Hf as [Hf Hf3].
      apply andb_true_iff in Hf. destruct Hf as [Hf1 Hf2].
      rewrite (py_update_mem _ _ _ _ Hu Hf1), (py_update_mem _ _ _ _ Hu Hf2),
        (py_update_mem _ _ _ _ Hu Hf3), (py_update_mem _ _ _ _ Hu Hv). auto.
    - unfold has_report_fields in *. rewrite !dict_mem_set.
      apply andb_true_iff in Hf. destruct Hf as [Hf Hf3].
      apply andb_true_iff in Hf. destruct Hf as [Hf1 Hf2].
      rewrite Hf1, Hf2, Hf3. split; reflexivity. }
  destruct (json_loads w raw) as [j|].
  - destruct (py_update (c_report c) j) as [r1|e] eqn:U; [|discriminate].
    destruct (truthy (PStr table)); intro H; inversion H; subst;
      apply (G j); left; exact U.
  - destruct (truthy (PStr table)); intro H; inversion H; subst;
      apply (G PNone); right; split; reflexivity.
Qed.

Lemma internal_returns_report (w : World) (df : loaded) (file_path : string)
    (sheet_name : option string) (table : string) :
  exists report analysis st,
    _run_validation_for_sheet_internal w df file_path sheet_name (Some table)
      = Ok (report, analysis, st) /\
    has_report_fields report = true /\
    dict_mem "validation_summary" report = true.
Proof.
  unfold _run_validation_for_sheet_internal.
  destruct (validation_body w file_path sheet_name table (initial_state df))
    as [[r|e] st] eqn:B.
  - exists r, (schema_analysis_json st), st. split; [reflexivity|].
    eapply validation_body_fields. exact B.
  - exists (error_report w file_path sheet_name e), (schema_analysis_json st), st.
    split; [reflexivity|]. split; reflexivity.
Qed.

Lemma dict_mem_get (k : string) (d : dict) :
  dict_mem k d = true -> exists v, dict_get k d = Some v.
Proof.
  unfold dict_mem. destruct (dict_get k d) as [v|]; [eauto | discriminate].
Qed.

Lemma assemble_final_report_fields (report : dict) (analysis : pyval) :
  has_report_fields report = true ->
  has_report_fields (assemble_final_report report analysis) = true /\
  dict_mem "schema_mismatch" (assemble_final_report report analysis) = true.
Proof.
  unfold has_report_fields. intro H.
  apply andb_true_iff in H. destruct H as [H H3].
  apply andb_true_iff in H. destruct H as [H1 H2].
  unfold assemble_final_report.
  destruct (dict_mem_get _ _ H1) as [v1 E1]. rewrite E1.
  assert (H2' : dict_mem "sheet_name" (dict_remove "file_name" report) = true)
    by (rewrite dict_mem_remove_other; [exact H2 | reflexivity]).
  destruct (dict_mem_get _ _ H2') as [v2 E2]. rewrite E2.
  rewrite !dict_mem_update, !dict_mem_set.
  rewrite (dict_mem_remove_other "validated_at" "sheet_name") by reflexivity.
  rewrite (dict_mem_remove_other "validated_at" "file_name") by reflexivity.
  rewrite H3. unfold dict_mem at 1 3 5 7. cbn. rewrite ?orb_true_r.
  split; reflexivity.
Qed.

End PipelineFacts.

(** C2, as stated, fails: for a file that is neither CSV nor Excel, and
    when no database engine can be created, the caller receives an object
    holding an [error] message only, without [file_name], [sheet_name] and
    [validated_at]. *)
Lemma error_object_lacks_report_fields :
  run_validation_for_single_sheet ids_world "orders.txt" "Sheet1" (Some "orders") =
    Ok [("error",
         PStr "A critical error occurred: Unsupported file type: orders.txt. Only .csv, .xls, and .xlsx are supported.")] /\
  has_report_fields
    [("error",
      PStr "A critical error occurred: Unsupported file type: orders.txt. Only .csv, .xls, and .xlsx are supported.")]
    = false /\
  run_validation_for_single_sheet offline_world "orders.csv" "csv_data" (Some "orders") =
    Ok [("error", PStr "Failed to create Databricks engine. Check .env credentials.")] /\
  has_report_fields
    [("error", PStr "Failed to create Databricks engine. Check .env credentials.")]
    = false.
Proof.
  repeat split; vm_compute; reflexivity.
Qed.

(** C2, amended.  The per-sheet pipeline, given a table name, always
    returns a report that carries [file_name], [sheet_name],
    [validated_at] and [validation_summary].  The entry point never
    raises: it returns such a report, extended with [schema_mismatch],
    exactly when the engine was created, the sheet was read and a table
    name was given, and otherwise an object holding an [error] message
    only. *)
Theorem pipeline_returns_report_or_error_object :
  (forall w df file_path sheet_name table,
      exists report analysis st,
        _run_validation_for_sheet_internal w df file_path sheet_name (Some table)
          = Ok (report, analysis, st) /\
        has_report_fields report = true /\
        dict_mem "validation_summary" report = true) /\
  (forall w file_path sheet_name table_name,
      exists r,
        run_validation_for_single_sheet w file_path sheet_name table_name = Ok r /\
        has_report_fields r =
          (get_databricks_engine w &&
           is_ok (read_sheet w file_path (read_name sheet_name)) &&
           is_some table_name)%bool /\
        (has_report_fields r = true -> dict_mem "schema_mismatch" r = true) /\
        (has_report_fields r = false -> exists msg, r = [("error", PStr msg)])).
Proof.
  split.
  - intros. apply internal_returns_report.
  - intros w file_path sheet_name table_name.
    unfold run_validation_for_single_sheet. fold (read_name sheet_name).
    destruct (get_databricks_engine w); cbn [negb andb].
    2:{ eexists. split; [reflexivity|]. split; [reflexivity|].
        split; [discriminate|]. intros _. eexists. reflexivity. }
    destruct (read_sheet w file_path (read_name sheet_name)) as [x|e];
      cbn [bind is_ok andb].
    2:{ eexists. split; [reflexivity|]. split; [reflexivity|].
        split; [discriminate|]. intros _. eexists. reflexivity. }
    destruct table_name as [table|]; cbn [is_some].
    2:{ eexists. split; [reflexivity|]. split; [reflexivity|].
        split; [discriminate|]. intros _. eexists. reflexivity. }
    destruct (internal_returns_report w x file_path (read_name sheet_name) table)
      as [report [analysis [st [E [Hf _]]]]].
    rewrite E. cbn [bind].
    destruct (assemble_final_report_fields report analysis Hf) as [Hf' Hs].
    eexists. split; [reflexivity|]. split; [exact Hf'|].
    split; [intros _; exact Hs|]. rewrite Hf'. discriminate.
Qed.

Lemma pipeline_returns_report_or_error_object_witness :
  exists r,
    run_validation_for_single_sheet (orders_world (Some "final-analysis"))
                                    "orders.csv" "csv_data" (Some "orders") = Ok r /\
    has_report_fields r = true /\
    dict_mem "schema_mismatch" r = true.
Proof.
  destruct (proj2 pipeline_returns_report_or_error_object
              (orders_world (Some "final-analysis")) "orders.csv" "csv_data"
              (Some "orders")) as [r [E [Hf [Hs _]]]].
  exists r. split; [exact E|].
  assert (Ht : has_report_fields r = true) by (rewrite Hf; reflexivity).
  split; [exact Ht | exact (Hs Ht)].
Defined.

(** C4, as stated, fails for a transport failure: the deterministic steps
    found a type violation, the narrative service gave no response, and
    the report that comes back has neither [data_type_mismatch] nor
    [data_quality_issues]. *)
Lemma transport_failure_drops_sections :
  deterministic_steps (orders_world None) "orders.csv" None "orders"
                      (initial_state (LFrame orders_df))
    = (Ok orders_computed, orders_state) /\
  c_type_violations orders_computed = [orders_type_violation] /\
  get_llm_streaming_response (orders_world None)
    (get_analysis_prompt (orders_world None) (c_analysis orders_computed)
       (c_violations_summary orders_computed)
       (load_historical_schemas (orders_world None) "orders")) = None /\
  exists r,
    run_validation_for_single_sheet (orders_world None) "orders.csv" "csv_data"
                                    (Some "orders") = Ok r /\
    dict_get "validation_summary" r =
      Some (PDict [("status", PStr "Error");
                   ("details", PStr "Failed to get final analysis from LLM.")]) /\
    dict_mem "data_type_mismatch" r = false /\
    dict_mem "data_quality_issues" r = false.
Proof.
  split; [vm_compute; reflexivity|]. split; [reflexivity|].
  split; [reflexivity|].
  eexists. split; [vm_compute; reflexivity|]. repeat split; reflexivity.
Qed.

(** C4, amended.  Once the deterministic steps have succeeded:
    - when the narrative service answers with text that cannot be parsed,
      the report keeps every section computed so far and its
      [validation_summary] becomes the parsing-failure entry, whose status
      is Error; the final report also carries the reconciliation output;
    - when the narrative service gives no response, the report is the error
      variant: status Error, the identifying fields and the message, plus
      the reconciliation output in the final report; the type and quality
      sections are not part of it. *)
Theorem narrative_failure_reports
    (w : World) (df : loaded) (file_path : string) (sheet_name : option string)
    (table : string) (c : Computed) (st : PState) :
  deterministic_steps w file_path sheet_name table (initial_state df) = (Ok c, st) ->
  let prompt :=
    get_analysis_prompt w (c_analysis c) (c_violations_summary c)
                        (load_historical_schemas w table) in
  (forall raw,
      get_llm_streaming_response w prompt = Some raw ->
      json_loads w raw = None ->
      exists report st',
        _run_validation_for_sheet_internal w df file_path sheet_name (Some table)
          = Ok (report, c_analysis c, st') /\
        dict_get "validation_summary" report = Some parse_failure_summary /\
        item "status" parse_failure_summary = Ok (PStr "Error") /\
        dict_get "data_type_mismatch" report = Some (PList (c_type_violations c)) /\
        dict_get "data_quality_issues" report = Some (PList (c_dq_violations c)) /\
        let final := assemble_final_report report (c_analysis c) in
        dict_get "schema_mismatch" final = Some (c_analysis c) /\
        dict_get "validation_summary" final = Some parse_failure_summary /\
        dict_get "data_type_mismatch" final = Some (PList (c_type_violations c)) /\
        dict_get "data_quality_issues" final = Some (PList (c_dq_violations c))) /\
  (get_llm_streaming_response w prompt = None ->
   let report := error_report w file_path sheet_name transport_failure in
   _run_validation_for_sheet_internal w df file_path sheet_name (Some table)
     = Ok (report, c_analysis c, st) /\
   dict_get "validation_summary" report =
     Some (PDict [("status", PStr "Error");
                  ("details", PStr "Failed to get final analysis from LLM.")]) /\
   map fst report =
     ["file_name"; "sheet_name"; "validated_at"; "validation_summary"; "error"] /\
   dict_get "schema_mismatch" (assemble_final_report report (c_analysis c))
     = Some (c_analysis c)).
Proof.
  intros D prompt.
  pose proof (deterministic_steps_ok _ _ _ _ _ _ _ D) as [Han [_ [dyn Hrep]]].
  split.
  - intros raw Hllm Hparse.
    unfold _run_validation_for_sheet_internal, validation_body, mbind.
    rewrite D. unfold narrative_step, mbind, ret, set_snapshot.
    fold prompt. rewrite Hllm, Hparse.
    assert (G : forall st' : PState,
               schema_analysis_json st' = c_analysis c ->
               exists report st'',
                 Ok (dict_set "validation_summary" parse_failure_summary (c_report c),
                     schema_analysis_json st', st')
                 = Ok (report, c_analysis c, st'') /\
                 dict_get "validation_summary" report = Some parse_failure_summary /\
                 item "status" parse_failure_summary = Ok (PStr "Error") /\
                 dict_get "data_type_mismatch" report
                   = Some (PList (c_type_violations c)) /\
                 dict_get "data_quality_issues" report
                   = Some (PList (c_dq_violations c)) /\
                 let final := assemble_final_report report (c_analysis c) in
                 dict_get "schema_mismatch" final = Some (c_analysis c) /\
                 dict_get "validation_summary" final = Some parse_failure_summary /\
                 dict_get "data_type_mismatch" final
                   = Some (PList (c_type_violations c)) /\
                 dict_get "data_quality_issues" final
                   = Some (PList (c_dq_violations c))).
    { intros st' E. rewrite E. rewrite Hrep.
      eexists _, st'. split; [reflexivity|]. repeat split; reflexivity. }
    destruct (truthy (PStr table)); apply G; cbn; exact Han.
  - intros Hllm report.
    unfold _run_validation_for_sheet_internal, validation_body, mbind.
    rewrite D. unfold narrative_step, raise. fold prompt. rewrite Hllm.
    rewrite Han. repeat split; reflexivity.
Qed.

Lemma narrative_failure_reports_witness :
  deterministic_steps (orders_world (Some "garbled")) "orders.csv" None "orders"
                      (initial_state (LFrame orders_df))
    = (Ok orders_computed, orders_state) /\
  exists report st',
    _run_validation_for_sheet_internal (orders_world (Some "garbled"))
        (LFrame orders_df) "orders.csv" None (Some "orders")
      = Ok (report, c_analysis orders_computed, st') /\
    dict_get "validation_summary" report = Some parse_failure_summary /\
    item "status" parse_failure_summary = Ok (PStr "Error") /\
    dict_get "data_type_mismatch" report = Some (PList [orders_type_violation]) /\
    dict_get "data_quality_issues" report = Some (PList []) /\
    let final := assemble_final_report report (c_analysis orders_computed) in
    dict_get "schema_mismatch" final = Some (c_analysis orders_computed) /\
    dict_get "validation_summary" final = Some parse_failure_summary /\
    dict_get "data_type_mismatch" final = Some (PList [orders_type_violation]) /\
    dict_get "data_quality_issues" final = Some (PList []).
Proof.
  assert (D : deterministic_steps (orders_world (Some "garbled")) "orders.csv" None
                "orders" (initial_state (LFrame orders_df))
              = (Ok orders_computed, orders_state))
    by (vm_compute; reflexivity).
  split; [exact D|].
  exact (proj1 (narrative_failure_reports (orders_world (Some "garbled"))
                  (LFrame orders_df) "orders.csv" None "orders"
                  orders_computed orders_state D)
               "garbled" eq_refl eq_refl).
Defined.

(** *** The service call with retries *)

Section LlmFacts.

Variable client : nat -> Llm.api_outcome.

(** The loop stops at the first request that is not rate limited, or when
    the rounds are used up. *)
Lemma retry_loop_spec (remaining : nat) :
  forall attempt s0,
  exists k, (k <= remaining)%nat /\
    (forall j, (j < k)%nat -> client (attempt + j)%nat = Llm.RateLimited) /\
    Llm.slept (Llm.retry_loop client remaining attempt s0) = (s0 + 60 * k)%nat /\
    ((k = remaining /\
      Llm.response (Llm.retry_loop client remaining attempt s0) = None /\
      Llm.requests (Llm.retry_loop client remaining attempt s0) = (attempt + k)%nat) \/
     ((k < remaining)%nat /\
      Llm.requests (Llm.retry_loop client remaining attempt s0) = S (attempt + k) /\
      ((exists chunks, client (attempt + k)%nat = Llm.Streamed chunks /\
          Llm.response (Llm.retry_loop client remaining attempt s0)
            = Some (Llm.read_stream chunks)) \/
       (exists e, client (attempt + k)%nat = Llm.Failed e /\
          Llm.response (Llm.retry_loop client remaining attempt s0) = None)))).
Proof.
  induction remaining as [|r IH]; intros attempt s0.
  - exists 0%nat. cbn [Llm.retry_loop Llm.slept Llm.requests Llm.response].
    split; [lia|]. split; [intros j Hj; lia|]. split; [lia|].
    left. split; [reflexivity|]. split; [reflexivity|]. lia.
  - cbn [Llm.retry_loop]. destruct (client attempt) as [chunks| |e] eqn:E.
    + exists 0%nat. replace (attempt + 0)%nat with attempt by lia.
      cbn [Llm.slept Llm.requests Llm.response].
      split; [lia|]. split; [intros j Hj; lia|]. split; [lia|].
      right. split; [lia|]. split; [reflexivity|]. left. exists chunks. auto.
    + destruct (IH (S attempt) (s0 + 60)%nat) as [k [Hk [Hrl [Hs Hcase]]]].
      exists (S k). split; [lia|]. split.
      * intros [|j] Hj; [rewrite Nat.add_0_r; exact E|].
        replace (attempt + S j)%nat with (S attempt + j)%nat by lia.
        apply Hrl. lia.
      * split; [rewrite Hs; lia|].
        replace (attempt + S k)%nat with (S attempt + k)%nat by lia.
        destruct Hcase as [[-> [Hr Hq]]|[Hlt [Hq Hr]]].
        -- left. auto.
        -- right. split; [lia|]. auto.
    + exists 0%nat. replace (attempt + 0)%nat with attempt by lia.
      cbn [Llm.slept Llm.requests Llm.response].
      split; [lia|]. split; [intros j Hj; lia|]. split; [lia|].
      right. split; [lia|]. split; [reflexivity|]. right. exists e. auto.
Qed.

Lemma rate_limited_run (a k : nat) :
  (forall j, (j < k)%nat -> client (a + j)%nat = Llm.RateLimited) ->
  List.length (filter Terms.is_rate_limited (map client (seq a k))) = k.
Proof.
  revert a. induction k as [|k IH]; intros a H; [reflexivity|].
  cbn [seq map filter]. pose proof (H 0%nat ltac:(lia)) as H0.
  rewrite Nat.add_0_r in H0. rewrite H0. cbn. f_equal. apply IH.
  intros j Hj. replace (S a + j)%nat with (a + S j)%nat by lia. apply H. lia.
Qed.

Lemma rate_limited_among_S (n : nat) :
  Terms.rate_limited_among client (S n) =
  (Terms.rate_limited_among client n +
   if Terms.is_rate_limited (client n) then 1 else 0)%nat.
Proof.
  unfold Terms.rate_limited_among.
  rewrite seq_S, map_app, filter_app, length_app. cbn.
  destruct (Terms.is_rate_limited (client n)); reflexivity.
Qed.

(** X1. The call returns a text exactly when, within [max_retries]
    requests, the first request that is not rate limited streams to its
    end; the text is then the concatenation of the chunks read. *)
Theorem llm_response_iff_first_settled_request_streams
    (max_retries : nat) (text : string) :
  Llm.response (Llm.get_llm_streaming_response client max_retries) = Some text <->
  exists k chunks,
    (k < max_retries)%nat /\
    (forall j, (j < k)%nat -> client j = Llm.RateLimited) /\
    client k = Llm.Streamed chunks /\
    text = Llm.read_stream chunks.
Proof.
  unfold Llm.get_llm_streaming_response.
  destruct (retry_loop_spec max_retries 0 0) as [k [Hk [Hrl [_ Hcase]]]].
  cbn [Nat.add] in Hrl, Hcase.
  split.
  - intro H. destruct Hcase as [[_ [Hr _]]|[Hlt [_ [[chunks [Hc Hr]]|[e [_ Hr]]]]]];
      rewrite Hr in H; try discriminate H.
    inversion H; subst. exists k, chunks. auto.
  - intros [k' [chunks' [Hlt' [Hrl' [Hc' ->]]]]].
    assert (k = k') as ->.
    { destruct (Nat.lt_trichotomy k k') as [L|[L|L]]; [|exact L|].
      - pose proof (Hrl' k L) as R.
        destruct Hcase as [[-> _]|[_ [_ [[c [Hc _]]|[e [Hc _]]]]]];
          [lia|rewrite R in Hc; discriminate Hc|rewrite R in Hc; discriminate Hc].
      - pose proof (Hrl k' L) as R. rewrite R in Hc'. discriminate Hc'. }
    destruct Hcase as [[-> _]|[_ [_ [[c [Hc Hr]]|[e [Hc _]]]]]].
    + lia.
    + rewrite Hc in Hc'. inversion Hc'; subst. exact Hr.
    + rewrite Hc in Hc'. discriminate Hc'.
Qed.

(** X2. A call makes at most [max_retries] requests and sleeps sixty
    seconds for each rate-limited one among them, whatever the outcome. *)
Theorem llm_requests_bounded_and_sleep_counted (max_retries : nat) :
  let call := Llm.get_llm_streaming_response client max_retries in
  (Llm.requests call <= max_retries)%nat /\
  Llm.slept call = (60 * Terms.rate_limited_among client (Llm.requests call))%nat.
Proof.
  cbv zeta. unfold Llm.get_llm_streaming_response.
  destruct (retry_loop_spec max_retries 0 0) as [k [Hk [Hrl [Hs Hcase]]]].
  cbn [Nat.add] in Hrl, Hs, Hcase.
  assert (Hrun : Terms.rate_limited_among client k = k)
    by (apply (rate_limited_run 0 k); exact Hrl).
  destruct Hcase as [[-> [_ Hq]]|[Hlt [Hq Hsettled]]]; rewrite Hq, Hs.
  - split; [lia|]. rewrite Hrun. reflexivity.
  - split; [lia|]. rewrite rate_limited_among_S, Hrun.
    destruct Hsettled as [[c [Hc _]]|[e [Hc _]]]; rewrite Hc; cbn; lia.
Qed.

(** X3. When every one of the [max_retries] requests is rate limited the
    call gives up with no text, having slept a full minute after each
    request, the last one included. *)
Theorem llm_gives_up_after_sleeping_every_round (max_retries : nat) :
  (forall j, (j < max_retries)%nat -> client j = Llm.RateLimited) ->
  Llm.get_llm_streaming_response client max_retries =
  Llm.mkCall None max_retries (60 * max_retries).
Proof.
  intro H. unfold Llm.get_llm_streaming_response.
  assert (G : forall remaining attempt s0,
             (forall j, (j < remaining)%nat ->
                        client (attempt + j)%nat = Llm.RateLimited) ->
             Llm.retry_loop client remaining attempt s0 =
             Llm.mkCall None (attempt + remaining) (s0 + 60 * remaining)).
  { induction remaining as [|r IH]; intros attempt s0 Hall; cbn [Llm.retry_loop].
    - f_equal; lia.
    - pose proof (Hall 0%nat ltac:(lia)) as H0. rewrite Nat.add_0_r in H0.
      rewrite H0, IH.
      + f_equal; lia.
      + intros j Hj. replace (S attempt + j)%nat with (attempt + S j)%nat by lia.
        apply Hall. lia. }
  rewrite G by exact H. reflexivity.
Qed.

End LlmFacts.

Lemma llm_gives_up_after_sleeping_every_round_witness :
  Llm.get_llm_streaming_response (fun _ => Llm.RateLimited) 3 =
  Llm.mkCall None 3 180.
Proof.
  apply (llm_gives_up_after_sleeping_every_round (fun _ => Llm.RateLimited) 3).
  intros j Hj. reflexivity.
Defined.

(** *** The schema history *)

Section StringFacts.

Lemma string_app_assoc (a b c : string) :
  ((a ++ b) ++ c)%string = (a ++ (b ++ c))%string.
Proof.
  induction a as [|x a IH]; cbn; [reflexivity|]. rewrite IH. reflexivity.
Qed.

End StringFacts.

Section TextFacts.
Import History.

Lemma text_eqb_eq (a : text) : forall b, text_eqb a b = true <-> a = b.
Proof.
  induction a as [|x a IH]; intros [|y b]; cbn [text_eqb]; split;
    try reflexivity; try discriminate.
  - intro H. apply andb_true_iff in H. destruct H as [H1 H2].
    apply N.eqb_eq in H1. apply IH in H2. subst. reflexivity.
  - intro H. inversion H; subst. rewrite N.eqb_refl. apply IH. reflexivity.
Qed.

Lemma text_eqb_refl (a : text) : text_eqb a a = true.
Proof.
  apply text_eqb_eq. reflexivity.
Qed.

Lemma text_eqb_neq (a b : text) : a <> b -> text_eqb a b = false.
Proof.
  intro H. destruct (text_eqb a b) eqn:E; [|reflexivity].
  apply text_eqb_eq in E. contradiction.
Qed.

Lemma text_leb_refl (a : text) : text_leb a a = true.
Proof.
  induction a as [|x a IH]; cbn [text_leb]; [reflexivity|].
  rewrite N.ltb_irrefl, N.eqb_refl. exact IH.
Qed.

Lemma text_leb_total (a : text) :
  forall b, text_leb a b = true \/ text_leb b a = true.
Proof.
  induction a as [|x a IH]; intros [|y b]; cbn [text_leb]; auto.
  destruct (N.ltb_spec x y) as [L|L]; [auto|].
  destruct (N.ltb_spec y x) as [L'|L']; [auto|].
  assert (x = y) as -> by lia. rewrite N.eqb_refl. apply IH.
Qed.

Lemma text_leb_antisym (a : text) :
  forall b, text_leb a b = true -> text_leb b a = true -> a = b.
Proof.
  induction a as [|x a IH]; intros [|y b]; cbn [text_leb]; try discriminate;
    [reflexivity|].
  destruct (N.ltb_spec x y) as [L|L]; destruct (N.ltb_spec y x) as [L'|L'];
    try lia.
  - destruct (N.eqb_spec y x) as [E|E]; [lia|discriminate].
  - destruct (N.eqb_spec x y) as [E|E]; [lia|discriminate].
  - destruct (N.eqb_spec x y) as [E|E]; [|discriminate]. subst y.
    rewrite N.eqb_refl. intros H1 H2. f_equal. apply IH; assumption.
Qed.

Lemma text_leb_trans (a : text) :
  forall b c, text_leb a b = true -> text_leb b c = true -> text_leb a c = true.
Proof.
  induction a as [|x a IH]; intros [|y b] [|z c]; cbn [text_leb];
    try reflexivity; try discriminate.
  destruct (N.ltb_spec x y) as [L1|L1]; destruct (N.ltb_spec y z) as [L2|L2];
    destruct (N.ltb_spec x z) as [L3|L3]; try reflexivity; try lia;
    destruct (N.eqb_spec x y) as [E1|E1]; destruct (N.eqb_spec y z) as [E2|E2];
    destruct (N.eqb_spec x z) as [E3|E3]; try discriminate; try lia;
    intros H1 H2; try discriminate.
  eapply IH; eassumption.
Qed.

(** Two texts that differ after a common beginning are ordered as their
    remainders. *)
Lemma text_leb_common_prefix (p a b : text) :
  text_leb (p ++ a) (p ++ b) = text_leb a b.
Proof.
  induction p as [|x p IH]; cbn [app text_leb]; [reflexivity|].
  rewrite N.ltb_irrefl, N.eqb_refl. exact IH.
Qed.

Lemma text_leb_common_suffix (suffix : text) (a : text) :
  forall b, List.length a = List.length b ->
            text_leb (a ++ suffix) (b ++ suffix) = text_leb a b.
Proof.
  induction a as [|x a IH]; intros [|y b] H; cbn [List.length] in H;
    try discriminate H; cbn [app text_leb].
  - apply text_leb_refl.
  - rewrite IH by lia. reflexivity.
Qed.

Lemma strip_prefix_app (p s : text) : strip_prefix p (p ++ s) = Some s.
Proof.
  induction p as [|a p IH]; cbn [app strip_prefix]; [reflexivity|].
  rewrite N.eqb_refl. exact IH.
Qed.

Lemma endswith_app (x suffix : text) : endswith suffix (x ++ suffix) = true.
Proof.
  induction x as [|a x IH]; cbn [app].
  - destruct suffix; cbn [endswith]; rewrite text_eqb_refl; reflexivity.
  - cbn [endswith]. rewrite IH. apply orb_true_r.
Qed.

Lemma read_file_write_same (path : text) (content : string) (d : disk) :
  read_file path (write_file path content d) = Some content.
Proof.
  induction d as [|[p t] d IH]; cbn [write_file read_file].
  - rewrite text_eqb_refl. reflexivity.
  - destruct (text_eqb path p) eqn:E; cbn [read_file]; rewrite E;
      [reflexivity|exact IH].
Qed.

Lemma read_file_write_other (path other : text) (content : string) (d : disk) :
  text_eqb other path = false ->
  read_file other (write_file path content d) = read_file other d.
Proof.
  intro N. induction d as [|[p t] d IH]; cbn [write_file read_file].
  - rewrite N. reflexivity.
  - destruct (text_eqb path p) eqn:E; cbn [read_file].
    + apply text_eqb_eq in E. subst p. rewrite N. reflexivity.
    + rewrite IH. reflexivity.
Qed.

Lemma write_file_twice (path : text) (t1 t2 : string) (d : disk) :
  write_file path t2 (write_file path t1 d) = write_file path t2 d.
Proof.
  induction d as [|[p t] d IH]; cbn [write_file].
  - rewrite text_eqb_refl. reflexivity.
  - destruct (text_eqb path p) eqn:E; cbn [write_file]; rewrite E; [reflexivity|].
    rewrite IH. reflexivity.
Qed.

Lemma in_paths_write_file (path : text) (content : string) (d : disk) :
  In path (map fst (write_file path content d)).
Proof.
  induction d as [|[p t] d IH]; cbn [write_file map fst In]; [auto|].
  destruct (text_eqb path p) eqn:E; cbn [map fst In].
  - apply text_eqb_eq in E. auto.
  - auto.
Qed.

Lemma paths_write_file (path : text) (content : string) (d : disk) (q : text) :
  In q (map fst (write_file path content d)) -> q = path \/ In q (map fst d).
Proof.
  induction d as [|[p t] d IH]; cbn [write_file map fst In].
  - intros [H|[]]; auto.
  - destruct (text_eqb path p) eqn:E; cbn [map fst In].
    + tauto.
    + intros [H|H]; [auto|]. destruct (IH H); auto.
Qed.

Lemma read_file_in (path : text) (content : string) (d : disk) :
  read_file path d = Some content -> In (path, content) d.
Proof.
  induction d as [|[p t] d IH]; cbn [read_file]; [discriminate|].
  destruct (text_eqb path p) eqn:E.
  - apply text_eqb_eq in E. subst p. intro H. inversion H. left. reflexivity.
  - intro H. right. apply IH. exact H.
Qed.

Lemma in_insert_desc (x y : text) (l : list text) :
  In x (insert_desc y l) <-> x = y \/ In x l.
Proof.
  induction l as [|z l IH]; cbn [insert_desc In].
  - split; [intros [H|[]]; auto|intros [H|[]]; auto].
  - destruct (text_leb z y); cbn [In].
    + split; [intros [H|H]; auto|intros [H|H]; auto].
    + rewrite IH. split.
      * intros [H|[H|H]]; auto.
      * intros [H|[H|H]]; auto.
Qed.

Lemma in_sorted_reverse (x : text) (l : list text) :
  In x (sorted_reverse l) <-> In x l.
Proof.
  unfold sorted_reverse. induction l as [|y l IH]; cbn [fold_right In];
    [reflexivity|].
  rewrite in_insert_desc, IH. split; intros [H|H]; auto.
Qed.

Lemma length_insert_desc (y : text) (l : list text) :
  List.length (insert_desc y l) = S (List.length l).
Proof.
  induction l as [|z l IH]; cbn [insert_desc List.length]; [reflexivity|].
  destruct (text_leb z y); cbn [List.length]; [reflexivity|].
  rewrite IH. reflexivity.
Qed.

Lemma insert_desc_descending (x : text) (l : list text) :
  ForallOrdPairs (fun a b => text_leb b a = true) l ->
  ForallOrdPairs (fun a b => text_leb b a = true) (insert_desc x l).
Proof.
  induction 1 as [|y l Hy Hl IH]; cbn [insert_desc].
  - constructor; constructor.
  - destruct (text_leb y x) eqn:E.
    + constructor; [|constructor; assumption].
      constructor; [exact E|].
      apply Forall_forall. intros z Hz.
      apply (text_leb_trans z y x); [|exact E].
      apply (proj1 (Forall_forall _ _) Hy). exact Hz.
    + constructor; [|exact IH].
      apply Forall_forall. intros z Hz.
      apply (proj1 (in_insert_desc z x l)) in Hz. destruct Hz as [->|Hz].
      * destruct (text_leb_total x y) as [T|T]; [exact T|congruence].
      * apply (proj1 (Forall_forall _ _) Hy). exact Hz.
Qed.

(** The greatest path comes first. *)
Lemma sorted_reverse_head (p : text) (l : list text) :
  In p l -> (forall q, In q l -> text_leb q p = true) ->
  exists rest, sorted_reverse l = p :: rest.
Proof.
  unfold sorted_reverse. induction l as [|x l IH]; intros Hin Hmax; [destruct Hin|].
  cbn [fold_right].
  assert (Hmax' : forall q, In q l -> text_leb q p = true)
    by (intros q Hq; apply Hmax; right; exact Hq).
  destruct (in_dec (list_eq_dec N.eq_dec) p l) as [Hl|Hl].
  - destruct (IH Hl Hmax') as [rest Hrest]. rewrite Hrest. cbn [insert_desc].
    destruct (text_leb p x) eqn:E.
    + assert (x = p) as ->.
      { apply text_leb_antisym; [apply Hmax; left; reflexivity|exact E]. }
      eauto.
    + eauto.
  - destruct Hin as [->|Hin]; [|contradiction].
    destruct (fold_right insert_desc [] l) as [|y r] eqn:S; cbn [insert_desc];
      [eauto|].
    assert (Hy : In y l).
    { apply (in_sorted_reverse y l). unfold sorted_reverse. rewrite S.
      left. reflexivity. }
    rewrite (Hmax' y Hy). eauto.
Qed.

End TextFacts.

Section HistoryFacts.
Import History.

Variable isalnum : N -> bool.

Lemma snapshot_file_split (table_name timestamp : text) :
  snapshot_file isalnum table_name timestamp =
  search_prefix isalnum table_name ++ (timestamp ++ codes ".json").
Proof.
  unfold snapshot_file, search_prefix, in_history_dir.
  rewrite <- !app_assoc. reflexivity.
Qed.

(** A path that continues the pattern of a table with a name that holds no
    separator and ends in [.json] is found by the search for the table. *)
Lemma glob_match_continued (table_name middle : text) :
  existsb (N.eqb slash) middle = false ->
  glob_match (search_prefix isalnum table_name) (codes ".json")
             (search_prefix isalnum table_name ++ (middle ++ codes ".json")) = true.
Proof.
  intro H. unfold glob_match. rewrite strip_prefix_app, endswith_app.
  rewrite existsb_app, H. reflexivity.
Qed.

Lemma snapshot_file_matches (table_name timestamp : text) :
  existsb (N.eqb slash) timestamp = false ->
  glob_match (search_prefix isalnum table_name) (codes ".json")
             (snapshot_file isalnum table_name timestamp) = true.
Proof.
  intro H. rewrite snapshot_file_split. apply glob_match_continued. exact H.
Qed.

(** X4. The name used for the files of a table has as many characters as
    the table name, each of them a character that [isalnum] accepts or an
    underscore; such a name is left as it is. *)
Theorem safe_table_name_is_safe (table_name : text) :
  List.length (safe_table_name isalnum table_name) = List.length table_name /\
  Forall (fun c => isalnum c = true \/ c = underscore)
         (safe_table_name isalnum table_name) /\
  safe_table_name isalnum (safe_table_name isalnum table_name)
  = safe_table_name isalnum table_name.
Proof.
  unfold safe_table_name. split; [apply length_map|]. split.
  - apply Forall_forall. intros c Hc. apply in_map_iff in Hc.
    destruct Hc as [x [<- _]]. destruct (isalnum x) eqn:E; auto.
  - rewrite map_map. apply map_ext. intro c.
    destruct (isalnum c) eqn:E; [rewrite E; reflexivity|].
    destruct (isalnum underscore); reflexivity.
Qed.

Variable json_dumps : pyval -> string.
Variable json_loads : string -> option pyval.

(** X5. Loading returns at most [num_history] schemas, and each of them is
    the parsed content of a file on disk whose path matches the pattern of
    the table. *)
Theorem loaded_history_is_bounded_and_from_matching_files
    (table_name : text) (num_history : nat) (d : disk) :
  (List.length (load_historical_schemas isalnum json_loads table_name num_history d)
     <= num_history)%nat /\
  forall schema_data,
    In schema_data
       (load_historical_schemas isalnum json_loads table_name num_history d) ->
    exists path content,
      In (path, content) d /\
      glob_match (search_prefix isalnum table_name) (codes ".json") path = true /\
      json_loads content = Some schema_data.
Proof.
  unfold load_historical_schemas. split.
  - transitivity
      (List.length (firstn num_history (history_files isalnum table_name d)));
      [|apply firstn_le_length].
    induction (firstn num_history (history_files isalnum table_name d))
      as [|f fs IH]; cbn [flat_map]; [reflexivity|].
    rewrite length_app. cbn [List.length]. unfold load_one at 1.
    destruct (read_file f d) as [content|]; [destruct (json_loads content)|];
      cbn; lia.
  - intros v Hv. apply in_flat_map in Hv. destruct Hv as [f [Hf Hv]].
    unfold load_one in Hv.
    destruct (read_file f d) as [content|] eqn:R; [|destruct Hv].
    destruct (json_loads content) as [j|] eqn:J; [|destruct Hv].
    destruct Hv as [<-|[]].
    exists f, content. split; [apply read_file_in; exact R|]. split; [|exact J].
    apply firstn_incl in Hf. unfold history_files in Hf.
    apply (proj1 (in_sorted_reverse _ _)) in Hf.
    apply (proj1 (filter_In _ _ _)) in Hf. apply Hf.
Qed.

(** A snapshot whose path matches the pattern of a table and is the
    greatest of the matching paths is the first schema loaded for that
    table. *)
Lemma matching_snapshot_is_loaded_first
    (saved_for loaded_for timestamp : text) (file_schema : dict)
    (d : disk) (n : nat) :
  let document :=
    PDict [("columns", dict_get_default "columns" (PDict []) file_schema)] in
  glob_match (search_prefix isalnum loaded_for) (codes ".json")
             (snapshot_file isalnum saved_for timestamp) = true ->
  (forall q, In q (map fst d) ->
             glob_match (search_prefix isalnum loaded_for) (codes ".json") q = true ->
             text_leb q (snapshot_file isalnum saved_for timestamp) = true) ->
  json_loads (json_dumps document) = Some document ->
  exists older,
    load_historical_schemas isalnum json_loads loaded_for (S n)
      (save_schema_to_history isalnum json_dumps true timestamp saved_for
         file_schema d)
    = document :: older.
Proof.
  intros document Hmatch Hmax Hjson.
  unfold load_historical_schemas, save_schema_to_history. fold document.
  set (p := snapshot_file isalnum saved_for timestamp) in *.
  set (d' := write_file p (json_dumps document) d).
  destruct (sorted_reverse_head p
              (filter (glob_match (search_prefix isalnum loaded_for) (codes ".json"))
                      (map fst d')))
    as [rest Hrest].
  - apply filter_In. split; [apply in_paths_write_file|exact Hmatch].
  - intros q Hq. apply filter_In in Hq. destruct Hq as [Hq Hm].
    apply paths_write_file in Hq. destruct Hq as [->|Hq].
    + apply text_leb_refl.
    + apply Hmax; assumption.
  - unfold history_files. rewrite Hrest. cbn [firstn flat_map].
    unfold load_one at 1. unfold d' at 1. rewrite read_file_write_same, Hjson.
    cbn [app]. eauto.
Qed.

(** X6. A snapshot saved for a table is the first schema loaded afterwards
    for any table with the same file name stem, as long as its path is the
    greatest among the matching ones and the document survives the
    round trip through JSON. *)
Theorem saved_snapshot_is_loaded_first
    (saved_for loaded_for timestamp : text) (file_schema : dict)
    (d : disk) (n : nat) :
  let document :=
    PDict [("columns", dict_get_default "columns" (PDict []) file_schema)] in
  safe_table_name isalnum saved_for = safe_table_name isalnum loaded_for ->
  existsb (N.eqb slash) timestamp = false ->
  (forall q, In q (map fst d) ->
             glob_match (search_prefix isalnum loaded_for) (codes ".json") q = true ->
             text_leb q (snapshot_file isalnum saved_for timestamp) = true) ->
  json_loads (json_dumps document) = Some document ->
  exists older,
    load_historical_schemas isalnum json_loads loaded_for (S n)
      (save_schema_to_history isalnum json_dumps true timestamp saved_for
         file_schema d)
    = document :: older.
Proof.
  intros document Hsafe Hts Hmax Hjson.
  apply matching_snapshot_is_loaded_first; [|exact Hmax|exact Hjson].
  replace (snapshot_file isalnum saved_for timestamp)
    with (snapshot_file isalnum loaded_for timestamp)
    by (unfold snapshot_file; rewrite Hsafe; reflexivity).
  apply snapshot_file_matches. exact Hts.
Qed.

(** X7. Two snapshots of a table saved within the same second leave one
    file, holding the second. *)
Theorem second_save_in_the_same_second_replaces_the_first
    (writable : bool) (timestamp table_name : text) (first second : dict)
    (d : disk) :
  save_schema_to_history isalnum json_dumps writable timestamp table_name second
    (save_schema_to_history isalnum json_dumps writable timestamp table_name first d) =
  save_schema_to_history isalnum json_dumps writable timestamp table_name second d.
Proof.
  unfold save_schema_to_history. destruct writable; [|reflexivity].
  apply write_file_twice.
Qed.

(** X8. Saving a snapshot leaves every other file as it was. *)
Theorem save_leaves_other_files (writable : bool) (timestamp table_name : text)
    (file_schema : dict) (d : disk) (other : text) :
  other <> snapshot_file isalnum table_name timestamp ->
  read_file other
    (save_schema_to_history isalnum json_dumps writable timestamp table_name
       file_schema d)
  = read_file other d.
Proof.
  intro N. unfold save_schema_to_history. destruct writable; [|reflexivity].
  apply read_file_write_other. apply text_eqb_neq. exact N.
Qed.

(** X9. The snapshot files considered for a table are the paths of the
    disk that match its pattern, each once, in descending order of the
    path; of two snapshots of one table whose timestamps have the same
    length, the one with the greater timestamp comes first. *)
Theorem history_files_descend_over_the_matching_paths
    (table_name : text) (d : disk) :
  ForallOrdPairs (fun a b => text_leb b a = true)
                 (history_files isalnum table_name d) /\
  List.length (history_files isalnum table_name d) =
    List.length (filter (glob_match (search_prefix isalnum table_name) (codes ".json"))
                        (map fst d)) /\
  (forall path,
      In path (history_files isalnum table_name d) <->
      In path (map fst d) /\
      glob_match (search_prefix isalnum table_name) (codes ".json") path = true) /\
  (forall earlier later,
      List.length earlier = List.length later ->
      text_leb (snapshot_file isalnum table_name earlier)
               (snapshot_file isalnum table_name later)
      = text_leb earlier later).
Proof.
  unfold history_files.
  set (l := filter (glob_match (search_prefix isalnum table_name) (codes ".json"))
                   (map fst d)).
  split; [|split; [|split]].
  - unfold sorted_reverse. induction l as [|x l IH]; cbn [fold_right].
    + constructor.
    + apply insert_desc_descending. exact IH.
  - unfold sorted_reverse. induction l as [|x l IH]; cbn [fold_right];
      [reflexivity|].
    rewrite length_insert_desc, IH. reflexivity.
  - intro path. rewrite in_sorted_reverse. unfold l. apply filter_In.
  - intros earlier later Hlen.
    rewrite !snapshot_file_split, text_leb_common_prefix.
    apply text_leb_common_suffix. exact Hlen.
Qed.

(** X28. The pattern of a table also matches the snapshots of every table
    whose file name stem continues its own with [_schema_]: saved for the
    one, such a snapshot is loaded as history of the other. *)
Theorem snapshot_of_a_longer_name_is_loaded_for_the_shorter
    (shorter longer continuation timestamp : text) (file_schema : dict)
    (d : disk) (n : nat) :
  let document :=
    PDict [("columns", dict_get_default "columns" (PDict []) file_schema)] in
  safe_table_name isalnum longer =
    safe_table_name isalnum shorter ++ codes "_schema_" ++ continuation ->
  existsb (N.eqb slash) continuation = false ->
  existsb (N.eqb slash) timestamp = false ->
  (forall q, In q (map fst d) ->
             glob_match (search_prefix isalnum shorter) (codes ".json") q = true ->
             text_leb q (snapshot_file isalnum longer timestamp) = true) ->
  json_loads (json_dumps document) = Some document ->
  exists older,
    load_historical_schemas isalnum json_loads shorter (S n)
      (save_schema_to_history isalnum json_dumps true timestamp longer
         file_schema d)
    = document :: older.
Proof.
  intros document Hname Hcont Hts Hmax Hjson.
  apply matching_snapshot_is_loaded_first; [|exact Hmax|exact Hjson].
  replace (snapshot_file isalnum longer timestamp)
    with (search_prefix isalnum shorter ++
          ((continuation ++ codes "_schema_" ++ timestamp) ++ codes ".json")).
  - apply glob_match_continued. rewrite !existsb_app, Hcont, Hts. reflexivity.
  - unfold snapshot_file, search_prefix, in_history_dir. rewrite Hname.
    rewrite <- !app_assoc. reflexivity.
Qed.

End HistoryFacts.

Lemma saved_snapshot_is_loaded_first_witness :
  exists older,
    History.load_historical_schemas Samples.ascii_isalnum
      (fun _ => Some (PDict [("columns", PDict [])]))
      (History.codes "sales_2024") 3
      (History.save_schema_to_history Samples.ascii_isalnum (fun _ => "{}") true
         (History.codes "20240101T000000Z") (History.codes "sales-2024")
         [("columns", PDict [])] [])
    = PDict [("columns", PDict [])] :: older.
Proof.
  apply (saved_snapshot_is_loaded_first Samples.ascii_isalnum
           (fun _ => "{}") (fun _ => Some (PDict [("columns", PDict [])]))
           (History.codes "sales-2024") (History.codes "sales_2024")
           (History.codes "20240101T000000Z") [("columns", PDict [])] [] 2).
  - reflexivity.
  - reflexivity.
  - intros q [].
  - reflexivity.
Defined.

Lemma save_leaves_other_files_witness :
  History.read_file (History.codes "notes.txt")
    (History.save_schema_to_history Samples.ascii_isalnum (fun _ => "{}") true
       (History.codes "20240101T000000Z") (History.codes "orders")
       [] [(History.codes "notes.txt", "kept")])
  = History.read_file (History.codes "notes.txt")
      [(History.codes "notes.txt", "kept")].
Proof.
  apply (save_leaves_other_files Samples.ascii_isalnum (fun _ => "{}") true
           (History.codes "20240101T000000Z") (History.codes "orders")
           [] [(History.codes "notes.txt", "kept")] (History.codes "notes.txt")).
  intro H. discriminate H.
Defined.

Lemma history_files_descend_over_the_matching_paths_witness :
  History.text_leb
    (History.snapshot_file Samples.ascii_isalnum (History.codes "orders")
       (History.codes "20240101T000000Z"))
    (History.snapshot_file Samples.ascii_isalnum (History.codes "orders")
       (History.codes "20250101T000000Z"))
  = History.text_leb (History.codes "20240101T000000Z")
                     (History.codes "20250101T000000Z").
Proof.
  apply (proj2 (proj2 (proj2
           (history_files_descend_over_the_matching_paths Samples.ascii_isalnum
              (History.codes "orders") [])))).
  reflexivity.
Defined.

Lemma snapshot_of_a_longer_name_is_loaded_for_the_shorter_witness :
  exists older,
    History.load_historical_schemas Samples.ascii_isalnum
      (fun _ => Some (PDict [("columns", PDict [])]))
      (History.codes "a") 3
      (History.save_schema_to_history Samples.ascii_isalnum (fun _ => "{}") true
         (History.codes "20240101T000000Z") (History.codes "a_schema_b")
         [("columns", PDict [])] [])
    = PDict [("columns", PDict [])] :: older.
Proof.
  apply (snapshot_of_a_longer_name_is_loaded_for_the_shorter Samples.ascii_isalnum
           (fun _ => "{}") (fun _ => Some (PDict [("columns", PDict [])]))
           (History.codes "a") (History.codes "a_schema_b") (History.codes "b")
           (History.codes "20240101T000000Z") [("columns", PDict [])] [] 2).
  - reflexivity.
  - reflexivity.
  - reflexivity.
  - intros q [].
  - reflexivity.
Defined.

(** *** The table schema read from the database *)

Section DatabricksFacts.
Import Databricks.

Lemma assoc_set_in {A : Type} (k : string) (v : A) (d : list (string * A))
    (k' : string) (v' : A) :
  In (k', v') (assoc_set k v d) -> (k' = k /\ v' = v) \/ In (k', v') d.
Proof.
  induction d as [|[k0 v0] d IH]; cbn.
  - intros [H|[]]. inversion H. auto.
  - destruct (String.eqb k k0) eqn:E.
    + apply String.eqb_eq in E. subst k0.
      intros [H|H]; [inversion H; auto|auto].
    + intros [H|H]; [auto|]. destruct (IH H); auto.
Qed.

Lemma assoc_set_keys {A : Type} (k : string) (v : A) (d : list (string * A))
    (k' : string) :
  In k' (map fst (assoc_set k v d)) <-> k' = k \/ In k' (map fst d).
Proof.
  induction d as [|[k0 v0] d IH]; cbn.
  - intuition.
  - destruct (String.eqb k k0) eqn:E; cbn.
    + apply String.eqb_eq in E. subst k0. intuition.
    + rewrite IH. intuition.
Qed.

Lemma assoc_set_nodup {A : Type} (k : string) (v : A) (d : list (string * A)) :
  NoDup (map fst d) -> NoDup (map fst (assoc_set k v d)).
Proof.
  induction d as [|[k0 v0] d IH]; cbn; intro H.
  - constructor; [intros []|constructor].
  - inversion H as [|? ? Hn Hd]; subst.
    destruct (String.eqb k k0) eqn:E; cbn.
    + constructor; assumption.
    + constructor; [|apply IH; exact Hd].
      intro Hin. apply assoc_set_keys in Hin. destruct Hin as [->|Hin].
      * rewrite String.eqb_refl in E. discriminate E.
      * contradiction.
Qed.

(** What the loop over the columns builds, from any dictionary it starts
    with. *)
Lemma add_columns_inv (primary_keys : list string) (columns : list ColumnInfo) :
  forall acc,
    NoDup (map fst acc) ->
    NoDup (map fst (fold_left (add_column primary_keys) columns acc)) /\
    (forall name details,
        In (name, details) (fold_left (add_column primary_keys) columns acc) ->
        In (name, details) acc \/
        exists col, In col columns /\ ci_name col = name /\
                    details = mkColumn (ci_type col) (ci_nullable col)
                                       (mem_str name primary_keys)) /\
    (forall name,
        In name (map fst acc) \/ In name (map ci_name columns) ->
        In name (map fst (fold_left (add_column primary_keys) columns acc))).
Proof.
  induction columns as [|c cs IH]; intros acc Hnd; cbn [fold_left].
  - split; [exact Hnd|]. split; [auto|]. intros name [H|[]]. exact H.
  - destruct (IH (add_column primary_keys acc c)) as [H1 [H2 H3]].
    { apply assoc_set_nodup. exact Hnd. }
    split; [exact H1|]. split.
    + intros name details Hin. destruct (H2 name details Hin) as [Hacc|[col [Hc Hd]]].
      * apply assoc_set_in in Hacc. destruct Hacc as [[-> ->]|Hacc]; [|auto].
        right. exists c. split; [left; reflexivity|]. split; reflexivity.
      * right. exists col. split; [right; exact Hc|exact Hd].
    + intros name Hname. apply H3. cbn [map In] in Hname.
      destruct Hname as [Hacc|[<-|Hcs]].
      * left. apply assoc_set_keys. right. exact Hacc.
      * left. apply assoc_set_keys. left. reflexivity.
      * right. exact Hcs.
Qed.

Lemma get_db_schema_inv (inspector : Inspector) (table_name : string)
    (schema : TableSchema) :
  get_db_schema inspector table_name = Ok (Some schema) ->
  exists columns pk_constraint,
    get_columns inspector table_name = Ok columns /\
    get_pk_constraint inspector table_name = Ok pk_constraint /\
    schema = fold_left (add_column (constrained pk_constraint)) columns [].
Proof.
  unfold get_db_schema.
  destruct (has_table inspector table_name) as [present|e]; cbn; [|discriminate].
  destruct present; cbn; [|discriminate].
  destruct (get_columns inspector table_name) as [columns|e]; cbn; [|discriminate].
  destruct (get_pk_constraint inspector table_name) as [pk|e]; cbn; [|discriminate].
  intro H. inversion H. exists columns, pk. auto.
Qed.

(** X10. The schema of an existing table has one entry per column name of
    the table; an entry carries the type and the nullability of a column
    of that name, and is a primary key exactly when the name is among the
    constrained columns. *)
Theorem db_schema_describes_the_columns_once
    (inspector : Inspector) (table_name : string) (schema : TableSchema) :
  get_db_schema inspector table_name = Ok (Some schema) ->
  exists columns pk_constraint,
    get_columns inspector table_name = Ok columns /\
    get_pk_constraint inspector table_name = Ok pk_constraint /\
    NoDup (map fst schema) /\
    (forall name, In name (map fst schema) <-> In name (map ci_name columns)) /\
    (forall name details,
        In (name, details) schema ->
        primary_key details = mem_str name (constrained pk_constraint) /\
        exists col, In col columns /\ ci_name col = name /\
                    col_type details = ci_type col /\
                    nullable details = ci_nullable col).
Proof.
  intro H. apply get_db_schema_inv in H.
  destruct H as [columns [pk [Hc [Hp ->]]]].
  exists columns, pk. split; [exact Hc|]. split; [exact Hp|].
  destruct (add_columns_inv (constrained pk) columns [] (NoDup_nil _))
    as [H1 [H2 H3]].
  split; [exact H1|]. split.
  - intro name. split.
    + intro Hin. apply in_map_iff in Hin. destruct Hin as [[n details] [<- Hin]].
      destruct (H2 n details Hin) as [[]|[col [Hcol [<- _]]]].
      cbn [fst]. apply (in_map ci_name). exact Hcol.
    + intro Hin. apply H3. right. exact Hin.
  - intros name details Hin.
    destruct (H2 name details Hin) as [[]|[col [Hcol [Hn ->]]]].
    split; [reflexivity|]. exists col. auto.
Qed.

Lemma collect_tables_fails (inspector : Inspector) (table_name : string) (e : exn)
    (table_names : list string) :
  In table_name table_names ->
  get_columns inspector table_name = Raise e ->
  forall acc, exists e', collect_tables inspector table_names acc = Raise e'.
Proof.
  intros Hin Hraise. induction table_names as [|t ts IH]; [destruct Hin|].
  intro acc. cbn [collect_tables].
  destruct (get_columns inspector t) as [columns|e0] eqn:G; cbn [bind].
  - destruct Hin as [->|Hin]; [rewrite Hraise in G; discriminate G|].
    apply IH. exact Hin.
  - eauto.
Qed.

(** X11. The overview of all tables is all or nothing: when the columns of
    one table cannot be read, no table is listed. *)
Theorem one_unreadable_table_empties_the_overview
    (inspector : Inspector) (table_names : list string) (table_name : string)
    (e : exn) :
  get_table_names inspector = Ok table_names ->
  In table_name table_names ->
  get_columns inspector table_name = Raise e ->
  get_all_table_schemas inspector = [].
Proof.
  intros Hn Hin Hraise. unfold get_all_table_schemas. rewrite Hn. cbn [bind].
  destruct (collect_tables_fails inspector table_name e table_names Hin Hraise [])
    as [e' ->].
  reflexivity.
Qed.

(** X12. With the schema read from the database, the primary-key check
    reports nothing for a column outside the primary-key constraint,
    whatever the column holds. *)
Theorem no_primary_key_violation_outside_the_constraint
    (inspector : Inspector) (table_name : string) (schema : TableSchema)
    (pk_constraint : option (list string)) (name : string)
    (details : ColumnDetails) (column_data : Series) :
  get_db_schema inspector table_name = Ok (Some schema) ->
  get_pk_constraint inspector table_name = Ok pk_constraint ->
  In (name, details) schema ->
  mem_str name (constrained pk_constraint) = false ->
  primary_key_check name details column_data = [].
Proof.
  intros H Hpk Hin Hout. apply get_db_schema_inv in H.
  destruct H as [columns [pk [_ [Hp ->]]]].
  rewrite Hp in Hpk. inversion Hpk; subst pk.
  destruct (add_columns_inv (constrained pk_constraint) columns [] (NoDup_nil _))
    as [_ [H2 _]].
  destruct (H2 name details Hin) as [[]|[col [_ [_ ->]]]].
  unfold primary_key_check. cbn [primary_key]. rewrite Hout. reflexivity.
Qed.

End DatabricksFacts.

Lemma db_schema_describes_the_columns_once_witness :
  exists columns pk_constraint,
    Databricks.get_columns Samples.orders_inspector "orders" = Ok columns /\
    Databricks.get_pk_constraint Samples.orders_inspector "orders" = Ok pk_constraint /\
    NoDup (map fst Samples.orders_table_schema) /\
    (forall name, In name (map fst Samples.orders_table_schema) <->
                  In name (map Databricks.ci_name columns)) /\
    (forall name details,
        In (name, details) Samples.orders_table_schema ->
        primary_key details = mem_str name (Databricks.constrained pk_constraint) /\
        exists col, In col columns /\ Databricks.ci_name col = name /\
                    col_type details = Databricks.ci_type col /\
                    nullable details = Databricks.ci_nullable col).
Proof.
  apply (db_schema_describes_the_columns_once Samples.orders_inspector "orders"
           Samples.orders_table_schema).
  reflexivity.
Defined.

Lemma one_unreadable_table_empties_the_overview_witness :
  Databricks.get_all_table_schemas Samples.orders_inspector = [].
Proof.
  apply (one_unreadable_table_empties_the_overview Samples.orders_inspector
           ["orders"; "broken"] "broken" (IOError "table is unreadable")).
  - reflexivity.
  - right. left. reflexivity.
  - reflexivity.
Defined.

Lemma no_primary_key_violation_outside_the_constraint_witness :
  primary_key_check "qty" (mkColumn "INTEGER" true false) ids_series = [].
Proof.
  apply (no_primary_key_violation_outside_the_constraint Samples.orders_inspector
           "orders" Samples.orders_table_schema (Some ["id"]) "qty"
           (mkColumn "INTEGER" true false) ids_series).
  - reflexivity.
  - reflexivity.
  - right. left. reflexivity.
  - reflexivity.
Defined.

(** *** Reading files and sheets *)

Section FileFacts.
Import Files.

Lemma extract_schema_from_df_fields (df : DataFrame) (file_name : string)
    (sheet_name : option string) :
  Terms.has_schema_fields file_name (fst (extract_schema_from_df df file_name sheet_name))
  /\ Terms.error_means_empty (fst (extract_schema_from_df df file_name sheet_name)).
Proof.
  unfold extract_schema_from_df, Terms.has_schema_fields, Terms.error_means_empty.
  destruct (df_empty (dropna_all df)).
  - cbn. repeat split; try reflexivity; discriminate.
  - destruct (column_details_loop _ _ _) as [cd|e].
    + cbn. repeat split; try reflexivity; discriminate.
    + cbn. repeat split; reflexivity.
Qed.

Lemma failed_schema_fields (file_path : string) (sheet_name : option string)
    (message : string) :
  Terms.has_schema_fields file_path (failed_schema file_path sheet_name message) /\
  Terms.error_means_empty (failed_schema file_path sheet_name message).
Proof.
  unfold Terms.has_schema_fields, Terms.error_means_empty, failed_schema.
  cbn. repeat split; reflexivity.
Qed.

Lemma read_excel_sheet_failure (r : Reader) (file_path : string)
    (sheet_name : option string) (failure : pyval) :
  read_excel_sheet r file_path sheet_name = inl failure ->
  exists message, failure = failed_schema file_path sheet_name message.
Proof.
  unfold read_excel_sheet.
  destruct (excel_sheet r file_path _) as [df|msg|e]; [| |].
  - destruct sheet_name as [s|]; [discriminate|].
    destruct (excel_names r file_path) as [names|msg|e].
    + destruct (nth_error names 0); [discriminate|].
      intro H. inversion H. eauto.
    + intro H. inversion H. eauto.
    + intro H. inversion H. eauto.
  - intro H. inversion H. eauto.
  - intro H. inversion H. eauto.
Qed.

(** X13. Reading a schema from a file gives [None] in two cases only: the
    extension is none of the supported ones, or the file is a CSV file
    that does not exist.  A missing workbook gives a schema with an error
    instead. *)
Theorem extract_file_schema_none_iff (r : Reader) (file_path : string)
    (sheet_name : option string) :
  extract_file_schema r file_path sheet_name = None <->
  (is_csv file_path = false /\ is_excel file_path = false) \/
  (is_csv file_path = true /\ exists msg, csv_file r file_path = FileNotFound msg).
Proof.
  unfold extract_file_schema.
  destruct (is_csv file_path).
  - destruct (csv_file r file_path) as [df|msg|e]; split;
      try discriminate; try (intros [[H _]|[_ [m H]]]; discriminate H).
    + intros _. right. eauto.
    + intros _. reflexivity.
  - destruct (is_excel file_path).
    + destruct (read_excel_sheet r file_path sheet_name) as [f|[df n]]; split;
        try discriminate; intros [[_ H]|[H _]]; discriminate H.
    + split; [auto|reflexivity].
Qed.

(** X14. Every schema read from a file carries [file_name] (the path
    asked for), [sheet_name], [total_rows] and [columns], and a schema
    that reports an error has no rows and no columns. *)
Theorem file_schema_is_well_formed (r : Reader) (file_path : string)
    (sheet_name : option string) (schema : pyval) :
  extract_file_schema r file_path sheet_name = Some schema ->
  Terms.has_schema_fields file_path schema /\ Terms.error_means_empty schema.
Proof.
  unfold extract_file_schema.
  destruct (is_csv file_path).
  - destruct (csv_file r file_path) as [df|msg|e]; [|discriminate|].
    + intro H. inversion H. apply extract_schema_from_df_fields.
    + intro H. inversion H. apply failed_schema_fields.
  - destruct (is_excel file_path); [|discriminate].
    destruct (read_excel_sheet r file_path sheet_name) as [f|[df n]] eqn:E.
    + intro H. inversion H; subst.
      apply read_excel_sheet_failure in E. destruct E as [m ->].
      apply failed_schema_fields.
    + intro H. inversion H. apply extract_schema_from_df_fields.
Qed.

Lemma endswith_last_char (suffix s : string) :
  suffix <> EmptyString -> Str.endswith suffix s = true ->
  Terms.last_char s = Terms.last_char suffix.
Proof.
  intro Hne. induction s as [|c s IH]; cbn [Str.endswith].
  - rewrite orb_false_r. intro H. apply String.eqb_eq in H. contradiction.
  - intro H. apply orb_true_iff in H. destruct H as [H|H].
    + apply String.eqb_eq in H. rewrite H. reflexivity.
    + rewrite <- (IH H). destruct s as [|c' s']; [|reflexivity].
      cbn [Str.endswith] in H. rewrite orb_false_r in H.
      apply String.eqb_eq in H. contradiction.
Qed.

(** X15. No path counts both as a CSV file and as a workbook, so the
    functions that test the extensions in different orders sort every
    path alike. *)
Theorem csv_and_excel_extensions_exclude_each_other (file_path : string) :
  is_csv file_path = true -> is_excel file_path = false.
Proof.
  unfold is_csv, is_excel. intro H.
  apply endswith_last_char in H; [|discriminate].
  destruct (Str.endswith ".xls" file_path) eqn:E1.
  - apply endswith_last_char in E1; [|discriminate].
    rewrite H in E1. discriminate E1.
  - destruct (Str.endswith ".xlsx" file_path) eqn:E2; [|reflexivity].
    apply endswith_last_char in E2; [|discriminate].
    rewrite H in E2. discriminate E2.
Qed.

End FileFacts.

Lemma file_schema_is_well_formed_witness :
  Terms.has_schema_fields "orders.csv"
    (fst (extract_schema_from_df orders_df "orders.csv" None)) /\
  Terms.error_means_empty (fst (extract_schema_from_df orders_df "orders.csv" None)).
Proof.
  apply (file_schema_is_well_formed
           (Files.mkReader (fun _ => Files.ReadOk orders_df)
                           (fun _ _ => Files.ReadFailed (IOError "not a workbook"))
                           (fun _ => Files.ReadFailed (IOError "not a workbook")))
           "orders.csv" None).
  reflexivity.
Defined.

Lemma csv_and_excel_extensions_exclude_each_other_witness :
  Files.is_excel "new_orders.csv" = false.
Proof.
  apply (csv_and_excel_extensions_exclude_each_other "new_orders.csv").
  reflexivity.
Defined.

(** *** Table recommendations *)

Section RecommendFacts.
Import Recommend.

Lemma string_length_app (a b : string) :
  String.length (a ++ b) = (String.length a + String.length b)%nat.
Proof.
  induction a as [|x a IH]; cbn; [reflexivity|]. rewrite IH. reflexivity.
Qed.

Lemma contains_char_cons (c a : ascii) (s : string) :
  Str.contains (String c EmptyString) (String a s) =
  (Ascii.eqb c a || Str.contains (String c EmptyString) s)%bool.
Proof.
  cbn [Str.contains]. unfold Str.startswith. cbn [Str.strip_prefix].
  destruct (Ascii.eqb c a); reflexivity.
Qed.

Lemma find_char_skip (c : ascii) (pre rest : string) :
  Str.contains (String c EmptyString) pre = false ->
  find_char c (pre ++ String c rest) = Some (String.length pre).
Proof.
  induction pre as [|a pre IH]; intro H.
  - cbn. rewrite Ascii.eqb_refl. reflexivity.
  - rewrite contains_char_cons in H. apply orb_false_iff in H. destruct H as [Ha Hp].
    cbn [append find_char String.length].
    rewrite Ascii.eqb_sym, Ha, (IH Hp). reflexivity.
Qed.

Lemma rfind_char_none (c : ascii) (post : string) :
  Str.contains (String c EmptyString) post = false -> rfind_char c post = None.
Proof.
  induction post as [|a post IH]; intro H; [reflexivity|].
  rewrite contains_char_cons in H. apply orb_false_iff in H. destruct H as [Ha Hp].
  cbn [rfind_char]. rewrite (IH Hp), Ascii.eqb_sym, Ha. reflexivity.
Qed.

Lemma rfind_char_last (c : ascii) (x post : string) :
  Str.contains (String c EmptyString) post = false ->
  rfind_char c (x ++ String c post) = Some (String.length x).
Proof.
  intro H. induction x as [|a x IH].
  - cbn [append rfind_char String.length].
    rewrite (rfind_char_none c post H), Ascii.eqb_refl. reflexivity.
  - cbn [append rfind_char String.length]. rewrite IH. reflexivity.
Qed.

Lemma substring_skip (a b : string) (n : nat) :
  String.substring (String.length a) n (a ++ b) = String.substring 0 n b.
Proof.
  induction a as [|x a IH]; [reflexivity|]. cbn [append String.length]. exact IH.
Qed.

Lemma substring_prefix (m rest : string) :
  String.substring 0 (String.length m) (m ++ rest) = m.
Proof.
  induction m as [|x m IH].
  - destruct rest; reflexivity.
  - cbn [append String.length String.substring]. rewrite IH. reflexivity.
Qed.

Lemma extracted_columns_are_a_dict (data : loaded) (file_path : string)
    (sheet_name : option string) :
  exists cols,
    dict_get "columns" (as_dict (fst (extract_schema_loaded data file_path sheet_name)))
    = Some (PDict cols).
Proof.
  destruct data as [df|sheets]; cbn [extract_schema_loaded].
  - destruct (extract_schema_from_df df file_path sheet_name) as [schema df'] eqn:E.
    cbn [fst]. replace schema with (fst (extract_schema_from_df df file_path sheet_name))
      by (rewrite E; reflexivity).
    unfold extract_schema_from_df.
    destruct (df_empty (dropna_all df)); [eexists; reflexivity|].
    destruct (column_details_loop _ _ _); eexists; reflexivity.
  - eexists. reflexivity.
Qed.

(** X16. Whatever text surrounds it, the JSON object of an answer is found:
    the span runs from the first opening brace to the last closing brace. *)
Theorem json_span_finds_the_wrapped_object (pre body post : string) :
  Str.contains "{" pre = false ->
  Str.contains "}" post = false ->
  json_span (pre ++ "{" ++ body ++ "}" ++ post) = Some ("{" ++ body ++ "}")%string.
Proof.
  intros Hpre Hpost. unfold json_span.
  change ("{" ++ body ++ "}" ++ post)%string
    with (String "{" (body ++ String "}" post))%string.
  rewrite (find_char_skip "{" pre _ Hpre).
  replace (pre ++ String "{" (body ++ String "}" post))%string
    with ((pre ++ String "{" body) ++ String "}" post)%string
    by (rewrite string_app_assoc; reflexivity).
  rewrite (rfind_char_last "}" _ post Hpost), string_length_app.
  cbn [String.length].
  replace (String.length pre <? String.length pre + S (String.length body))%nat
    with true by (symmetry; apply Nat.ltb_lt; lia).
  unfold slice.
  replace (String.length pre + S (String.length body) + 1 - String.length pre)%nat
    with (String.length ("{" ++ body ++ "}")%string)
    by (cbn [append String.length]; rewrite string_length_app; cbn; lia).
  rewrite string_app_assoc, substring_skip.
  replace (String "{" body ++ String "}" post)%string
    with (("{" ++ body ++ "}") ++ post)%string
    by (cbn [append]; rewrite string_app_assoc; reflexivity).
  rewrite substring_prefix. reflexivity.
Qed.

(** X17. What the recommendation tool returns is either an error object
    with the one key [error], or the answer of the service to the
    table-matching request for the columns of the sheet and the tables of
    the database, cut to its JSON span and parsed to an object, with
    [source_file_schema] set to the column labels of the sheet. *)
Theorem recommendations_are_an_error_or_name_the_file_columns
    (env : Env) (file_path sheet_name : string) :
  (exists msg,
      get_recommendations_for_sheet env file_path sheet_name = [("error", PStr msg)]) \/
  (exists data answer json_str parsed,
      let file_columns :=
        map fst (schema_columns
          (fst (extract_schema_loaded data file_path (read_name sheet_name)))) in
      get_databricks_engine (world env) = true /\
      read_sheet (world env) file_path (read_name sheet_name) = Ok data /\
      file_columns <> [] /\
      Databricks.get_all_table_schemas (inspector env) <> [] /\
      get_llm_streaming_response (world env)
        (get_table_matching_prompt env file_columns
           (Databricks.get_all_table_schemas (inspector env))) = Some answer /\
      json_span answer = Some json_str /\
      json_loads (world env) json_str = Some (PDict parsed) /\
      get_recommendations_for_sheet env file_path sheet_name =
      dict_set "source_file_schema" (str_list file_columns) parsed).
Proof.
  unfold get_recommendations_for_sheet, recommendations_body. cbv zeta.
  fold (read_name sheet_name).
  destruct (get_databricks_engine (world env)); cbn [negb]; [|left; eexists; reflexivity].
  destruct (read_sheet (world env) file_path (read_name sheet_name)) as [data|e] eqn:R;
    cbn [bind]; [|left; eexists; reflexivity].
  destruct (dict_mem "error" _ || negb _)%bool eqn:G; [left; eexists; reflexivity|].
  destruct (Databricks.get_all_table_schemas (inspector env)) as [|t ts] eqn:T;
    [left; eexists; reflexivity|].
  destruct (get_llm_streaming_response (world env) _) as [answer|] eqn:L;
    [|left; eexists; reflexivity].
  destruct (json_span answer) as [js|] eqn:S; [|left; eexists; reflexivity].
  destruct (json_loads (world env) js) as [[c|l|d]|] eqn:J; cbn [set_item];
    try (left; eexists; reflexivity).
  right. exists data, answer, js, d.
  split; [reflexivity|]. split; [reflexivity|]. split.
  - apply orb_false_iff in G. destruct G as [_ G]. apply negb_false_iff in G.
    destruct (extracted_columns_are_a_dict data file_path (read_name sheet_name))
      as [cols Hcols].
    unfold schema_columns, dict_get_default. unfold dict_get_default in G.
    rewrite Hcols in G |- *. cbn [as_dict].
    destruct cols; [discriminate G|discriminate].
  - split; [discriminate|]. split; [exact L|]. split; [exact S|].
    split; [exact J|reflexivity].
Qed.

(** X18. A sheet of a workbook that is named like the placeholder of CSV
    files is read with no sheet name, which loads every sheet at once:
    the recommendation tool and the validation tool both answer with an
    extraction error. *)
Theorem sheet_named_like_the_csv_placeholder_fails
    (env : Env) (file_path table_name : string)
    (sheets : list (string * DataFrame)) :
  get_databricks_engine (world env) = true ->
  Files.is_excel file_path = true ->
  read_excel (world env) file_path None = Ok (LSheets sheets) ->
  get_recommendations_for_sheet env file_path "csv_data" =
    [("error", PStr "Schema extraction failed for the file.")] /\
  exists report,
    run_validation_for_single_sheet (world env) file_path "csv_data"
      (Some table_name) = Ok report /\
    dict_get "error" report =
      Some (PStr "Schema extraction failed for sheet 'CSV Data'").
Proof.
  intros Hengine Hexcel Hread. split.
  - unfold get_recommendations_for_sheet, recommendations_body. cbv zeta.
    rewrite Hengine. cbn [negb String.eqb Ascii.eqb Bool.eqb].
    unfold read_sheet. unfold Files.is_excel in Hexcel. rewrite Hexcel, Hread.
    reflexivity.
  - unfold run_validation_for_single_sheet. cbv zeta.
    rewrite Hengine. cbn [negb String.eqb Ascii.eqb Bool.eqb].
    unfold read_sheet. unfold Files.is_excel in Hexcel. rewrite Hexcel, Hread.
    cbn [bind]. eexists. split; reflexivity.
Qed.

End RecommendFacts.

(** *** The test run *)

Section DriverFacts.
Import Recommend Driver.

Variable env : Env.
Variable user_input : string -> string.
Variable file_path : string.

Lemma process_sheets_inv (sheet_names : list string) :
  forall (acc : result dict) (collection : dict),
    fold_left (process_sheet env user_input file_path) sheet_names acc = Ok collection ->
    exists start,
      acc = Ok start /\
      forall sheet entry,
        In (sheet, entry) collection ->
        In (sheet, entry) start \/
        (In sheet sheet_names /\
         Terms.accepted_report env user_input file_path sheet entry).
Proof.
  induction sheet_names as [|name names IH]; intros acc collection H;
    cbn [fold_left] in H.
  - exists collection. split; [exact H|]. auto.
  - apply IH in H. destruct H as [c1 [Hstep Hin]].
    unfold process_sheet in Hstep. destruct acc as [c0|e]; cbn [bind] in Hstep;
      [|discriminate Hstep].
    exists c0. split; [reflexivity|].
    intros sheet entry Hentry. apply Hin in Hentry. clear Hin.
    destruct Hentry as [Hentry|[Hs Ha]]; [|right; split; [right; exact Hs|exact Ha]].
    destruct (dict_mem "error" (get_recommendations_for_sheet env file_path name))
      eqn:Hrec; [inversion Hstep; subst; auto|].
    destruct (truthy (PStr (user_input name))) eqn:Htable; cbn [negb] in Hstep;
      [|inversion Hstep; subst; auto].
    destruct (run_validation_for_single_sheet (world env) file_path name
                (Some (user_input name))) as [report|e] eqn:Hrun;
      cbn [bind] in Hstep; [|discriminate Hstep].
    destruct (dict_mem "error" report) eqn:Herr; inversion Hstep; subst; [auto|].
    apply dict_set_in in Hentry. destruct Hentry as [[-> ->]|Hentry]; [|auto].
    right. split; [left; reflexivity|].
    unfold Terms.accepted_report. split; [exact Hrec|]. split; [exact Htable|].
    exists report. auto.
Qed.

(** X19. Every entry of the combined report belongs to one of the sheets
    and is a validation report without an [error] field, obtained for the
    table the user named after a recommendation without error: the error
    reports of the pipeline never reach the combined report. *)
Theorem combined_report_holds_accepted_reports_only
    (sheet_names : list string) (collection : dict) :
  process_sheets env user_input file_path sheet_names = Ok collection ->
  forall sheet entry,
    In (sheet, entry) collection ->
    In sheet sheet_names /\
    Terms.accepted_report env user_input file_path sheet entry.
Proof.
  unfold process_sheets. intros H sheet entry Hin.
  apply process_sheets_inv in H. destruct H as [start [Hstart Hall]].
  inversion Hstart; subst start.
  destruct (Hall sheet entry Hin) as [[]|Hok]. exact Hok.
Qed.

Lemma process_sheets_offline (sheet_names : list string) :
  get_databricks_engine (world env) = false ->
  forall collection,
    fold_left (process_sheet env user_input file_path) sheet_names (Ok collection)
    = Ok collection.
Proof.
  intro Hoff. induction sheet_names as [|name names IH]; intro collection;
    cbn [fold_left]; [reflexivity|].
  unfold process_sheet at 2. cbn [bind].
  unfold get_recommendations_for_sheet, recommendations_body.
  rewrite Hoff. cbn [negb]. cbn. apply IH.
Qed.

(** X20. Without a database connection the test run still ends with a
    combined report, which holds no sheet at all; the user is not asked
    for any table. *)
Theorem offline_test_run_reports_no_sheet
    (sheet_names : string -> result (list string)) :
  get_databricks_engine (world env) = false ->
  Files.get_sheet_names sheet_names file_path <> [] ->
  run_test_on env sheet_names user_input file_path =
  Ok (Some [("User_file_name", PStr file_path);
            ("sheet_validation_results", PDict [])]).
Proof.
  intros Hoff Hsheets. unfold run_test_on.
  destruct (Files.get_sheet_names sheet_names file_path) as [|n ns];
    [contradiction|].
  unfold process_sheets. rewrite (process_sheets_offline _ Hoff). reflexivity.
Qed.

End DriverFacts.

Lemma json_span_finds_the_wrapped_object_witness :
  Recommend.json_span ("Here is the answer: " ++ "{" ++ "x" ++ "}" ++ " Thanks.")
  = Some ("{" ++ "x" ++ "}")%string.
Proof.
  apply (json_span_finds_the_wrapped_object "Here is the answer: " "x" " Thanks.").
  - reflexivity.
  - reflexivity.
Defined.

Lemma sheet_named_like_the_csv_placeholder_fails_witness :
  Recommend.get_recommendations_for_sheet Samples.workbook_env "book.xlsx" "csv_data" =
    [("error", PStr "Schema extraction failed for the file.")] /\
  exists report,
    run_validation_for_single_sheet (Recommend.world Samples.workbook_env)
      "book.xlsx" "csv_data" (Some "orders") = Ok report /\
    dict_get "error" report =
      Some (PStr "Schema extraction failed for sheet 'CSV Data'").
Proof.
  apply (sheet_named_like_the_csv_placeholder_fails Samples.workbook_env "book.xlsx"
           "orders" [("csv_data", orders_df)]).
  - reflexivity.
  - reflexivity.
  - reflexivity.
Defined.

Lemma combined_report_holds_accepted_reports_only_witness :
  In "csv_data" ["csv_data"] /\
  Terms.accepted_report Samples.matching_env Samples.always_orders "orders.csv"
    "csv_data" Samples.orders_entry.
Proof.
  apply (combined_report_holds_accepted_reports_only Samples.matching_env
           Samples.always_orders "orders.csv" ["csv_data"] Samples.orders_collection).
  - vm_compute. reflexivity.
  - left. reflexivity.
Defined.

Lemma offline_test_run_reports_no_sheet_witness :
  Driver.run_test Samples.offline_env (fun _ => Ok []) Samples.always_orders =
  Ok (Some [("User_file_name", PStr Driver.FILE_TO_TEST);
            ("sheet_validation_results", PDict [])]).
Proof.
  apply (offline_test_run_reports_no_sheet Samples.offline_env Samples.always_orders
           Driver.FILE_TO_TEST (fun _ => Ok [])).
  - reflexivity.
  - discriminate.
Defined.

(** *** Schema comparison by name *)

Section CompareFacts.

Lemma negb_mem_str (x : string) (l : list string) :
  negb (mem_str x l) = true <-> ~ In x l.
Proof.
  rewrite negb_true_iff. split.
  - intros H Hin. apply mem_str_In in Hin. congruence.
  - intro H. destruct (mem_str x l) eqn:E; [|reflexivity].
    apply mem_str_In in E. contradiction.
Qed.

(** X21. For a file schema without error, the comparison lists as missing
    exactly the table columns that are no column of the file, and as extra
    exactly the file columns that are no column of the table. *)
Theorem compare_schemas_lists_the_differences
    (file_schema cols : dict) (db_schema : TableSchema) :
  dict_mem "error" file_schema = false ->
  dict_get "columns" file_schema = Some (PDict cols) ->
  exists missing extra,
    compare_schemas file_schema db_schema =
      PDict [("columns_missing_from_file", str_list missing);
             ("columns_extra_in_file", str_list extra)] /\
    (forall c, In c missing <-> In c (map fst db_schema) /\ ~ In c (map fst cols)) /\
    (forall c, In c extra <-> In c (map fst cols) /\ ~ In c (map fst db_schema)).
Proof.
  intros Herr Hcols. unfold compare_schemas, dict_mem, dict_get_default.
  unfold dict_mem in Herr.
  destruct (dict_get "error" file_schema); [discriminate Herr|].
  rewrite Hcols. cbn [negb orb].
  eexists. eexists. split; [reflexivity|].
  split; intro c; rewrite filter_In, negb_mem_str; reflexivity.
Qed.

End CompareFacts.

Lemma compare_schemas_lists_the_differences_witness :
  exists missing extra,
    compare_schemas [("columns", PDict [("qty", qty_details)])] id_schema =
      PDict [("columns_missing_from_file", str_list missing);
             ("columns_extra_in_file", str_list extra)] /\
    (forall c, In c missing <->
               In c (map fst id_schema) /\ ~ In c (map fst [("qty", qty_details)])) /\
    (forall c, In c extra <->
               In c (map fst [("qty", qty_details)]) /\ ~ In c (map fst id_schema)).
Proof.
  apply (compare_schemas_lists_the_differences
           [("columns", PDict [("qty", qty_details)])] [("qty", qty_details)] id_schema).
  - reflexivity.
  - reflexivity.
Defined.

(** *** The counts of a primary-key violation *)

Section DuplicateCounts.

Lemma cell_eqb_same (a : cell) : cell_eqb a a = true.
Proof.
  destruct a; cbn; try reflexivity; try apply Qeq_bool_refl; apply String.eqb_refl.
Qed.

Lemma cell_eqb_trans (a b c : cell) :
  cell_eqb a b = true -> cell_eqb b c = true -> cell_eqb a c = true.
Proof.
  destruct a, b, c; cbn; intros H1 H2;
    try discriminate H1; try discriminate H2; try reflexivity;
    try (eapply Qeq_bool_trans; eassumption);
    apply String.eqb_eq in H1; apply String.eqb_eq in H2; subst;
    apply String.eqb_refl.
Qed.

Lemma cell_eqb_congr (a b x : cell) :
  cell_eqb a b = true -> cell_eqb a x = cell_eqb b x.
Proof.
  intro H. destruct (cell_eqb a x) eqn:E1, (cell_eqb b x) eqn:E2; try reflexivity.
  - rewrite cell_eqb_comm in H.
    rewrite (cell_eqb_trans b a x H E1) in E2. discriminate E2.
  - rewrite (cell_eqb_trans a b x H E2) in E1. discriminate E1.
Qed.

Lemma count_eq_congr (a b : cell) (l : list cell) :
  cell_eqb a b = true -> count_eq a l = count_eq b l.
Proof.
  intro H. unfold count_eq. f_equal. apply filter_ext.
  intro x. apply cell_eqb_congr. exact H.
Qed.

Lemma length_filter_le {A : Type} (p : A -> bool) (l : list A) :
  (List.length (filter p l) <= List.length l)%nat.
Proof.
  induction l as [|x l IH]; cbn; [lia|]. destruct (p x); cbn; lia.
Qed.

Lemma unique_acc_split (l : list cell) :
  forall seen1 seen2,
    unique_acc (seen1 ++ seen2) l =
    unique_acc seen1 (filter (fun v => negb (existsb (cell_eqb v) seen2)) l).
Proof.
  induction l as [|v l IH]; intros seen1 seen2; cbn [unique_acc filter]; [reflexivity|].
  rewrite existsb_app.
  destruct (existsb (cell_eqb v) seen2) eqn:E2; cbn [negb].
  - rewrite orb_true_r. apply IH.
  - rewrite orb_false_r. cbn [unique_acc].
    destruct (existsb (cell_eqb v) seen1) eqn:E1; [apply IH|].
    f_equal. apply (IH (v :: seen1) seen2).
Qed.

(** When each value of a list occurs at least twice, the list is at least
    twice as long as the list of its distinct values. *)
Lemma doubled_values_bound (n : nat) :
  forall l,
    (List.length l <= n)%nat ->
    (forall k, In k l -> (2 <= count_eq k l)%nat) ->
    (2 * List.length (unique l) <= List.length l)%nat.
Proof.
  induction n as [|n IH]; intros l Hlen Hall.
  - destruct l; [cbn; lia|cbn in Hlen; lia].
  - destruct l as [|x l']; [cbn; lia|].
    set (notx := fun v => negb (existsb (cell_eqb v) [x])).
    assert (Hu : unique (x :: l') = x :: unique (filter notx l')).
    { unfold unique. cbn [unique_acc existsb]. f_equal.
      apply (unique_acc_split l' [] [x]). }
    rewrite Hu. cbn [List.length].
    pose proof (filter_split_length notx l') as Hsplit.
    assert (Hx : (1 <= List.length (filter (fun v => negb (notx v)) l'))%nat).
    { pose proof (Hall x (or_introl eq_refl)) as H2.
      unfold count_eq in H2. cbn [filter] in H2. rewrite cell_eqb_same in H2.
      cbn [List.length] in H2.
      rewrite (filter_ext (fun v => negb (notx v)) (cell_eqb x)); [lia|].
      intro v. unfold notx. cbn [existsb]. rewrite orb_false_r, negb_involutive.
      apply cell_eqb_comm. }
    assert (Hrest : (2 * List.length (unique (filter notx l'))
                     <= List.length (filter notx l'))%nat).
    { apply IH.
      - pose proof (length_filter_le notx l'). cbn [List.length] in Hlen. lia.
      - intros k Hk. apply filter_In in Hk. destruct Hk as [Hk Hnot].
        pose proof (Hall k (or_intror Hk)) as H2.
        unfold notx in Hnot. cbn [existsb] in Hnot.
        rewrite orb_false_r, negb_true_iff in Hnot.
        unfold count_eq in H2 |- *. cbn [filter] in H2. rewrite Hnot in H2.
        rewrite filter_filter_and.
        rewrite (filter_ext (fun v => (notx v && cell_eqb k v)%bool) (cell_eqb k));
          [exact H2|].
        intro v. destruct (cell_eqb k v) eqn:E; [|apply andb_false_r].
        rewrite andb_true_r. unfold notx. cbn [existsb].
        rewrite orb_false_r, negb_true_iff.
        destruct (cell_eqb v x) eqn:E'; [|reflexivity].
        rewrite (cell_eqb_trans k v x E E') in Hnot. discriminate Hnot. }
    lia.
Qed.

Lemma pk_duplicates_closed (s : Series) (k : cell) :
  In k (pk_duplicates s) -> (2 <= count_eq k (pk_duplicates s))%nat.
Proof.
  rewrite pk_duplicates_spec. intro Hk.
  apply filter_In in Hk. destruct Hk as [_ Hk].
  unfold occurs_twice in Hk. apply Nat.leb_le in Hk.
  unfold count_eq at 1. rewrite filter_filter_and.
  rewrite (filter_ext (fun v => (occurs_twice (pk_keys s) v && cell_eqb k v)%bool)
                      (cell_eqb k)); [exact Hk|].
  intro v. destruct (cell_eqb k v) eqn:E; [|apply andb_false_r].
  rewrite andb_true_r. unfold occurs_twice.
  rewrite <- (count_eq_congr k v (pk_keys s) E). apply Nat.leb_le. exact Hk.
Qed.

Lemma pk_duplicates_length (s : Series) :
  (List.length (pk_duplicates s) <= List.length (s_values s))%nat.
Proof.
  rewrite pk_duplicates_spec.
  etransitivity; [apply length_filter_le|].
  unfold pk_keys, dropna. destruct (is_object s).
  - etransitivity; apply length_filter_le.
  - apply length_filter_le.
Qed.

(** X22. In a primary-key violation the number of records involved is at
    least twice the number of distinct duplicated keys, which is at least
    one, and at most the number of rows. *)
Theorem primary_key_violation_counts_are_consistent
    (name : string) (details : ColumnDetails) (s : Series) (v : pyval) :
  In v (primary_key_check name details s) ->
  exists distinct total,
    item "distinct_keys_duplicated" v = Ok (PNat distinct) /\
    item "total_duplicate_records" v = Ok (PNat total) /\
    (1 <= distinct)%nat /\
    (2 * distinct <= total)%nat /\
    (total <= List.length (s_values s))%nat.
Proof.
  intro H. apply primary_key_check_inv in H.
  destruct H as [msg [_ [Hpos ->]]].
  exists (List.length (unique (pk_duplicates s))), (List.length (pk_duplicates s)).
  split; [reflexivity|]. split; [reflexivity|]. split; [lia|]. split.
  - apply (doubled_values_bound (List.length (pk_duplicates s))); [lia|].
    apply pk_duplicates_closed.
  - apply pk_duplicates_length.
Qed.

End DuplicateCounts.

Lemma primary_key_violation_counts_are_consistent_witness :
  exists distinct total,
    item "distinct_keys_duplicated"
         (nth 0 (primary_key_check "id" id_column ids_series) PNone)
      = Ok (PNat distinct) /\
    item "total_duplicate_records"
         (nth 0 (primary_key_check "id" id_column ids_series) PNone)
      = Ok (PNat total) /\
    (1 <= distinct)%nat /\
    (2 * distinct <= total)%nat /\
    (total <= List.length (s_values ids_series))%nat.
Proof.
  apply (primary_key_violation_counts_are_consistent "id" id_column ids_series).
  vm_compute. left. reflexivity.
Defined.

(** *** The predicate a CHECK constraint is tested with *)

Section ComplementFacts.

(** X23. For each of the six operators, a value violates the constraint
    exactly when the comparison the constraint asks for does not hold. *)
Theorem violates_is_the_complement_of_the_constraint
    (operator : string) (value x : Q) :
  In operator operators ->
  (violates operator value x = true <-> ~ Terms.constraint_holds operator x value).
Proof.
  unfold operators. intro H.
  repeat (destruct H as [<-|H]); [..|destruct H];
    unfold violates, Terms.constraint_holds, Qlt_bool;
    cbn [String.eqb Ascii.eqb Bool.eqb];
    rewrite ?negb_true_iff.
  - (* >= *) split.
    + intros E L. apply Qle_bool_iff in L. congruence.
    + intro N. destruct (Qle_bool value x) eqn:E; [|reflexivity].
      apply Qle_bool_iff in E. contradiction.
  - (* <= *) split.
    + intros E L. apply Qle_bool_iff in L. congruence.
    + intro N. destruct (Qle_bool x value) eqn:E; [|reflexivity].
      apply Qle_bool_iff in E. contradiction.
  - (* > *) rewrite Qle_bool_iff. split.
    + apply Qle_not_lt.
    + apply Qnot_lt_le.
  - (* < *) rewrite Qle_bool_iff. split.
    + apply Qle_not_lt.
    + apply Qnot_lt_le.
  - (* != *) rewrite Qeq_bool_iff. split.
    + intros E N. contradiction.
    + intro N. destruct (Qeq_dec x value) as [E|E]; [exact E|contradiction].
  - (* = *) split.
    + intros E N. apply Qeq_bool_iff in N. congruence.
    + intro N. destruct (Qeq_bool x value) eqn:E; [|reflexivity].
      apply Qeq_bool_iff in E. contradiction.
Qed.

End ComplementFacts.

Lemma violates_is_the_complement_of_the_constraint_witness :
  violates ">" 0 (-5 # 1) = true <-> ~ Terms.constraint_holds ">" (-5 # 1) 0.
Proof.
  apply (violates_is_the_complement_of_the_constraint ">" 0 (-5 # 1)).
  right. right. left. reflexivity.
Defined.

(** *** The snapshot, empty sheets and the narrative answer *)

Section RunFacts.

Lemma deterministic_steps_snapshot (w : World) (file_path : string)
    (sheet_name : option string) (table : string) (st st' : PState)
    (r : result Computed) :
  deterministic_steps w file_path sheet_name table st = (r, st') ->
  snapshot st' = snapshot st.
Proof.
  unfold deterministic_steps, mbind, get_state, set_frame, set_schema_analysis,
    lift, raise, ret.
  destruct (extract_schema_loaded (frame st) file_path sheet_name) as [fs df].
  destruct (dict_mem "error" (as_dict fs) ||
            negb (truthy (dict_get_default "columns" PNone (as_dict fs))))%bool;
    [intro H; inversion H; reflexivity|].
  destruct (get_db_schema w table) as [[db_schema|]|e];
    try (intro H; inversion H; reflexivity).
  destruct (get_llm_streaming_response w _) as [resp|];
    [|intro H; inversion H; reflexivity].
  destruct (json_loads w resp) as [analysis|]; [|intro H; inversion H; reflexivity].
  destruct (get_or "naming_mismatches" (PDict []) analysis) as [nm|e];
    [|intro H; inversion H; reflexivity].
  destruct (rename_loaded nm df) as [mapped|e]; [|intro H; inversion H; reflexivity].
  destruct (_create_violation_summary _ _) as [summary|e];
    intro H; inversion H; reflexivity.
Qed.

Lemma deterministic_steps_schema (w : World) (file_path : string)
    (sheet_name : option string) (table : string) (st st' : PState) (c : Computed) :
  deterministic_steps w file_path sheet_name table st = (Ok c, st') ->
  c_file_schema c =
  as_dict (fst (extract_schema_loaded (frame st) file_path sheet_name)).
Proof.
  unfold deterministic_steps, mbind, get_state, set_frame, set_schema_analysis,
    lift, raise, ret.
  destruct (extract_schema_loaded (frame st) file_path sheet_name) as [fs df].
  destruct (dict_mem "error" (as_dict fs) ||
            negb (truthy (dict_get_default "columns" PNone (as_dict fs))))%bool;
    [discriminate|].
  destruct (get_db_schema w table) as [[db_schema|]|e]; try discriminate.
  destruct (get_llm_streaming_response w _) as [resp|]; [|discriminate].
  destruct (json_loads w resp) as [analysis|]; [|discriminate].
  destruct (get_or "naming_mismatches" (PDict []) analysis) as [nm|e];
    [|discriminate].
  destruct (rename_loaded nm df) as [mapped|e]; [|discriminate].
  destruct (_create_violation_summary _ _) as [summary|e]; [|discriminate].
  intro H. inversion H; subst; clear H. reflexivity.
Qed.

(** X24. A run records a snapshot of the schema exactly when it ends
    without an exception and the table name is not empty; the snapshot
    holds the columns extracted from the data as loaded, under the names
    of the file.  A run that ends in the error report records nothing. *)
Theorem snapshot_is_recorded_by_successful_runs_only
    (w : World) (data : loaded) (file_path : string)
    (sheet_name : option string) (table : string) :
  match validation_body w file_path sheet_name table (initial_state data) with
  | (Ok _, st) =>
      snapshot st =
      if truthy (PStr table)
      then Some (Terms.expected_snapshot data file_path sheet_name table)
      else None
  | (Raise _, st) => snapshot st = None
  end.
Proof.
  unfold validation_body, mbind.
  destruct (deterministic_steps w file_path sheet_name table (initial_state data))
    as [[c|e] st1] eqn:D.
  - pose proof (deterministic_steps_snapshot _ _ _ _ _ _ _ D) as Hs.
    pose proof (deterministic_steps_schema _ _ _ _ _ _ _ D) as Hc.
    cbn [initial_state snapshot frame] in Hs, Hc.
    unfold narrative_step, mbind, lift, ret, raise, set_snapshot.
    destruct (get_llm_streaming_response w _) as [raw|]; [|exact Hs].
    destruct (json_loads w raw) as [j|].
    + destruct (py_update (c_report c) j) as [r1|e]; [|exact Hs].
      destruct (truthy (PStr table)); cbn [snapshot]; [|exact Hs].
      unfold Terms.expected_snapshot. rewrite Hc. reflexivity.
    + destruct (truthy (PStr table)); cbn [snapshot]; [|exact Hs].
      unfold Terms.expected_snapshot. rewrite Hc. reflexivity.
  - apply deterministic_steps_snapshot in D. exact D.
Qed.

(** X25. A sheet without a row that holds a value is answered with the
    error report of a failed schema extraction; the database is not
    consulted and the caller's frame has lost its blank rows. *)
Theorem blank_sheet_is_reported_as_extraction_failure
    (w : World) (df : DataFrame) (file_path : string)
    (sheet_name : option string) (table : string) :
  df_empty (dropna_all df) = true ->
  _run_validation_for_sheet_internal w (LFrame df) file_path sheet_name (Some table) =
  Ok (error_report w file_path sheet_name
        (ValueError ("Schema extraction failed for sheet '" ++
                     sheet_display sheet_name ++ "'")),
      PDict [],
      mkPState (PDict []) (LFrame (dropna_all df)) None).
Proof.
  intro H. unfold _run_validation_for_sheet_internal, validation_body, mbind,
    deterministic_steps, mbind, get_state, set_frame, raise, initial_state.
  cbn [frame extract_schema_loaded]. unfold extract_schema_from_df. rewrite H.
  reflexivity.
Qed.

Lemma dict_get_update_absent (k : string) (other : dict) :
  ~ In k (map fst other) ->
  forall d, dict_get k (dict_update d other) = dict_get k d.
Proof.
  unfold dict_update. induction other as [|[k0 v0] o IH]; intros Hn d;
    cbn [fold_left fst snd]; [reflexivity|].
  rewrite IH.
  - rewrite dict_get_set. destruct (String.eqb k k0) eqn:E; [|reflexivity].
    apply String.eqb_eq in E. subst k0. exfalso. apply Hn. left. reflexivity.
  - intro Hin. apply Hn. right. exact Hin.
Qed.

Lemma dict_get_update_in (k : string) (v : pyval) (other : dict) :
  NoDup (map fst other) -> In (k, v) other ->
  forall d, dict_get k (dict_update d other) = Some v.
Proof.
  induction other as [|[k0 v0] o IH]; intros Hnd Hin d; [destruct Hin|].
  cbn [map fst] in Hnd. inversion Hnd as [|? ? Hnotin Hnd']; subst.
  destruct Hin as [Heq|Hin].
  - inversion Heq; subst.
    change (dict_update d ((k, v) :: o)) with (dict_update (dict_set k v d) o).
    rewrite (dict_get_update_absent k o Hnotin), dict_get_set, String.eqb_refl.
    reflexivity.
  - change (dict_update d ((k0, v0) :: o)) with (dict_update (dict_set k0 v0 d) o).
    apply IH; assumption.
Qed.

(** X26. Every field of a narrative answer that parses to an object ends
    up in the report with the value the service gave it, also when the
    field is one of the sections computed before, such as
    [data_type_mismatch]. *)
Theorem narrative_fields_replace_the_computed_ones
    (w : World) (table : string) (c : Computed) (st : PState)
    (answer : string) (fields : dict) (k : string) (v : pyval) :
  get_llm_streaming_response w
    (get_analysis_prompt w (c_analysis c) (c_violations_summary c)
                         (load_historical_schemas w table)) = Some answer ->
  json_loads w answer = Some (PDict fields) ->
  NoDup (map fst fields) ->
  In (k, v) fields ->
  exists report st',
    narrative_step w table c st = (Ok report, st') /\
    dict_get k report = Some v.
Proof.
  intros Hllm Hjson Hnd Hin.
  unfold narrative_step, mbind, lift, ret, raise, set_snapshot.
  rewrite Hllm, Hjson. cbn [py_update].
  destruct (truthy (PStr table)); eexists; eexists;
    (split; [reflexivity|apply dict_get_update_in; assumption]).
Qed.

End RunFacts.

Lemma blank_sheet_is_reported_as_extraction_failure_witness :
  _run_validation_for_sheet_internal ids_world (LFrame Samples.blank_df)
    "orders.csv" None (Some "orders") =
  Ok (error_report ids_world "orders.csv" None
        (ValueError ("Schema extraction failed for sheet '" ++
                     sheet_display None ++ "'")),
      PDict [],
      mkPState (PDict []) (LFrame (dropna_all Samples.blank_df)) None).
Proof.
  apply (blank_sheet_is_reported_as_extraction_failure ids_world Samples.blank_df
           "orders.csv" None "orders").
  reflexivity.
Defined.

Lemma narrative_fields_replace_the_computed_ones_witness :
  exists report st',
    narrative_step (orders_world (Some "final-analysis")) "orders" orders_computed
      orders_state = (Ok report, st') /\
    dict_get "validation_summary" report =
      Some (PDict [("status", PStr "Success")]).
Proof.
  apply (narrative_fields_replace_the_computed_ones
           (orders_world (Some "final-analysis")) "orders" orders_computed
           orders_state "final-analysis"
           [("validation_summary", PDict [("status", PStr "Success")])]).
  - reflexivity.
  - reflexivity.
  - constructor; [intros []|constructor].
  - left. reflexivity.
Defined.

(** *** When schema extraction succeeds *)

Section ExtractionFacts.

Lemma positions_from_count (name : string) (ls : list string) :
  forall i, List.length (positions_from name ls i) = count_occ string_dec ls name.
Proof.
  induction ls as [|l ls IH]; intro i; cbn [positions_from count_occ]; [reflexivity|].
  destruct (String.eqb name l) eqn:E.
  - apply String.eqb_eq in E. subst l.
    destruct (string_dec name name) as [_|N]; [|contradiction].
    cbn [List.length]. rewrite IH. reflexivity.
  - apply String.eqb_neq in E.
    destruct (string_dec l name) as [->|_]; [contradiction|]. apply IH.
Qed.

Lemma getitem_series_iff_once (df : DataFrame) (name : string) :
  (exists s, getitem df name = SelSeries s) <->
  count_occ string_dec (labels df) name = 1%nat.
Proof.
  unfold getitem. rewrite <- (positions_from_count name (labels df) 0).
  fold (positions name df).
  destruct (positions name df) as [|j [|j' js]]; cbn [List.length]; split;
    try (intros [s H]; discriminate H); try discriminate; eauto.
Qed.

Lemma column_details_loop_ok_iff (df : DataFrame) (cols : list string) :
  forall acc,
    (exists d, column_details_loop df cols acc = Ok d) <->
    (forall c, In c cols -> exists s, getitem df c = SelSeries s).
Proof.
  induction cols as [|c cols IH]; intro acc; cbn [column_details_loop].
  - split; [intros _ c []|eauto].
  - destruct (getitem df c) as [s| |] eqn:G.
    + rewrite IH. split.
      * intros H c' [<-|Hc']; [eauto|auto].
      * intros H c' Hc'. apply H. right. exact Hc'.
    + split; [intros [d H]; discriminate H|].
      intro H. destruct (H c (or_introl eq_refl)) as [s Hs].
      rewrite G in Hs. discriminate Hs.
    + split; [intros [d H]; discriminate H|].
      intro H. destruct (H c (or_introl eq_refl)) as [s Hs].
      rewrite G in Hs. discriminate Hs.
Qed.

Lemma all_once_iff_nodup (ls : list string) :
  (forall c, In c ls -> count_occ string_dec ls c = 1%nat) <-> NoDup ls.
Proof.
  rewrite (NoDup_count_occ string_dec). split.
  - intros H c. destruct (in_dec string_dec c ls) as [Hin|Hout].
    + rewrite (H c Hin). lia.
    + apply (count_occ_not_In string_dec) in Hout. rewrite Hout. lia.
  - intros H c Hin. apply (count_occ_In string_dec) in Hin.
    pose proof (H c). lia.
Qed.

(** X27. For a frame that keeps a row and has a column, schema extraction
    ends without an error exactly when no column label is repeated. *)
Theorem extraction_succeeds_iff_labels_are_distinct
    (df : DataFrame) (file_name : string) (sheet_name : option string) :
  df_empty (dropna_all df) = false ->
  (has_error (fst (extract_schema_from_df df file_name sheet_name)) = false <->
   NoDup (labels df)).
Proof.
  intro Hne. unfold extract_schema_from_df. rewrite Hne.
  change (labels (dropna_all df)) with (labels df).
  rewrite <- all_once_iff_nodup.
  pose proof (column_details_loop_ok_iff (dropna_all df) (labels df) []) as Hloop.
  destruct (column_details_loop (dropna_all df) (labels df) []) as [cd|e].
  - split; [|reflexivity]. intros _ c Hc.
    apply (getitem_series_iff_once (dropna_all df) c).
    apply (proj1 Hloop); [eauto|exact Hc].
  - split; [discriminate|]. intro H. exfalso.
    destruct (proj2 Hloop) as [d Hd]; [|discriminate Hd].
    intros c Hc. apply (getitem_series_iff_once (dropna_all df) c). apply H. exact Hc.
Qed.

End ExtractionFacts.

Lemma extraction_succeeds_iff_labels_are_distinct_witness :
  has_error (fst (extract_schema_from_df orders_df "orders.csv" None)) = false <->
  NoDup (labels orders_df).
Proof.
  apply (extraction_succeeds_iff_labels_are_distinct orders_df "orders.csv" None).
  reflexivity.
Defined.
